(** * Battle Decks: the game-session coordinator

    A shallow embedding of the [GameSession] Durable Object
    (game-session.ts, the current variant: it extends [DurableObject], keeps
    a room code and detects the final slide; the older copy without these is
    not modelled) together with the properties of its state machine: phase
    transitions driven by [startGame] and [alarm], vote acceptance, the
    next-slide selection and the order of persistence and broadcast.

    Conventions of the embedding.
    - JS numbers that hold counts and timestamps are [Z].
    - [Date.now()] is the argument [now] of every operation; one operation
      reads one instant.
    - A JS [Set<string>] is the list of its elements in insertion order.
    - A SQLite table with a primary key is a [gmap] from the key to the row;
      the TEXT columns that hold [JSON.stringify] of a string array are kept
      as the array ([JSON.parse] of [JSON.stringify] of a string array is that
      array).
    - The cursor's [one()] returns the row its query selects and throws when
      the query selects none. [loadGameState] and
      [recoverRoomCodeFromStorage] call it inside a try block whose catch only
      logs: there a missing row and a null result are the same, and both read
      as no row. [getNextSlide] calls it outside any try block, and its
      exception reaches the catch of [alarm].
    - [DECKS.get] throws for a key longer than 512 bytes; a namespace holds
      values under keys within the limit only.
    - The alarm of the storage is removed when it fires: the handler runs on
      the object without a pending alarm.
    - The [maxSlides] of a request, a JS number the code does not check to
      be whole, is taken at the whole numbers. The code only compares it with
      [slideCount], by [slideCount >= maxSlides], and the statements speak of
      this comparison and its negation alone: none concludes
      [slideCount + 1 <= maxSlides] from [slideCount < maxSlides].
    - Sends to sockets, broadcasts, writes of the session row and alarms are
      appended, in program order, to the [trace] of the object.
    - The numbers of ai-processor.ts (embeddings and similarity scores) are
      binary64 floats; the object [generateAdjacencyList] builds is the [gmap]
      of its entries, from the slide id to its neighbour lists. *)

From Stdlib Require Import ZArith String List Lia.
From Stdlib Require PrimFloat.
From stdpp Require Import base option list gmap strings.

Local Open Scope string_scope.
Local Open Scope Z_scope.

(** ** JavaScript values *)

(** Truthiness of a [string | null | undefined]: null, undefined and the
    empty string are falsy. *)
Definition truthy (s : option string) : bool :=
  match s with
  | None => false
  | Some x => negb (String.eqb x "")
  end.

(** [a || b] on such values. *)
Definition js_or (a : option string) (b : option string) : option string :=
  if truthy a then a else b.

(** [Set<string>]: elements in insertion order. *)
Module JsSet.

Definition has (s : list string) (x : string) : bool :=
  bool_decide (x ∈ s).

Definition add (s : list string) (x : string) : list string :=
  if has s x then s else s ++ [x].

Definition clear (s : list string) : list string := [].

Definition size (s : list string) : Z := Z.of_nat (length s).

(** [new Set(iterable)] *)
Definition of_list (l : list string) : list string := foldl add [] l.

(** [Array.from(set)] *)
Definition to_list (s : list string) : list string := s.

End JsSet.

(** A call that can throw: [Thrown] when it throws, [Returned] with its
    result otherwise. *)
Inductive Outcome (A : Type) :=
  | Thrown
  | Returned (a : A).
Arguments Thrown {A}.
Arguments Returned {A} a.

(** ** types/index.ts *)

Inductive GamePhase := waiting | presenting | voting | finished.

Inductive VoteChoice := Logical | Chaotic.

#[export] Instance GamePhase_eq_dec : EqDecision GamePhase.
Proof. solve_decision. Defined.

#[export] Instance VoteChoice_eq_dec : EqDecision VoteChoice.
Proof. solve_decision. Defined.

(** [votes: { logical: number; chaotic: number }] *)
Record Votes := { logical : Z; chaotic : Z }.

(** [GameState], with the property [timeRemaining] that [alarm] adds to the
    object on the final slide ([None] while the property is absent). *)
Record GameState := {
  sessionId : string;
  currentSlide : string;
  usedSlides : list string;
  phase : GamePhase;
  votes : Votes;
  voters : list string;
  votingOpen : bool;
  timerEnd : Z;
  slideCount : Z;
  maxSlides : Z;
  timeRemaining : option Z
}.

(** Row of table [adjacency]. *)
Record AdjacencyRecord := {
  slide_id : string;
  logical_slides : list string;
  chaotic_slides : list string
}.

(** Row of table [game_session]; [isGameRecord] holds of every such row. *)
Record GameRecord := {
  session_id : string;
  current_slide : string;
  used_slides : list string;
  rec_phase : GamePhase;
  slide_count : Z;
  max_slides : Z;
  timer_end : Z;
  created_at : Z;
  updated_at : Z
}.

(** What [getPublicGameState] returns. *)
Record PublicGameState := {
  pub_sessionId : string;
  pub_currentSlide : string;
  pub_phase : GamePhase;
  pub_votes : Votes;
  pub_timeRemaining : Z;
  pub_slideCount : Z;
  pub_maxSlides : Z;
  pub_votingOpen : bool
}.

(** [GameStatusResponse] *)
Record GameStatusResponse := {
  st_sessionId : string;
  st_currentSlide : string;
  st_phase : GamePhase;
  st_votes : Votes;
  st_timeRemaining : Z;
  st_slideCount : Z;
  st_votingOpen : bool
}.

(** [WebSocketMessage]: the [type] tag with its [data], and the timestamp. *)
Inductive MessageData :=
  | gameState_msg (data : option PublicGameState)
  | voteUpdate_msg (votes : option Votes)
  | slideChange_msg (slideId : string)
  | pong_msg (sent : Z)
  | error_msg (message : string).

Record WebSocketMessage := { msg_data : MessageData; timestamp : Z }.

(** ** HTTP responses of the RPC methods *)

Inductive ResponseBody :=
  | Failure (error : string)                    (* {success: false, error} *)
  | ErrorOnly (error : string)                  (* {error} *)
  | Initialized (sessionId : string)            (* {success: true, sessionId} *)
  | Started (gameState : option PublicGameState) (* {success: true, gameState} *)
  | Voted (currentVotes : Votes)                (* {success: true, currentVotes} *)
  | Status (response : GameStatusResponse)
  | Upgrade                                     (* status 101 with the client socket *)
  | Text (t : string).

Record Response := { status : Z; body : ResponseBody }.

(** ** The DECKS namespace (KV)

    What the namespace stores under the two keys the coordinator reads, at
    the types the source casts the parsed text to; an absent key and an empty
    text both read as [None]; [SyntaxError] stands for a text on which
    [JSON.parse] throws, with the message of the exception. The namespace
    stores nothing under a key longer than 512 bytes, and [get] of such a key
    throws. *)

Inductive Json (A : Type) :=
  | SyntaxError (message : string)
  | Parsed (a : A).
Arguments SyntaxError {A} message.
Arguments Parsed {A} a.

Record DeckMetadata := { deck_status : string }.

Record Neighbors := { neighbors_logical : list string; neighbors_chaotic : list string }.

Record KVNamespace := {
  (* the text stored under key = deck:<deckId>:metadata *)
  get_metadata : string -> option (Json DeckMetadata);
  (* the text stored under key = deck:<deckId>:adjacency; Object.entries order *)
  get_adjacency : string -> option (Json (list (string * Neighbors)));
  (* the message of the error get throws for a key over the limit *)
  get_error : string -> string;
  (* values are stored under keys of at most 512 bytes *)
  metadata_key_fits :
    forall key value, get_metadata key = Some value -> (String.length key <= 512)%nat;
  adjacency_key_fits :
    forall key value, get_adjacency key = Some value -> (String.length key <= 512)%nat
}.

(** [await this.env.DECKS.get(key)] *)
Definition kv_get {A} (DECKS : KVNamespace) (stored : string -> option A) (key : string)
  : Outcome (option A) :=
  if (512 <? String.length key)%nat then Thrown else Returned (stored key).

(** ** The Durable Object *)

Record SqlStorage := {
  adjacency : gmap string AdjacencyRecord;
  game_session : gmap string GameRecord;
  do_metadata : gmap string string
}.

Inductive Event :=
  | Saved (row : GameRecord)            (* INSERT OR REPLACE INTO game_session *)
  | AlarmSet (at_time : Z)              (* ctx.storage.setAlarm *)
  | Broadcast (m : WebSocketMessage)    (* send to every accepted socket *)
  | SentToSocket (m : WebSocketMessage) (* send to the socket just accepted *).

Record GameSession := {
  ctx_id : string;                  (* this.ctx.id.toString() *)
  sql : SqlStorage;                 (* ctx.storage.sql *)
  alarmTime : option Z;             (* the pending alarm of ctx.storage *)
  gameState : option GameState;     (* in memory *)
  roomCode : option string;         (* in memory *)
  trace : list Event
}.

(** Field updates. *)

Definition with_gameState (g : option GameState) (o : GameSession) : GameSession :=
  {| ctx_id := ctx_id o; sql := sql o; alarmTime := alarmTime o;
     gameState := g; roomCode := roomCode o; trace := trace o |}.

Definition with_roomCode (r : option string) (o : GameSession) : GameSession :=
  {| ctx_id := ctx_id o; sql := sql o; alarmTime := alarmTime o;
     gameState := gameState o; roomCode := r; trace := trace o |}.

Definition with_sql (s : SqlStorage) (o : GameSession) : GameSession :=
  {| ctx_id := ctx_id o; sql := s; alarmTime := alarmTime o;
     gameState := gameState o; roomCode := roomCode o; trace := trace o |}.

Definition with_alarmTime (a : option Z) (o : GameSession) : GameSession :=
  {| ctx_id := ctx_id o; sql := sql o; alarmTime := a;
     gameState := gameState o; roomCode := roomCode o; trace := trace o |}.

Definition emit (e : Event) (o : GameSession) : GameSession :=
  {| ctx_id := ctx_id o; sql := sql o; alarmTime := alarmTime o;
     gameState := gameState o; roomCode := roomCode o; trace := trace o ++ [e] |}.

Definition with_adjacency (a : gmap string AdjacencyRecord) (s : SqlStorage) : SqlStorage :=
  {| adjacency := a; game_session := game_session s; do_metadata := do_metadata s |}.

Definition with_game_session (g : gmap string GameRecord) (s : SqlStorage) : SqlStorage :=
  {| adjacency := adjacency s; game_session := g; do_metadata := do_metadata s |}.

Definition with_do_metadata (d : gmap string string) (s : SqlStorage) : SqlStorage :=
  {| adjacency := adjacency s; game_session := game_session s; do_metadata := d |}.

Definition set_phase (p : GamePhase) (g : GameState) : GameState :=
  {| sessionId := sessionId g; currentSlide := currentSlide g; usedSlides := usedSlides g;
     phase := p; votes := votes g; voters := voters g; votingOpen := votingOpen g;
     timerEnd := timerEnd g; slideCount := slideCount g; maxSlides := maxSlides g;
     timeRemaining := timeRemaining g |}.

Definition set_maxSlides (n : Z) (g : GameState) : GameState :=
  {| sessionId := sessionId g; currentSlide := currentSlide g; usedSlides := usedSlides g;
     phase := phase g; votes := votes g; voters := voters g; votingOpen := votingOpen g;
     timerEnd := timerEnd g; slideCount := slideCount g; maxSlides := n;
     timeRemaining := timeRemaining g |}.

Definition set_timerEnd (t : Z) (g : GameState) : GameState :=
  {| sessionId := sessionId g; currentSlide := currentSlide g; usedSlides := usedSlides g;
     phase := phase g; votes := votes g; voters := voters g; votingOpen := votingOpen g;
     timerEnd := t; slideCount := slideCount g; maxSlides := maxSlides g;
     timeRemaining := timeRemaining g |}.

Definition set_timeRemaining (t : option Z) (g : GameState) : GameState :=
  {| sessionId := sessionId g; currentSlide := currentSlide g; usedSlides := usedSlides g;
     phase := phase g; votes := votes g; voters := voters g; votingOpen := votingOpen g;
     timerEnd := timerEnd g; slideCount := slideCount g; maxSlides := maxSlides g;
     timeRemaining := t |}.

Definition set_votingOpen (b : bool) (g : GameState) : GameState :=
  {| sessionId := sessionId g; currentSlide := currentSlide g; usedSlides := usedSlides g;
     phase := phase g; votes := votes g; voters := voters g; votingOpen := b;
     timerEnd := timerEnd g; slideCount := slideCount g; maxSlides := maxSlides g;
     timeRemaining := timeRemaining g |}.

Definition set_votes (v : Votes) (g : GameState) : GameState :=
  {| sessionId := sessionId g; currentSlide := currentSlide g; usedSlides := usedSlides g;
     phase := phase g; votes := v; voters := voters g; votingOpen := votingOpen g;
     timerEnd := timerEnd g; slideCount := slideCount g; maxSlides := maxSlides g;
     timeRemaining := timeRemaining g |}.

Definition set_voters (v : list string) (g : GameState) : GameState :=
  {| sessionId := sessionId g; currentSlide := currentSlide g; usedSlides := usedSlides g;
     phase := phase g; votes := votes g; voters := v; votingOpen := votingOpen g;
     timerEnd := timerEnd g; slideCount := slideCount g; maxSlides := maxSlides g;
     timeRemaining := timeRemaining g |}.

Definition set_currentSlide (s : string) (g : GameState) : GameState :=
  {| sessionId := sessionId g; currentSlide := s; usedSlides := usedSlides g;
     phase := phase g; votes := votes g; voters := voters g; votingOpen := votingOpen g;
     timerEnd := timerEnd g; slideCount := slideCount g; maxSlides := maxSlides g;
     timeRemaining := timeRemaining g |}.

Definition set_usedSlides (u : list string) (g : GameState) : GameState :=
  {| sessionId := sessionId g; currentSlide := currentSlide g; usedSlides := u;
     phase := phase g; votes := votes g; voters := voters g; votingOpen := votingOpen g;
     timerEnd := timerEnd g; slideCount := slideCount g; maxSlides := maxSlides g;
     timeRemaining := timeRemaining g |}.

Definition set_slideCount (n : Z) (g : GameState) : GameState :=
  {| sessionId := sessionId g; currentSlide := currentSlide g; usedSlides := usedSlides g;
     phase := phase g; votes := votes g; voters := voters g; votingOpen := votingOpen g;
     timerEnd := timerEnd g; slideCount := n; maxSlides := maxSlides g;
     timeRemaining := timeRemaining g |}.

(** [votes[choice]++] *)
Definition incr_votes (choice : VoteChoice) (v : Votes) : Votes :=
  match choice with
  | Logical => {| logical := logical v + 1; chaotic := chaotic v |}
  | Chaotic => {| logical := logical v; chaotic := chaotic v + 1 |}
  end.

(** ** Methods as state transformers of the object *)

Definition M (A : Type) : Type := GameSession -> A * GameSession.

Definition ret {A} (a : A) : M A := fun o => (a, o).

Definition bind {A B} (m : M A) (k : A -> M B) : M B :=
  fun o => let (a, o') := m o in k a o'.

Definition get : M GameSession := fun o => (o, o).

Definition modify (f : GameSession -> GameSession) : M unit := fun o => (tt, f o).

Notation "x <- m ;; k" := (bind m (fun x => k))
  (at level 100, m at next level, right associativity).
Notation "m ;; k" := (bind m (fun _ => k))
  (at level 100, right associativity).

(** Mutation of [this.gameState!] in place. *)
Definition update_gameState (f : GameState -> GameState) : M unit :=
  modify (fun o => with_gameState (f <$> gameState o) o).

Definition gets {A} (f : GameSession -> A) : M A := fun o => (f o, o).

Definition when (b : bool) (m : M unit) : M unit := if b then m else ret tt.

(** [a || b] where [b] is a string. *)
Definition js_or_string (a : option string) (b : string) : string :=
  match js_or a (Some b) with
  | Some x => x
  | None => b
  end.

(** *** Tables *)

Definition mockSlides : list AdjacencyRecord :=
  [ {| slide_id := "slide_1";
       logical_slides := ["slide_2"; "slide_3"; "slide_4"];
       chaotic_slides := ["slide_8"; "slide_9"; "slide_10"] |};
    {| slide_id := "slide_2";
       logical_slides := ["slide_1"; "slide_3"; "slide_5"];
       chaotic_slides := ["slide_7"; "slide_9"; "slide_10"] |};
    {| slide_id := "slide_3";
       logical_slides := ["slide_1"; "slide_2"; "slide_6"];
       chaotic_slides := ["slide_8"; "slide_10"; "slide_7"] |};
    {| slide_id := "slide_4";
       logical_slides := ["slide_1"; "slide_5"; "slide_6"];
       chaotic_slides := ["slide_9"; "slide_10"; "slide_8"] |};
    {| slide_id := "slide_5";
       logical_slides := ["slide_2"; "slide_4"; "slide_6"];
       chaotic_slides := ["slide_7"; "slide_8"; "slide_10"] |};
    {| slide_id := "slide_6";
       logical_slides := ["slide_3"; "slide_4"; "slide_5"];
       chaotic_slides := ["slide_7"; "slide_8"; "slide_9"] |};
    {| slide_id := "slide_7";
       logical_slides := ["slide_8"; "slide_9"; "slide_10"];
       chaotic_slides := ["slide_1"; "slide_2"; "slide_3"] |};
    {| slide_id := "slide_8";
       logical_slides := ["slide_7"; "slide_9"; "slide_10"];
       chaotic_slides := ["slide_1"; "slide_3"; "slide_4"] |};
    {| slide_id := "slide_9";
       logical_slides := ["slide_7"; "slide_8"; "slide_10"];
       chaotic_slides := ["slide_2"; "slide_4"; "slide_5"] |};
    {| slide_id := "slide_10";
       logical_slides := ["slide_7"; "slide_8"; "slide_9"];
       chaotic_slides := ["slide_3"; "slide_5"; "slide_6"] |} ].

(** [INSERT INTO adjacency]: the primary key rejects a second row with the
    same [slide_id]; the statement then throws and the table is as it was. *)
Definition insert_adjacency (row : AdjacencyRecord) (t : gmap string AdjacencyRecord)
  : option (gmap string AdjacencyRecord) :=
  match t !! slide_id row with
  | Some _ => None
  | None => Some (<[slide_id row := row]> t)
  end.

(** The loop of inserts; [inr t] is the table at the insert that threw. *)
Fixpoint insert_all (rows : list AdjacencyRecord) (t : gmap string AdjacencyRecord)
  : gmap string AdjacencyRecord + gmap string AdjacencyRecord :=
  match rows with
  | [] => inl t
  | row :: rest =>
      match insert_adjacency row t with
      | Some t' => insert_all rest t'
      | None => inr t
      end
  end.

Definition table_of (r : gmap string AdjacencyRecord + gmap string AdjacencyRecord)
  : gmap string AdjacencyRecord :=
  match r with inl t => t | inr t => t end.

Definition loadMockSlideData : M unit :=
  modify (fun o =>
    with_sql (with_adjacency (table_of (insert_all mockSlides (adjacency (sql o)))) (sql o)) o).

Definition loadMockDataIfNeeded : M unit :=
  count <- gets (fun o => size (adjacency (sql o))) ;;
  when (Nat.eqb count 0) loadMockSlideData.

(** [CREATE TABLE IF NOT EXISTS] and [PRAGMA optimize] leave the rows as they
    are. *)
Definition initializeTables : M unit := loadMockDataIfNeeded.

Definition storeRoomCode (code : string) : M unit :=
  modify (fun o =>
    with_sql (with_do_metadata (<["room_code" := code]> (do_metadata (sql o))) (sql o)) o).

Definition recoverRoomCodeFromStorage : M unit :=
  result <- gets (fun o => do_metadata (sql o) !! "room_code") ;;
  match result with
  | Some value => modify (with_roomCode (Some value))
  | None => ret tt
  end.

(** [new GameSession(ctx, env)] on the storage of the object. *)
Definition constructor (id : string) (storage : SqlStorage) (alarm : option Z)
    (seen : list Event) : GameSession :=
  snd ((initializeTables ;; recoverRoomCodeFromStorage)
         {| ctx_id := id; sql := storage; alarmTime := alarm;
            gameState := None; roomCode := None; trace := seen |}).

(** *** Persistence of the session row *)

Definition toRecord (g : GameState) (now : Z) : GameRecord :=
  {| session_id := sessionId g;
     current_slide := currentSlide g;
     used_slides := JsSet.to_list (usedSlides g);
     rec_phase := phase g;
     slide_count := slideCount g;
     max_slides := maxSlides g;
     timer_end := timerEnd g;
     created_at := now;
     updated_at := now |}.

Definition saveGameState (now : Z) : M unit :=
  g <- gets gameState ;;
  match g with
  | None => ret tt
  | Some g =>
      modify (fun o =>
        emit (Saved (toRecord g now))
          (with_sql (with_game_session
                       (<[sessionId g := toRecord g now]> (game_session (sql o))) (sql o)) o))
  end.

Definition fromRecord (result : GameRecord) : GameState :=
  {| sessionId := session_id result;
     currentSlide := current_slide result;
     usedSlides := JsSet.of_list (used_slides result);
     phase := rec_phase result;
     votes := {| logical := 0; chaotic := 0 |};
     voters := [];
     votingOpen := false;
     timerEnd := timer_end result;
     slideCount := slide_count result;
     maxSlides := max_slides result;
     timeRemaining := None |}.

Definition loadGameState : M unit :=
  sessionId <- gets roomCode ;;
  when (negb (truthy sessionId)) recoverRoomCodeFromStorage ;;
  sessionId <- gets roomCode ;;
  id <- gets ctx_id ;;
  let sessionId := js_or_string sessionId id in
  result <- gets (fun o => game_session (sql o) !! sessionId) ;;
  match result with
  | Some result =>
      code <- gets roomCode ;;
      when (negb (truthy code) && negb (String.eqb (session_id result) id))
        (modify (with_roomCode (Some (session_id result))) ;;
         storeRoomCode (session_id result)) ;;
      modify (with_gameState (Some (fromRecord result)))
  | None => ret tt
  end.

Definition ensureGameStateLoaded : M unit :=
  g <- gets gameState ;;
  match g with
  | None => loadGameState
  | Some _ => ret tt
  end.

(** *** Messages *)

Definition getPublicGameState (now : Z) : M (option PublicGameState) :=
  g <- gets gameState ;;
  ret (match g with
       | None => None
       | Some g =>
           Some {| pub_sessionId := sessionId g;
                   pub_currentSlide := currentSlide g;
                   pub_phase := phase g;
                   pub_votes := votes g;
                   pub_timeRemaining := Z.max 0 (timerEnd g - now);
                   pub_slideCount := slideCount g;
                   pub_maxSlides := maxSlides g;
                   pub_votingOpen := votingOpen g |}
       end).

Definition broadcast (message : WebSocketMessage) : M unit :=
  modify (emit (Broadcast message)).

Definition sendToSocket (message : WebSocketMessage) : M unit :=
  modify (emit (SentToSocket message)).

Definition broadcastGameState (now : Z) : M unit :=
  data <- getPublicGameState now ;;
  broadcast {| msg_data := gameState_msg data; timestamp := now |}.

Definition broadcastVoteUpdate (now : Z) : M unit :=
  g <- gets gameState ;;
  broadcast {| msg_data := voteUpdate_msg (votes <$> g); timestamp := now |}.

Definition broadcastSlideChange (slideId : string) (now : Z) : M unit :=
  broadcast {| msg_data := slideChange_msg slideId; timestamp := now |}.

(** *** Timers *)

Definition setAlarm (t : Z) : M unit :=
  modify (fun o => emit (AlarmSet t) (with_alarmTime (Some t) o)).

Definition startPresentationTimer (now : Z) : M unit := setAlarm (now + 45000).

Definition startVotingTimer (now : Z) : M unit :=
  update_gameState (set_votingOpen true) ;;
  update_gameState (fun g => set_voters (JsSet.clear (voters g)) g) ;;
  update_gameState (set_votes {| logical := 0; chaotic := 0 |}) ;;
  update_gameState (set_timerEnd (now + 10000)) ;;
  saveGameState now ;;
  setAlarm (now + 10000) ;;
  broadcastGameState now.

(** *** Next-slide selection *)

(** [const winner = votes.logical > votes.chaotic ? 'logical' : 'chaotic'] *)
Definition winner (g : GameState) : VoteChoice :=
  if logical (votes g) >? chaotic (votes g) then Logical else Chaotic.

(** [one()] throws when the table has no row for the current slide, so that
    the test [!result] after it only ever sees a row. *)
Definition getNextSlide (o : GameSession) (choice : VoteChoice) : Outcome (option string) :=
  match gameState o with
  | None => Returned None
  | Some g =>
      match adjacency (sql o) !! currentSlide g with
      | None => Thrown
      | Some result =>
          let options :=
            match choice with
            | Logical => logical_slides result
            | Chaotic => chaotic_slides result
            end in
          (* for (const slideId of options) if (!usedSlides.has(slideId)) return slideId *)
          Returned (List.find (fun slideId => negb (JsSet.has (usedSlides g) slideId)) options)
      end
  end.

(** The method has no try block: when [getNextSlide] throws, the exception
    leaves it after [votingOpen] was set to false. *)
Definition processVotesAndAdvance (now : Z) : M (Outcome unit) :=
  g <- gets gameState ;;
  match g with
  | None => ret (Returned tt)
  | Some _ =>
      update_gameState (set_votingOpen false) ;;
      o <- get ;;
      match gameState o with
      | None => ret (Returned tt)
      | Some g =>
          match getNextSlide o (winner g) with
          | Thrown => ret Thrown
          | Returned nextSlide =>
              if negb (truthy nextSlide) || (slideCount g >=? maxSlides g) then
                update_gameState (set_phase finished) ;;
                broadcastGameState now ;;
                saveGameState now ;;
                ret (Returned tt)
              else
                let nextSlide := default "" nextSlide in
                update_gameState (set_currentSlide nextSlide) ;;
                update_gameState
                  (fun g => set_usedSlides (JsSet.add (usedSlides g) nextSlide) g) ;;
                update_gameState (fun g => set_slideCount (slideCount g + 1) g) ;;
                update_gameState (set_phase presenting) ;;
                update_gameState (set_timerEnd (now + 45000)) ;;
                saveGameState now ;;
                startPresentationTimer now ;;
                broadcastGameState now ;;
                broadcastSlideChange nextSlide now ;;
                ret (Returned tt)
          end
      end
  end.

(** ** RPC methods *)

Definition ok (b : ResponseBody) : Response := {| status := 200; body := b |}.

Definition initialize (roomCode : option string) (now : Z) : M Response :=
  id <- gets ctx_id ;;
  let sessionId := js_or_string roomCode id in
  modify (with_roomCode (js_or roomCode None)) ;;
  when (truthy roomCode) (storeRoomCode (default "" roomCode)) ;;
  modify (with_gameState (Some
    {| sessionId := sessionId;
       currentSlide := "slide_1";
       usedSlides := JsSet.of_list ["slide_1"];
       phase := waiting;
       votes := {| logical := 0; chaotic := 0 |};
       voters := [];
       votingOpen := false;
       timerEnd := 0;
       slideCount := 1;
       maxSlides := 10;
       timeRemaining := None |})) ;;
  saveGameState now ;;
  ret (ok (Initialized sessionId)).

(** The deck branch of [startGame]; [Some r] is the response of an early
    return, [None] falls through to the start of the game. A [get] that
    throws and an insert that throws are caught like a parse error; the
    message of the insert is SQLite's. *)
Definition loadDeck (DECKS : KVNamespace) (deckId : string) : M (option Response) :=
  match kv_get DECKS (get_metadata DECKS) ("deck:" +:+ deckId +:+ ":metadata") with
  | Thrown =>
      ret (Some {| status := 500;
                   body := Failure ("Failed to load deck: "
                                    +:+ get_error DECKS ("deck:" +:+ deckId +:+ ":metadata")) |})
  | Returned None =>
      ret (Some {| status := 404; body := Failure ("Deck not found: " +:+ deckId) |})
  | Returned (Some (SyntaxError errorMessage)) =>
      ret (Some {| status := 500; body := Failure ("Failed to load deck: " +:+ errorMessage) |})
  | Returned (Some (Parsed metadata)) =>
      if negb (String.eqb (deck_status metadata) "ready") then
        ret (Some {| status := 400;
                     body := Failure ("Deck is not ready. Current status: "
                                      +:+ deck_status metadata) |})
      else
        match kv_get DECKS (get_adjacency DECKS) ("deck:" +:+ deckId +:+ ":adjacency") with
        | Thrown =>
            ret (Some {| status := 500;
                         body := Failure ("Failed to load deck: "
                                          +:+ get_error DECKS
                                                ("deck:" +:+ deckId +:+ ":adjacency")) |})
        | Returned None =>
            ret (Some {| status := 404;
                         body := Failure ("Deck adjacency data not found for: " +:+ deckId) |})
        | Returned (Some (SyntaxError errorMessage)) =>
            ret (Some {| status := 500;
                         body := Failure ("Failed to load deck: " +:+ errorMessage) |})
        | Returned (Some (Parsed adjacencyData)) =>
            let rows :=
              map (fun '(slideId, neighbors) =>
                     {| slide_id := slideId;
                        logical_slides := neighbors_logical neighbors;
                        chaotic_slides := neighbors_chaotic neighbors |}) adjacencyData in
            (* DELETE FROM adjacency, then the inserts *)
            match insert_all rows ∅ with
            | inl t =>
                modify (fun o => with_sql (with_adjacency t (sql o)) o) ;;
                ret None
            | inr t =>
                modify (fun o => with_sql (with_adjacency t (sql o)) o) ;;
                ret (Some {| status := 500;
                             body := Failure ("Failed to load deck: "
                                              +:+ "UNIQUE constraint failed: adjacency.slide_id") |})
            end
        end
  end.

Definition startGame (DECKS : KVNamespace) (deckId : string) (maxSlides : option Z)
    (now : Z) : M Response :=
  let maxSlides := default 10 maxSlides in
  ensureGameStateLoaded ;;
  g <- gets gameState ;;
  match g with
  | None => ret {| status := 400; body := Failure "Session not initialized" |}
  | Some _ =>
      early <- (if truthy (Some deckId) && negb (String.eqb deckId "default")
                then loadDeck DECKS deckId
                else ret None) ;;
      match early with
      | Some response => ret response
      | None =>
          update_gameState (set_phase presenting) ;;
          update_gameState (set_maxSlides maxSlides) ;;
          update_gameState (set_timerEnd (now + 45000)) ;;
          saveGameState now ;;
          startPresentationTimer now ;;
          broadcastGameState now ;;
          public <- getPublicGameState now ;;
          ret (ok (Started public))
      end
  end.

Definition vote (userId : string) (choice : VoteChoice) (now : Z) : M Response :=
  ensureGameStateLoaded ;;
  g <- gets gameState ;;
  match g with
  | None => ret {| status := 400; body := Failure "Voting is not currently open" |}
  | Some g =>
      if negb (votingOpen g) then
        ret {| status := 400; body := Failure "Voting is not currently open" |}
      else if JsSet.has (voters g) userId then
        ret {| status := 400; body := Failure "User has already voted" |}
      else
        update_gameState (fun g => set_votes (incr_votes choice (votes g)) g) ;;
        update_gameState (fun g => set_voters (JsSet.add (voters g) userId) g) ;;
        broadcastVoteUpdate now ;;
        currentVotes <- gets (fun o => default (votes g) (votes <$> gameState o)) ;;
        ret (ok (Voted currentVotes))
  end.

Definition getStatus (now : Z) : M Response :=
  ensureGameStateLoaded ;;
  g <- gets gameState ;;
  match g with
  | None => ret {| status := 404; body := ErrorOnly "Session not found" |}
  | Some g =>
      ret (ok (Status
        {| st_sessionId := sessionId g;
           st_currentSlide := currentSlide g;
           st_phase := phase g;
           st_votes := votes g;
           st_timeRemaining := Z.max 0 (timerEnd g - now);
           st_slideCount := slideCount g;
           st_votingOpen := votingOpen g |}))
  end.

(** [fetch]: the WebSocket upgrade; [upgrade] tells whether the request
    carries [Upgrade: websocket]. *)
Definition fetch (upgrade : bool) (now : Z) : M Response :=
  if upgrade then
    ensureGameStateLoaded ;;
    g <- gets gameState ;;
    match g with
    | Some _ =>
        data <- getPublicGameState now ;;
        sendToSocket {| msg_data := gameState_msg data; timestamp := now |}
    | None => ret tt
    end ;;
    ret {| status := 101; body := Upgrade |}
  else ret {| status := 404; body := Text "Not found" |}.

(** [webSocketMessage]: the text of the client either fails to parse or
    parses to an object with a [type]; the attachment of the socket is not
    part of the object. *)
Inductive ClientMessage :=
  | ping
  | join (userId : option string)
  | other (type : string).

Definition webSocketMessage (message : Json ClientMessage) (now : Z) : M unit :=
  ensureGameStateLoaded ;;
  match message with
  | SyntaxError _ =>
      sendToSocket {| msg_data := error_msg "Failed to process message"; timestamp := now |}
  | Parsed ping => sendToSocket {| msg_data := pong_msg now; timestamp := now |}
  | Parsed (join _) => ret tt
  | Parsed (other _) => ret tt
  end.

(** ** The alarm handler

    The body is one try block; its catch logs the exception and the handler
    returns. *)

Definition alarm (now : Z) : M unit :=
  code <- gets roomCode ;;
  when (negb (truthy code)) recoverRoomCodeFromStorage ;;
  ensureGameStateLoaded ;;
  g <- gets gameState ;;
  match g with
  | None => ret tt
  | Some g =>
      match phase g with
      | presenting =>
          if slideCount g >=? maxSlides g then
            update_gameState (set_phase finished) ;;
            update_gameState (set_timeRemaining (Some 0)) ;;
            saveGameState now ;;
            broadcastGameState now
          else
            update_gameState (set_phase voting) ;;
            saveGameState now ;;
            startVotingTimer now
      | voting =>
          (* an exception that leaves the method is caught and logged *)
          processVotesAndAdvance now ;; ret tt
      | _ => ret tt
      end
  end.

(** ** Vocabulary of the specification *)

(** The error taxonomy of the specification. *)
Inductive ErrorKind :=
  | SessionNotFound
  | InvalidState
  | VotingClosed
  | AlreadyVoted
  | DeckNotFound
  | DeckNotReady.

Definition error_message (r : Response) : option string :=
  match body r with
  | Failure e | ErrorOnly e => Some e
  | _ => None
  end.

(** The kind of error a response reports, read off the message the source
    puts in it. No message of the source stands for [InvalidState]. *)
Definition errorKind (r : Response) : option ErrorKind :=
  match error_message r with
  | None => None
  | Some e =>
      if String.eqb e "Session not initialized" || String.eqb e "Session not found"
      then Some SessionNotFound
      else if String.eqb e "Voting is not currently open" then Some VotingClosed
      else if String.eqb e "User has already voted" then Some AlreadyVoted
      else if String.prefix "Deck not found: " e then Some DeckNotFound
      else if String.prefix "Deck is not ready." e then Some DeckNotReady
      else None
  end.

(** The [success] member of the JSON body. *)
Definition success (r : Response) : bool :=
  match body r with
  | Initialized _ | Started _ | Voted _ => true
  | _ => false
  end.

(** The session state an operation works on: the one in memory, or else the
    one [ensureGameStateLoaded] reads back from the session row. *)
Definition session (o : GameSession) : option GameState :=
  gameState (snd (ensureGameStateLoaded o)).

(** The ranked neighbour list of a row for a choice. *)
Definition neighbours (row : AdjacencyRecord) (choice : VoteChoice) : list string :=
  match choice with
  | Logical => logical_slides row
  | Chaotic => chaotic_slides row
  end.

(** Storage of a Durable Object that was never written, and the object
    built on it. *)
Definition emptyStorage : SqlStorage :=
  {| adjacency := ∅; game_session := ∅; do_metadata := ∅ |}.

Definition newObject (id : string) : GameSession := constructor id emptyStorage None [].

(** A namespace without decks. *)
Definition noDecks : KVNamespace.
Proof.
  refine {| get_metadata := fun _ => None;
            get_adjacency := fun _ => None;
            get_error := fun _ => "KV GET failed: 414 key too long" |};
    intros key value H; discriminate H.
Defined.

(** *** Operation sequences *)

(** Eviction: the object is built again on its storage. *)
Definition restart (o : GameSession) : GameSession :=
  constructor (ctx_id o) (sql o) (alarmTime o) (trace o).

(** What can happen to the object of a game once [initialize] has run. When
    the alarm fires the storage has no pending alarm any more, and the handler
    runs. *)
Inductive Operation :=
  | StartGame (DECKS : KVNamespace) (deckId : string) (maxSlides : option Z)
  | Vote (userId : string) (choice : VoteChoice)
  | GetStatus
  | Fetch (upgrade : bool)
  | WebSocketMessageIn (message : Json ClientMessage)
  | Alarm
  | Recreate.

Definition perform (op : Operation) (now : Z) (o : GameSession) : GameSession :=
  match op with
  | StartGame DECKS deckId maxSlides => snd (startGame DECKS deckId maxSlides now o)
  | Vote userId choice => snd (vote userId choice now o)
  | GetStatus => snd (getStatus now o)
  | Fetch upgrade => snd (fetch upgrade now o)
  | WebSocketMessageIn message => snd (webSocketMessage message now o)
  | Alarm => snd (alarm now (with_alarmTime None o))
  | Recreate => restart o
  end.

(** The operations of a list, each at its instant, in order. *)
Definition run (ops : list (Operation * Z)) (o : GameSession) : GameSession :=
  foldl (fun o '(op, now) => perform op now o) o ops.

(** A game: [initialize] on an object that was never used. *)
Definition newGame (id : string) (roomCode : option string) (now : Z) : GameSession :=
  snd (initialize roomCode now (newObject id)).

(** *** Invariants *)

(** The room code in memory and in [do_metadata] agree with the key [sid] of
    the session row. *)
Definition room_code_ok (o : GameSession) (sid : string) : Prop :=
  (do_metadata (sql o) !! "room_code" = Some sid /\ sid <> "" /\
   (roomCode o = None \/ roomCode o = Some sid)) \/
  (do_metadata (sql o) !! "room_code" = None /\ roomCode o = None /\ sid = ctx_id o).

(** The slide and round invariants of a session state. *)
Definition state_ok (g : GameState) : Prop :=
  currentSlide g ∈ usedSlides g /\
  NoDup (usedSlides g) /\
  slideCount g = JsSet.size (usedSlides g) /\
  NoDup (voters g) /\
  JsSet.size (voters g) = logical (votes g) + chaotic (votes g).

(** The object holds the game whose last saved state is [g]: the row of [g]
    is the one a load finds, and the state in memory, if any, is [g]. *)
Definition holds (g : GameState) (o : GameSession) : Prop :=
  room_code_ok o (sessionId g) /\
  state_ok g /\
  (exists t, game_session (sql o) !! sessionId g = Some (toRecord g t)) /\
  (gameState o = Some g \/ gameState o = None).

(** [if (!this.roomCode) await this.recoverRoomCodeFromStorage()] *)
Definition recovered (o : GameSession) : GameSession :=
  snd (when (negb (truthy (roomCode o))) recoverRoomCodeFromStorage o).

(** What the recovery and load steps leave alone. *)
Definition same_durable (o o' : GameSession) : Prop :=
  trace o' = trace o /\ alarmTime o' = alarmTime o /\ ctx_id o' = ctx_id o /\
  adjacency (sql o') = adjacency (sql o) /\ game_session (sql o') = game_session (sql o).

(** The phase dispatch of [alarm], which runs after its recovery and load
    steps. *)
Definition alarm_dispatch (now : Z) : M unit :=
  g <- gets gameState ;;
  match g with
  | None => ret tt
  | Some g =>
      match phase g with
      | presenting =>
          if slideCount g >=? maxSlides g then
            update_gameState (set_phase finished) ;;
            update_gameState (set_timeRemaining (Some 0)) ;;
            saveGameState now ;;
            broadcastGameState now
          else
            update_gameState (set_phase voting) ;;
            saveGameState now ;;
            startVotingTimer now
      | voting =>
          (* an exception that leaves the method is caught and logged *)
          processVotesAndAdvance now ;; ret tt
      | _ => ret tt
      end
  end.

(** The two outcomes of [processVotesAndAdvance]. *)
Definition finishedState (g : GameState) : GameState :=
  set_phase finished (set_votingOpen false g).

Definition advancedState (g : GameState) (nextSlide : string) (now : Z) : GameState :=
  set_timerEnd (now + 45000) (set_phase presenting
    (set_slideCount (slideCount g + 1)
       (set_usedSlides (JsSet.add (usedSlides g) nextSlide)
          (set_currentSlide nextSlide (set_votingOpen false g))))).

(** What a method leaves alone besides the session row, the state in memory,
    the alarm and the trace. *)
Definition same_identity (o o' : GameSession) : Prop :=
  do_metadata (sql o') = do_metadata (sql o) /\ roomCode o' = roomCode o /\
  ctx_id o' = ctx_id o /\ adjacency (sql o') = adjacency (sql o).

(** The state [initialize] puts in memory. *)
Definition initialState (sessionId : string) : GameState :=
  {| sessionId := sessionId;
     currentSlide := "slide_1";
     usedSlides := ["slide_1"];
     phase := waiting;
     votes := {| logical := 0; chaotic := 0 |};
     voters := [];
     votingOpen := false;
     timerEnd := 0;
     slideCount := 1;
     maxSlides := 10;
     timeRemaining := None |}.

(** The ballots that count in a round: the first call of each voter. *)
Fixpoint ballots (seen : list string) (calls : list (string * VoteChoice * Z))
  : list (string * VoteChoice) :=
  match calls with
  | [] => []
  | (userId, choice, _) :: rest =>
      if bool_decide (userId ∈ seen) then ballots seen rest
      else (userId, choice) :: ballots (userId :: seen) rest
  end.

(** The number of ballots for a choice. *)
Definition tally (choice : VoteChoice) (bs : list (string * VoteChoice)) : Z :=
  Z.of_nat (length (filter (fun b => b.2 = choice) bs)).

(** A sequence of [vote] calls, each with its voter, choice and instant. *)
Definition castVotes (calls : list (string * VoteChoice * Z)) (o : GameSession)
  : GameSession :=
  foldl (fun o '(userId, choice, now) => snd (vote userId choice now o)) o calls.

(** The state [startVotingTimer] leaves after the timer fire that opens a
    round. *)
Definition votingState (g : GameState) (now : Z) : GameState :=
  set_timerEnd (now + 10000)
    (set_votes {| logical := 0; chaotic := 0 |}
       (set_voters [] (set_votingOpen true (set_phase voting g)))).

(** The state [startGame] leaves. *)
Definition startedState (g : GameState) (maxSlides : Z) (now : Z) : GameState :=
  set_timerEnd (now + 45000) (set_maxSlides maxSlides (set_phase presenting g)).

(** *** Sample games *)

(** A session created with room code ROOM42. *)
Definition demo : GameSession := newGame "do-1" (Some "ROOM42") 1000.

(** The default deck, ten slides, and [n] timer fires during which nobody
    votes. *)
Definition quietGame (n : nat) : GameSession :=
  run ((StartGame noDecks "default" None, 2000) :: repeat (Alarm, 50000) n) demo.

(** A round in which v1 voted logical and v2 voted chaotic. *)
Definition tiedRound : GameSession :=
  run [(Vote "v1" Logical, 51000); (Vote "v2" Chaotic, 52000)] (quietGame 1).

(** A game of one slide, started and not yet timed out. *)
Definition lastSlide : GameSession :=
  run [(StartGame noDecks "default" (Some 1), 2000)] demo.

(** The rows [startGame] inserts for the entries of a deck. *)
Definition deckRows (adjacencyData : list (string * Neighbors)) : list AdjacencyRecord :=
  map (fun '(slideId, neighbors) =>
         {| slide_id := slideId;
            logical_slides := neighbors_logical neighbors;
            chaotic_slides := neighbors_chaotic neighbors |}) adjacencyData.

(** A deck [startGame] can load: its metadata says ready and its adjacency
    data is an object, whose keys are therefore distinct. *)
Definition deck_ready (DECKS : KVNamespace) (deckId : string) : Prop :=
  exists metadata adjacencyData,
    get_metadata DECKS ("deck:" +:+ deckId +:+ ":metadata") = Some (Parsed metadata) /\
    deck_status metadata = "ready" /\
    get_adjacency DECKS ("deck:" +:+ deckId +:+ ":adjacency") = Some (Parsed adjacencyData) /\
    NoDup (map fst adjacencyData).

(** *** The session as a state machine *)

(** What a load makes of a state that was saved. *)
Definition reloaded (g : GameState) : GameState := fromRecord (toRecord g 0).

(** The state after an accepted vote. *)
Definition votedState (g : GameState) (userId : string) (choice : VoteChoice) : GameState :=
  set_voters (JsSet.add (voters g) userId) (set_votes (incr_votes choice (votes g)) g).

(** The state after the timer fire on the final slide. *)
Definition finalState (g : GameState) : GameState :=
  set_timeRemaining (Some 0) (set_phase finished g).

(** The steps of the session state under the operations of a game. *)
Inductive session_step (now : Z) : Operation -> GameState -> GameState -> Prop :=
  | step_start_refused DECKS deckId maxSlides g :
      session_step now (StartGame DECKS deckId maxSlides) g g
  | step_started DECKS deckId maxSlides g :
      session_step now (StartGame DECKS deckId maxSlides) g
        (startedState g (default 10 maxSlides) now)
  | step_vote_rejected userId choice g :
      votingOpen g = false \/ userId ∈ voters g ->
      session_step now (Vote userId choice) g g
  | step_voted userId choice g :
      votingOpen g = true -> userId ∉ voters g ->
      session_step now (Vote userId choice) g (votedState g userId choice)
  | step_status g : session_step now GetStatus g g
  | step_fetch upgrade g : session_step now (Fetch upgrade) g g
  | step_message message g : session_step now (WebSocketMessageIn message) g g
  | step_alarm_idle g :
      phase g = waiting \/ phase g = finished ->
      session_step now Alarm g g
  | step_alarm_final g :
      phase g = presenting -> slideCount g >= maxSlides g ->
      session_step now Alarm g (finalState g)
  | step_alarm_voting g :
      phase g = presenting -> slideCount g < maxSlides g ->
      session_step now Alarm g (votingState g now)
  | step_alarm_threw g :
      phase g = voting ->
      session_step now Alarm g (set_votingOpen false g)
  | step_alarm_finished g :
      phase g = voting ->
      session_step now Alarm g (finishedState g)
  | step_alarm_advanced g nextSlide :
      phase g = voting -> nextSlide ∉ usedSlides g -> nextSlide <> "" ->
      slideCount g < maxSlides g ->
      session_step now Alarm g (advancedState g nextSlide now)
  | step_recreate g : session_step now Recreate g (reloaded g).

(** The pending alarm from one operation to the next: it is set to the new
    deadline of the session; or the alarm, the deadline and the phase are
    left as they were and the voting is not opened; or a timer fire leaves no
    alarm, in phase waiting or finished, or in phase voting with the voting
    closed. *)
Definition timer_step (a a' : option Z) (g g' : GameState) : Prop :=
  a' = Some (timerEnd g') \/
  (a' = a /\ timerEnd g' = timerEnd g /\ phase g' = phase g /\
   (votingOpen g' = votingOpen g \/ votingOpen g' = false)) \/
  (a' = None /\
   (phase g' = waiting \/ phase g' = finished \/
    (phase g' = voting /\ votingOpen g' = false))).

(** *** Further sample data *)

(** What [getPublicGameState] makes of a session state. *)
Definition publicState (g : GameState) (now : Z) : PublicGameState :=
  {| pub_sessionId := sessionId g;
     pub_currentSlide := currentSlide g;
     pub_phase := phase g;
     pub_votes := votes g;
     pub_timeRemaining := Z.max 0 (timerEnd g - now);
     pub_slideCount := slideCount g;
     pub_maxSlides := maxSlides g;
     pub_votingOpen := votingOpen g |}.

(** A namespace with three decks: talk is processed, draft is still being
    processed, and blank was processed before any slide was uploaded (its
    adjacency data is the empty object). *)
Definition sampleDecks : KVNamespace.
Proof.
  refine
    {| get_metadata := fun key =>
         if String.eqb key "deck:talk:metadata" then Some (Parsed {| deck_status := "ready" |})
         else if String.eqb key "deck:draft:metadata"
              then Some (Parsed {| deck_status := "processing" |})
         else if String.eqb key "deck:blank:metadata"
              then Some (Parsed {| deck_status := "ready" |})
         else None;
       get_adjacency := fun key =>
         if String.eqb key "deck:talk:adjacency" then
           Some (Parsed
             [("slide_1", {| neighbors_logical := ["intro"; "outro"];
                             neighbors_chaotic := ["outro"; "intro"] |});
              ("intro", {| neighbors_logical := ["slide_1"; "outro"];
                           neighbors_chaotic := ["outro"; "slide_1"] |});
              ("outro", {| neighbors_logical := ["intro"; "slide_1"];
                           neighbors_chaotic := ["slide_1"; "intro"] |})])
         else if String.eqb key "deck:blank:adjacency" then Some (Parsed [])
         else None;
       get_error := fun _ => "KV GET failed: 414 key too long" |};
    intros key value;
    repeat match goal with
           | |- context [String.eqb key ?k] =>
               destruct (String.eqb_spec key k) as [-> | _]; [intros _; simpl; lia|]
           end;
    intros H; discriminate H.
Defined.

(** A deck id of 600 bytes, more than a key of the namespace may have. *)
Definition longDeckId : string := String.concat "" (repeat "x" 600).

(** The round of a quiet game in which v1 votes and the display then starts
    a game of one slide: the slide is presented with the voting still open. *)
Definition lateStart : GameSession :=
  run [(Vote "v1" Logical, 51000); (StartGame noDecks "default" (Some 1), 52000)]
    (quietGame 1).

(** A game on the deck blank, after the timer fire that opens its first
    round: the adjacency table has no row. *)
Definition blankRound : GameSession :=
  run [(StartGame sampleDecks "blank" None, 2000); (Alarm, 50000)] demo.

(** ** ai-processor.ts

    Numbers are IEEE 754 binary64 floats, as in JavaScript. *)

Module AiProcessor.
Import PrimFloat.

(** [SlideEmbedding] *)
Record SlideEmbedding := { slideId : string; embedding : list float }.

(** [SimilarityScore]: the [slideId] of the other slide and the score. *)
Record SimilarityScore := { scored_slideId : string; score : float }.

(** The loop of [calculateSimilarity] over the indices of the two vectors,
    which have the same length when it runs. *)
Fixpoint sums (embedding1 embedding2 : list float) (dotProduct magnitude1 magnitude2 : float)
  : float * float * float :=
  match embedding1, embedding2 with
  | x :: rest1, y :: rest2 =>
      sums rest1 rest2 (dotProduct + x * y)%float (magnitude1 + x * x)%float
        (magnitude2 + y * y)%float
  | _, _ => (dotProduct, magnitude1, magnitude2)
  end.

(** [None] stands for the exception 'Embeddings must have the same
    dimension'. *)
Definition calculateSimilarity (embedding1 embedding2 : list float) : option float :=
  if negb (Nat.eqb (length embedding1) (length embedding2)) then None
  else
    let '(dotProduct, magnitude1, magnitude2) := sums embedding1 embedding2 0 0 0 in
    let magnitude1 := sqrt magnitude1 in
    let magnitude2 := sqrt magnitude2 in
    if (magnitude1 =? 0)%float || (magnitude2 =? 0)%float then Some 0%float
    else Some (dotProduct / (magnitude1 * magnitude2))%float.

(** The inner loop of [generateAdjacencyList]: the scores of the slides with
    another id, in the order of the deck. *)
Fixpoint similaritiesOf (slide1 : SlideEmbedding) (embeddings : list SlideEmbedding)
  : option (list SimilarityScore) :=
  match embeddings with
  | [] => Some []
  | slide2 :: rest =>
      if String.eqb (slideId slide1) (slideId slide2) then similaritiesOf slide1 rest
      else
        match calculateSimilarity (embedding slide1) (embedding slide2) with
        | None => None
        | Some similarity =>
            match similaritiesOf slide1 rest with
            | None => None
            | Some similarities =>
                Some ({| scored_slideId := slideId slide2; score := similarity |}
                        :: similarities)
            end
        end
  end.

(** [(a, b) => b.score - a.score] *)
Definition compareFn (a b : SimilarityScore) : float := (score b - score a)%float.

(** [Array.prototype.sort] is stable: with a consistent comparator (scores
    without NaN) its result is the one of inserting each element, in input
    order, before the first one the comparator puts it strictly before. The
    properties proved of the result use only that it is a permutation of the
    array. *)
Fixpoint insert_sorted (x : SimilarityScore) (sorted : list SimilarityScore)
  : list SimilarityScore :=
  match sorted with
  | [] => [x]
  | y :: rest =>
      if (compareFn x y <? 0)%float then x :: y :: rest else y :: insert_sorted x rest
  end.

Definition sort (similarities : list SimilarityScore) : list SimilarityScore :=
  foldl (fun sorted x => insert_sorted x sorted) [] similarities.

(** [slice(0, 3)] and [slice(-3).reverse()], mapped to the slide ids. *)
Definition neighborsOf (sorted : list SimilarityScore) : Neighbors :=
  {| neighbors_logical := map scored_slideId (take 3 sorted);
     neighbors_chaotic := map scored_slideId (reverse (drop (length sorted - 3) sorted)) |}.

(** [adjacencyList[key] = value] on the plain object [adjacencyList], of
    which the map holds the entries: the key __proto__ sets the prototype of
    the object and adds no entry. *)
Definition assign (key : string) (value : Neighbors) (adjacencyList : gmap string Neighbors)
  : gmap string Neighbors :=
  if String.eqb key "__proto__" then adjacencyList else <[key := value]> adjacencyList.

(** The outer loop over the slides that are left, on the object built so
    far. *)
Fixpoint generateFrom (embeddings slides : list SlideEmbedding)
    (adjacencyList : gmap string Neighbors) : option (gmap string Neighbors) :=
  match slides with
  | [] => Some adjacencyList
  | slide1 :: rest =>
      match similaritiesOf slide1 embeddings with
      | None => None
      | Some similarities =>
          generateFrom embeddings rest
            (assign (slideId slide1) (neighborsOf (sort similarities)) adjacencyList)
      end
  end.

Definition generateAdjacencyList (embeddings : list SlideEmbedding)
  : option (gmap string Neighbors) :=
  generateFrom embeddings embeddings ∅.

(** A deck of five slides with embeddings of dimension two. *)
Definition sampleEmbeddings : list SlideEmbedding :=
  [ {| slideId := "a"; embedding := [1; 0]%float |};
    {| slideId := "b"; embedding := [0.875; 0.125]%float |};
    {| slideId := "c"; embedding := [0; 1]%float |};
    {| slideId := "d"; embedding := [-1; 0]%float |};
    {| slideId := "e"; embedding := [0.5; 0.5]%float |} ].

(** A deck of two slides, one of which has the id __proto__. *)
Definition protoEmbeddings : list SlideEmbedding :=
  [ {| slideId := "a"; embedding := [1; 0]%float |};
    {| slideId := "__proto__"; embedding := [0; 1]%float |} ].

(** Embeddings of the three slides of the deck talk. *)
Definition talkEmbeddings : list SlideEmbedding :=
  [ {| slideId := "slide_1"; embedding := [1; 0]%float |};
    {| slideId := "intro"; embedding := [1; 0.5]%float |};
    {| slideId := "outro"; embedding := [0; 1]%float |} ].

End AiProcessor.

Ltac run_methods :=
  unfold vote, getStatus, startGame, alarm_dispatch, processVotesAndAdvance, startVotingTimer,
    ensureGameStateLoaded, update_gameState, broadcastVoteUpdate, broadcastGameState,
    broadcastSlideChange, broadcast, sendToSocket, getPublicGameState, saveGameState,
    startPresentationTimer, setAlarm, bind, ret, gets, get, modify, when in *;
  simpl in *.

(** ** Basic facts *)

Lemma has_true (s : list string) (x : string) : JsSet.has s x = true <-> x ∈ s.
Proof. unfold JsSet.has. apply bool_decide_eq_true. Qed.

Lemma has_false (s : list string) (x : string) : JsSet.has s x = false <-> x ∉ s.
Proof. unfold JsSet.has. apply bool_decide_eq_false. Qed.

Lemma truthy_Some (s : option string) :
  truthy s = true -> exists x, s = Some x /\ x <> "".
Proof.
  destruct s as [x|]; simpl; [|discriminate].
  intros H. exists x. split; [reflexivity|].
  intros ->. discriminate.
Qed.

Lemma getNextSlide_votingOpen (o : GameSession) (g : GameState) (b : bool) (c : VoteChoice) :
  gameState o = Some g ->
  getNextSlide (with_gameState (Some (set_votingOpen b g)) o) c = getNextSlide o c.
Proof. intros Hg. unfold getNextSlide. rewrite Hg. reflexivity. Qed.

(** What [find] returns in the loop of [getNextSlide]. *)
Lemma find_first_unused (used options : list string) (s : string) :
  List.find (fun slideId => negb (JsSet.has used slideId)) options = Some s <->
  exists before after,
    options = (before ++ (s :: after))%list /\ (s ∉ used) /\ Forall (fun x => x ∈ used) before.
Proof.
  induction options as [|x rest IH]; simpl.
  - split; [discriminate|]. intros (before & after & H & _). destruct before; discriminate.
  - destruct (JsSet.has used x) eqn:Hx; simpl.
    + apply has_true in Hx. rewrite IH. split.
      * intros (before & after & -> & Hs & Hb).
        exists (x :: before), after. repeat split; [assumption|]. constructor; assumption.
      * intros (before & after & Heq & Hs & Hb).
        destruct before as [|y before]; simpl in Heq; inversion Heq; subst.
        -- contradiction.
        -- exists before, after. repeat split; [assumption|]. inversion Hb; assumption.
    + apply has_false in Hx. split.
      * intros [= <-]. exists [], rest. repeat split; [assumption | constructor].
      * intros (before & after & Heq & Hs & Hb).
        destruct before as [|y before]; simpl in Heq; inversion Heq; subst.
        -- reflexivity.
        -- inversion Hb; contradiction.
Qed.

Lemma find_none_all_used (used options : list string) :
  List.find (fun slideId => negb (JsSet.has used slideId)) options = None <->
  Forall (fun x => x ∈ used) options.
Proof.
  induction options as [|x rest IH]; simpl.
  - split; [constructor | reflexivity].
  - destruct (JsSet.has used x) eqn:Hx; simpl.
    + apply has_true in Hx. rewrite IH. split.
      * intros H. constructor; assumption.
      * intros H. inversion H; assumption.
    + apply has_false in Hx. split; [discriminate|].
      intros H. inversion H; contradiction.
Qed.

(** ** Recovery of the room code and load of the state *)

Lemma recovered_frame (o : GameSession) :
  gameState (recovered o) = gameState o /\ sql (recovered o) = sql o /\
  trace (recovered o) = trace o /\ alarmTime (recovered o) = alarmTime o /\
  ctx_id (recovered o) = ctx_id o.
Proof.
  unfold recovered, when, recoverRoomCodeFromStorage, bind, gets, modify, ret.
  destruct (negb (truthy (roomCode o))); simpl; [|repeat split].
  destruct (do_metadata (sql o) !! "room_code"); simpl; repeat split.
Qed.

Lemma recovered_idem (o : GameSession) : recovered (recovered o) = recovered o.
Proof.
  unfold recovered, when, recoverRoomCodeFromStorage, bind, gets, modify, ret.
  destruct (negb (truthy (roomCode o))) eqn:E; simpl; [|rewrite E; reflexivity].
  destruct (do_metadata (sql o) !! "room_code") as [v|] eqn:D; simpl.
  - destruct (negb (negb (String.eqb v ""))); simpl; [|reflexivity]. rewrite D. reflexivity.
  - rewrite E. simpl. rewrite D. reflexivity.
Qed.

Lemma when_recover (o : GameSession) :
  when (negb (truthy (roomCode o))) recoverRoomCodeFromStorage o = (tt, recovered o).
Proof.
  unfold recovered.
  destruct (when (negb (truthy (roomCode o))) recoverRoomCodeFromStorage o) as [[] o1].
  reflexivity.
Qed.

Lemma loadGameState_recovered (o : GameSession) :
  loadGameState (recovered o) = loadGameState o.
Proof.
  unfold loadGameState, bind, gets. simpl.
  rewrite (when_recover o), (when_recover (recovered o)), recovered_idem.
  reflexivity.
Qed.

Lemma loadGameState_frame (o : GameSession) : same_durable o (snd (loadGameState o)).
Proof.
  unfold loadGameState, bind, gets. simpl. rewrite when_recover.
  destruct (recovered_frame o) as (F1 & F2 & F3 & F4 & F5).
  rewrite F2, F5.
  destruct (game_session (sql o) !! js_or_string (roomCode (recovered o)) (ctx_id o))
    as [result|]; simpl.
  - unfold when, storeRoomCode, modify, bind, ret.
    destruct (negb (truthy (roomCode (recovered o))) &&
              negb (String.eqb (session_id result) (ctx_id o))); simpl;
      unfold same_durable; simpl; rewrite ?F2, ?F3, ?F4, ?F5; repeat split.
  - unfold ret, same_durable; simpl. rewrite ?F2, ?F3, ?F4, ?F5; repeat split.
Qed.

Lemma alarm_unfold (o : GameSession) (now : Z) :
  alarm now o = alarm_dispatch now (snd (ensureGameStateLoaded (recovered o))).
Proof.
  unfold alarm. unfold bind at 1. unfold gets at 1. unfold bind at 1.
  rewrite when_recover. unfold bind at 1.
  destruct (ensureGameStateLoaded (recovered o)) as [[] o1]. reflexivity.
Qed.

Lemma alarm_after_load (o : GameSession) (now : Z) :
  exists o1,
    alarm now o = alarm_dispatch now o1 /\
    gameState o1 = session o /\ same_durable o o1.
Proof.
  rewrite alarm_unfold.
  destruct (ensureGameStateLoaded (recovered o)) as [[] o1] eqn:E1.
  exists o1. split; [reflexivity|].
  unfold session.
  unfold ensureGameStateLoaded, bind, gets in *. simpl in *.
  destruct (recovered_frame o) as (F1 & F2 & F3 & F4 & F5). rewrite F1 in E1.
  destruct (gameState o) eqn:Hg.
  - unfold ret in *. inversion E1; subst. simpl. split; [congruence|].
    unfold same_durable. rewrite F2, F3, F4, F5. repeat split.
  - rewrite loadGameState_recovered in E1. rewrite E1. split; [reflexivity|].
    pose proof (loadGameState_frame o) as F. rewrite E1 in F. exact F.
Qed.

Lemma winner_logical (g : GameState) :
  winner g = Logical <-> logical (votes g) > chaotic (votes g).
Proof.
  unfold winner. destruct (Z.gtb_spec (logical (votes g)) (chaotic (votes g))).
  - split; [lia | reflexivity].
  - split; [discriminate | lia].
Qed.


(** ** Sets and rows *)

Lemma foldl_add_fresh (l acc : list string) :
  NoDup (acc ++ l) -> foldl JsSet.add acc l = (acc ++ l)%list.
Proof.
  revert acc. induction l as [|x l IH]; intros acc Hnd; simpl.
  - rewrite app_nil_r. reflexivity.
  - assert (Hx : x ∉ acc).
    { apply NoDup_app in Hnd as (_ & Hd & _). intros Hin. apply (Hd x Hin). left. }
    unfold JsSet.add at 2. apply has_false in Hx. rewrite Hx.
    rewrite IH.
    + rewrite <- app_assoc. reflexivity.
    + rewrite <- app_assoc. exact Hnd.
Qed.

Lemma of_list_NoDup (l : list string) : NoDup l -> JsSet.of_list l = l.
Proof. intros H. unfold JsSet.of_list. apply (foldl_add_fresh l []). exact H. Qed.

Lemma add_fresh (s : list string) (x : string) :
  x ∉ s -> JsSet.add s x = (s ++ [x])%list.
Proof. intros H. unfold JsSet.add. apply has_false in H. rewrite H. reflexivity. Qed.

Lemma fromRecord_toRecord (g : GameState) (t t' : Z) :
  NoDup (usedSlides g) ->
  toRecord (fromRecord (toRecord g t)) t' = toRecord g t'.
Proof.
  intros H. unfold toRecord, fromRecord. simpl. unfold JsSet.to_list.
  rewrite of_list_NoDup by exact H. reflexivity.
Qed.

Lemma state_ok_reload (g : GameState) (t : Z) :
  state_ok g -> state_ok (fromRecord (toRecord g t)).
Proof.
  intros (H1 & H2 & H3 & H4 & H5). unfold state_ok, fromRecord, toRecord. simpl.
  unfold JsSet.to_list. rewrite of_list_NoDup by exact H2.
  repeat split; try assumption. constructor.
Qed.

(** ** The game an object holds *)

Lemma recovered_holds (g : GameState) (o : GameSession) :
  holds g o -> holds g (recovered o).
Proof.
  intros (Hrc & Hok & Hrow & Hmem).
  destruct (recovered_frame o) as (F1 & F2 & F3 & F4 & F5).
  unfold holds. rewrite F1, F2.
  split; [|split; [assumption|split; assumption]].
  unfold room_code_ok in *. rewrite F2, F5.
  unfold recovered, when, recoverRoomCodeFromStorage, bind, gets, modify, ret.
  destruct Hrc as [(Hm & Hne & Hr) | (Hm & Hr & Hs)].
  - left. split; [assumption|]. split; [assumption|].
    destruct Hr as [Hr | Hr]; rewrite Hr; simpl.
    + rewrite Hm. simpl. right. reflexivity.
    + destruct (String.eqb_spec (sessionId g) ""); [contradiction|]. simpl. right. assumption.
  - right. rewrite Hr. simpl. rewrite Hm. simpl. repeat split; assumption.
Qed.

Lemma recovered_truthy (o : GameSession) :
  truthy (roomCode o) = true -> recovered o = o.
Proof. intros H. unfold recovered, when. rewrite H. reflexivity. Qed.

Lemma recovered_falsy (o : GameSession) :
  truthy (roomCode o) = false ->
  recovered o = match do_metadata (sql o) !! "room_code" with
                | Some value => with_roomCode (Some value) o
                | None => o
                end.
Proof.
  intros H. unfold recovered, when, recoverRoomCodeFromStorage, bind, gets, modify, ret.
  rewrite H. simpl. destruct (do_metadata (sql o) !! "room_code"); reflexivity.
Qed.

Lemma truthy_nonempty (x : string) : x <> "" -> truthy (Some x) = true.
Proof. intros H. simpl. destruct (String.eqb_spec x ""); [contradiction | reflexivity]. Qed.

(** The room code after recovery, for an object that holds a game. *)
Lemma recovered_roomCode (g : GameState) (o : GameSession) :
  holds g o ->
  (roomCode (recovered o) = Some (sessionId g) /\ sessionId g <> "") \/
  (roomCode (recovered o) = None /\ sessionId g = ctx_id o).
Proof.
  intros (Hrc & _).
  destruct Hrc as [(Hm & Hne & [Hr | Hr]) | (Hm & Hr & Hs)].
  - left. rewrite recovered_falsy by (rewrite Hr; reflexivity). rewrite Hm. split; [reflexivity | assumption].
  - left. rewrite recovered_truthy by (rewrite Hr; apply truthy_nonempty; assumption).
    split; assumption.
  - right. rewrite recovered_falsy by (rewrite Hr; reflexivity). rewrite Hm. split; assumption.
Qed.

(** The key under which [loadGameState] looks the row up. *)
Lemma lookup_key (g : GameState) (o : GameSession) :
  holds g o ->
  js_or_string (roomCode (recovered o)) (ctx_id o) = sessionId g /\
  (truthy (roomCode (recovered o)) = false -> sessionId g = ctx_id o).
Proof.
  intros H. destruct (recovered_roomCode g o H) as [(Hr & Hne) | (Hr & Hs)]; rewrite Hr.
  - pose proof (truthy_nonempty _ Hne) as Ht. split.
    + unfold js_or_string, js_or. rewrite Ht. reflexivity.
    + rewrite Ht. discriminate.
  - split; [|intros _; assumption]. unfold js_or_string, js_or. simpl. symmetry. assumption.
Qed.

Lemma loadGameState_holds (g : GameState) (o : GameSession) :
  holds g o -> gameState o = None ->
  exists t, game_session (sql o) !! sessionId g = Some (toRecord g t) /\
    loadGameState o = (tt, with_gameState (Some (fromRecord (toRecord g t))) (recovered o)).
Proof.
  intros H Hnone.
  destruct (lookup_key g o H) as (Hk & Hc).
  destruct H as (Hrc & Hok & (t & Hrow) & Hmem).
  exists t. split; [assumption|].
  unfold loadGameState, bind, gets. simpl. rewrite when_recover.
  destruct (recovered_frame o) as (F1 & F2 & F3 & F4 & F5).
  rewrite F2, F5, Hk, Hrow. simpl.
  unfold when.
  destruct (truthy (roomCode (recovered o))) eqn:Ht; simpl.
  - reflexivity.
  - rewrite <- (Hc eq_refl). rewrite String.eqb_refl. simpl. reflexivity.
Qed.

Lemma ensure_loaded_holds (g : GameState) (o : GameSession) :
  holds g o ->
  exists g1 o1,
    ensureGameStateLoaded o = (tt, o1) /\
    gameState o1 = Some g1 /\
    holds g1 o1 /\
    (g1 = g \/ exists t, g1 = fromRecord (toRecord g t)) /\
    trace o1 = trace o /\ alarmTime o1 = alarmTime o /\
    adjacency (sql o1) = adjacency (sql o).
Proof.
  intros H. pose proof H as (Hrc & Hok & Hrow & [Hmem | Hmem]).
  - exists g, o. unfold ensureGameStateLoaded, bind, gets, ret. simpl. rewrite Hmem.
    split; [reflexivity|]. split; [reflexivity|]. split; [exact H|].
    split; [left; reflexivity|]. repeat split.
  - destruct (loadGameState_holds g o H Hmem) as (t & Ht & Hload).
    exists (fromRecord (toRecord g t)), (with_gameState (Some (fromRecord (toRecord g t))) (recovered o)).
    unfold ensureGameStateLoaded, bind, gets. cbv beta iota. rewrite Hmem.
    destruct (recovered_frame o) as (F1 & F2 & F3 & F4 & F5).
    split; [exact Hload|]. split; [reflexivity|].
    split.
    + destruct (recovered_holds g o H) as (Hrc' & _).
      unfold holds. simpl. split; [exact Hrc'|].
      split; [apply state_ok_reload; assumption|].
      split; [|left; reflexivity].
      exists t. rewrite F2, fromRecord_toRecord by apply Hok. assumption.
    + split; [right; exists t; reflexivity|]. simpl. rewrite F2, F3, F4. repeat split.
Qed.

(** An object whose state in memory is saved under the key of the game holds
    that state. *)
Lemma holds_saved (g1 g2 : GameState) (o1 o2 : GameSession) :
  holds g1 o1 ->
  do_metadata (sql o2) = do_metadata (sql o1) ->
  roomCode o2 = roomCode o1 ->
  ctx_id o2 = ctx_id o1 ->
  sessionId g2 = sessionId g1 ->
  state_ok g2 ->
  gameState o2 = Some g2 ->
  (exists t, game_session (sql o2) !! sessionId g2 = Some (toRecord g2 t)) ->
  holds g2 o2.
Proof.
  intros (Hrc & _) Hm Hr Hc Hs Hok Hg Hrow.
  unfold holds. split; [|split; [assumption|split; [assumption|left; assumption]]].
  unfold room_code_ok in *. rewrite Hm, Hr, Hc, Hs. exact Hrc.
Qed.

Lemma reload_usedSlides (g g1 : GameState) :
  state_ok g -> (g1 = g \/ exists t, g1 = fromRecord (toRecord g t)) ->
  usedSlides g1 = usedSlides g /\ currentSlide g1 = currentSlide g /\
  slideCount g1 = slideCount g /\ sessionId g1 = sessionId g /\
  phase g1 = phase g /\ maxSlides g1 = maxSlides g.
Proof.
  intros (_ & Hnd & _) [-> | (t & ->)]; [repeat split|].
  unfold fromRecord, toRecord; simpl. unfold JsSet.to_list.
  rewrite of_list_NoDup by assumption. repeat split.
Qed.

(** ** Operations keep the game *)

Lemma vote_holds (g : GameState) (o : GameSession) (userId : string) (choice : VoteChoice)
    (now : Z) :
  holds g o ->
  exists g2, holds g2 (snd (vote userId choice now o)) /\ usedSlides g2 = usedSlides g.
Proof.
  intros H.
  destruct (ensure_loaded_holds g o H) as (g1 & o1 & E & Hg1 & H1 & Hrel & _).
  destruct (reload_usedSlides g g1 (proj1 (proj2 H)) Hrel) as (Hu & _).
  unfold vote. unfold bind at 1. rewrite E.
  run_methods. rewrite Hg1.
  destruct (votingOpen g1); simpl; [|exists g1; split; assumption].
  destruct (JsSet.has (voters g1) userId) eqn:Hv; simpl; [exists g1; split; assumption|].
  rewrite Hg1. simpl.
  pose proof H1 as (_ & (K1 & K2 & K3 & K4 & K5) & Hrow & _).
  exists (set_voters (JsSet.add (voters g1) userId)
            (set_votes (incr_votes choice (votes g1)) g1)).
  split; [|exact Hu].
  eapply holds_saved; [exact H1| reflexivity | reflexivity | reflexivity | | | reflexivity |].
  - reflexivity.
  - apply has_false in Hv. unfold state_ok; simpl.
    rewrite add_fresh by assumption.
    repeat split; try assumption.
    + apply NoDup_app. repeat split; [assumption| |apply NoDup_singleton].
      intros x Hx Hx'. apply list_elem_of_singleton in Hx'. subst. contradiction.
    + unfold JsSet.size in *. rewrite length_app. simpl.
      destruct choice; simpl; lia.
  - simpl. exact Hrow.
Qed.

(** [holds] looks at the room code, the session row and the state in memory
    only. *)
Lemma holds_frame (g : GameState) (o1 o2 : GameSession) :
  holds g o1 ->
  do_metadata (sql o2) = do_metadata (sql o1) ->
  game_session (sql o2) = game_session (sql o1) ->
  roomCode o2 = roomCode o1 ->
  ctx_id o2 = ctx_id o1 ->
  gameState o2 = gameState o1 ->
  holds g o2.
Proof.
  intros (Hrc & Hok & Hrow & Hmem) Hm Hs Hr Hc Hg.
  unfold holds, room_code_ok in *. rewrite Hm, Hs, Hr, Hc, Hg.
  split; [assumption | split; [assumption | split; assumption]].
Qed.

Lemma getStatus_holds (g : GameState) (o : GameSession) (now : Z) :
  holds g o ->
  exists g2, holds g2 (snd (getStatus now o)) /\ usedSlides g2 = usedSlides g.
Proof.
  intros H.
  destruct (ensure_loaded_holds g o H) as (g1 & o1 & E & Hg1 & H1 & Hrel & _).
  destruct (reload_usedSlides g g1 (proj1 (proj2 H)) Hrel) as (Hu & _).
  unfold getStatus. unfold bind at 1. rewrite E.
  run_methods. rewrite Hg1. simpl. exists g1. split; assumption.
Qed.

Lemma fetch_holds (g : GameState) (o : GameSession) (upgrade : bool) (now : Z) :
  holds g o ->
  exists g2, holds g2 (snd (fetch upgrade now o)) /\ usedSlides g2 = usedSlides g.
Proof.
  intros H. unfold fetch. destruct upgrade; [|exists g; split; [exact H | reflexivity]].
  destruct (ensure_loaded_holds g o H) as (g1 & o1 & E & Hg1 & H1 & Hrel & _).
  destruct (reload_usedSlides g g1 (proj1 (proj2 H)) Hrel) as (Hu & _).
  unfold bind at 1. unfold bind at 1. rewrite E.
  run_methods. rewrite Hg1. simpl. rewrite Hg1. simpl.
  exists g1. split; [|assumption].
  eapply holds_frame; [exact H1 | reflexivity ..]. 
Qed.

Lemma webSocketMessage_holds (g : GameState) (o : GameSession) (message : Json ClientMessage)
    (now : Z) :
  holds g o ->
  exists g2, holds g2 (snd (webSocketMessage message now o)) /\ usedSlides g2 = usedSlides g.
Proof.
  intros H.
  destruct (ensure_loaded_holds g o H) as (g1 & o1 & E & Hg1 & H1 & Hrel & _).
  destruct (reload_usedSlides g g1 (proj1 (proj2 H)) Hrel) as (Hu & _).
  unfold webSocketMessage. unfold bind at 1. rewrite E.
  exists g1. split; [|assumption].
  destruct message as [m|[| |]]; run_methods;
    (eapply holds_frame; [exact H1 | reflexivity ..]).
Qed.

Lemma loadDeck_frame (DECKS : KVNamespace) (deckId : string) (o : GameSession) :
  let o' := snd (loadDeck DECKS deckId o) in
  do_metadata (sql o') = do_metadata (sql o) /\
  game_session (sql o') = game_session (sql o) /\
  roomCode o' = roomCode o /\ ctx_id o' = ctx_id o /\ gameState o' = gameState o /\
  trace o' = trace o /\ alarmTime o' = alarmTime o.
Proof.
  unfold loadDeck.
  repeat (case_match; unfold bind, modify, ret; simpl; try (repeat split; fail)).
Qed.

Lemma startGame_holds (g : GameState) (o : GameSession) (DECKS : KVNamespace)
    (deckId : string) (maxSlides : option Z) (now : Z) :
  holds g o ->
  exists g2, holds g2 (snd (startGame DECKS deckId maxSlides now o)) /\
             usedSlides g2 = usedSlides g.
Proof.
  intros H.
  destruct (ensure_loaded_holds g o H) as (g1 & o1 & E & Hg1 & H1 & Hrel & _).
  destruct (reload_usedSlides g g1 (proj1 (proj2 H)) Hrel) as (Hu & _).
  unfold startGame. unfold bind at 1. rewrite E.
  unfold bind at 1. unfold gets at 1. rewrite Hg1.
  unfold bind at 1.
  destruct ((if truthy (Some deckId) && negb (String.eqb deckId "default")
             then loadDeck DECKS deckId else ret None) o1) as [early o2] eqn:E2.
  assert (F : do_metadata (sql o2) = do_metadata (sql o1) /\
              game_session (sql o2) = game_session (sql o1) /\
              roomCode o2 = roomCode o1 /\ ctx_id o2 = ctx_id o1 /\
              gameState o2 = gameState o1 /\
              trace o2 = trace o1 /\ alarmTime o2 = alarmTime o1).
  { destruct (truthy (Some deckId) && negb (String.eqb deckId "default")).
    - pose proof (loadDeck_frame DECKS deckId o1) as F. simpl in F. rewrite E2 in F. exact F.
    - unfold ret in E2. inversion E2; subst. repeat split. }
  destruct F as (F1 & F2 & F3 & F4 & F5 & _).
  destruct early as [response|].
  - exists g1. split; [|assumption]. simpl.
    eapply holds_frame; [exact H1 | assumption ..].
  - rewrite Hg1 in F5. run_methods. rewrite F5. simpl.
    exists (set_timerEnd (now + 45000) (set_maxSlides (default 10 maxSlides)
              (set_phase presenting g1))).
    split; [|exact Hu].
    eapply holds_saved; [exact H1 | simpl; assumption .. | reflexivity | | reflexivity | ].
    + apply H1.
    + simpl. exists now. apply lookup_insert_eq.
Qed.

Lemma getNextSlide_unused (o : GameSession) (g : GameState) (c : VoteChoice) (x : string) :
  gameState o = Some g -> getNextSlide o c = Returned (Some x) -> x ∉ usedSlides g.
Proof.
  intros Hg. unfold getNextSlide. rewrite Hg.
  destruct (adjacency (sql o) !! currentSlide g) as [row|]; [|discriminate].
  intros Hf. inversion Hf as [Hf']. apply find_some in Hf' as (_ & Hf'').
  rename Hf'' into Hf0. clear Hf. rename Hf0 into Hf.
  apply has_false. destruct (JsSet.has (usedSlides g) x); [discriminate | reflexivity].
Qed.

Lemma state_ok_advance (g : GameState) (x : string) (b : bool) (t : Z) :
  state_ok g -> x ∉ usedSlides g ->
  state_ok (set_timerEnd t (set_phase presenting
             (set_slideCount (slideCount g + 1)
                (set_usedSlides (JsSet.add (usedSlides g) x)
                   (set_currentSlide x (set_votingOpen b g)))))).
Proof.
  intros (K1 & K2 & K3 & K4 & K5) Hx. unfold state_ok. simpl.
  rewrite add_fresh by assumption.
  split; [apply elem_of_app; right; apply list_elem_of_singleton; reflexivity|].
  split.
  { apply NoDup_app. repeat split; [assumption| |apply NoDup_singleton].
    intros y Hy Hy'. apply list_elem_of_singleton in Hy'. subst. contradiction. }
  split; [|split; assumption].
  unfold JsSet.size in *. rewrite length_app. simpl. lia.
Qed.

Lemma holds_closed (g : GameState) (o1 o2 : GameSession) :
  holds g o1 ->
  do_metadata (sql o2) = do_metadata (sql o1) ->
  game_session (sql o2) = game_session (sql o1) ->
  roomCode o2 = roomCode o1 ->
  ctx_id o2 = ctx_id o1 ->
  gameState o2 = Some (set_votingOpen false g) ->
  holds (set_votingOpen false g) o2.
Proof.
  intros H F1 F2 F3 F4 Hg. pose proof H as (_ & Hok & Hrow & _).
  eapply holds_saved; [exact H | assumption .. | reflexivity | exact Hok | exact Hg | ].
  rewrite F2. exact Hrow.
Qed.

Lemma processVotesAndAdvance_threw (o : GameSession) (g : GameState) (now : Z) :
  gameState o = Some g ->
  getNextSlide o (winner g) = Thrown ->
  processVotesAndAdvance now o
    = (Thrown, with_gameState (Some (set_votingOpen false g)) o).
Proof.
  intros Hg Hn.
  unfold processVotesAndAdvance. unfold bind at 1. unfold gets at 1. rewrite Hg.
  unfold bind at 1. unfold update_gameState at 1. unfold modify at 1.
  unfold bind at 1. unfold get at 1. rewrite Hg.
  change (set_votingOpen false <$> Some g) with (Some (set_votingOpen false g)).
  cbn [gameState with_gameState].
  rewrite (getNextSlide_votingOpen o g false _ Hg).
  change (winner (set_votingOpen false g)) with (winner g).
  rewrite Hn. reflexivity.
Qed.

Lemma processVotesAndAdvance_finish (o : GameSession) (g : GameState)
    (nextSlide : option string) (now : Z) :
  gameState o = Some g ->
  getNextSlide o (winner g) = Returned nextSlide ->
  truthy nextSlide = false \/ slideCount g >= maxSlides g ->
  exists o' p,
    processVotesAndAdvance now o = (Returned tt, o') /\
    gameState o' = Some (finishedState g) /\
    trace o' = (trace o ++
                [Broadcast {| msg_data := gameState_msg (Some p); timestamp := now |};
                 Saved (toRecord (finishedState g) now)])%list /\
    pub_phase p = finished /\
    game_session (sql o') =
      <[sessionId g := toRecord (finishedState g) now]> (game_session (sql o)) /\
    alarmTime o' = alarmTime o /\
    same_identity o o'.
Proof.
  intros Hg Hn Hc.
  unfold processVotesAndAdvance. unfold bind at 1. unfold gets at 1. rewrite Hg.
  unfold bind at 1. unfold update_gameState at 1. unfold modify at 1.
  unfold bind at 1. unfold get at 1. rewrite Hg.
  change (set_votingOpen false <$> Some g) with (Some (set_votingOpen false g)).
  cbn [gameState with_gameState].
  rewrite (getNextSlide_votingOpen o g false _ Hg).
  change (winner (set_votingOpen false g)) with (winner g).
  change (slideCount (set_votingOpen false g)) with (slideCount g).
  change (maxSlides (set_votingOpen false g)) with (maxSlides g).
  rewrite Hn.
  assert (Hb : negb (truthy nextSlide) || (slideCount g >=? maxSlides g) = true).
  { destruct Hc as [Hc | Hc].
    - rewrite Hc. reflexivity.
    - apply orb_true_iff. right. apply Z.geb_le. lia. }
  rewrite Hb. run_methods.
  eexists. eexists. split; [reflexivity|]. simpl.
  split; [reflexivity|].
  split; [rewrite <- app_assoc; reflexivity|].
  repeat split.
Qed.

Lemma processVotesAndAdvance_advance (o : GameSession) (g : GameState) (x : string)
    (now : Z) :
  gameState o = Some g ->
  getNextSlide o (winner g) = Returned (Some x) -> x <> "" ->
  slideCount g < maxSlides g ->
  exists o' p,
    processVotesAndAdvance now o = (Returned tt, o') /\
    gameState o' = Some (advancedState g x now) /\
    trace o' = (trace o ++
                [Saved (toRecord (advancedState g x now) now);
                 AlarmSet (now + 45000);
                 Broadcast {| msg_data := gameState_msg (Some p); timestamp := now |};
                 Broadcast {| msg_data := slideChange_msg x; timestamp := now |}])%list /\
    (pub_phase p = presenting /\ pub_currentSlide p = x) /\
    game_session (sql o') =
      <[sessionId g := toRecord (advancedState g x now) now]> (game_session (sql o)) /\
    alarmTime o' = Some (now + 45000) /\
    same_identity o o'.
Proof.
  intros Hg Hn Hx Hc.
  unfold processVotesAndAdvance. unfold bind at 1. unfold gets at 1. rewrite Hg.
  unfold bind at 1. unfold update_gameState at 1. unfold modify at 1.
  unfold bind at 1. unfold get at 1. rewrite Hg.
  change (set_votingOpen false <$> Some g) with (Some (set_votingOpen false g)).
  cbn [gameState with_gameState].
  rewrite (getNextSlide_votingOpen o g false _ Hg).
  change (winner (set_votingOpen false g)) with (winner g).
  change (slideCount (set_votingOpen false g)) with (slideCount g).
  change (maxSlides (set_votingOpen false g)) with (maxSlides g).
  rewrite Hn.
  assert (Hb : negb (truthy (Some x)) || (slideCount g >=? maxSlides g) = false).
  { rewrite truthy_nonempty by assumption. simpl.
    destruct (Z.geb_spec (slideCount g) (maxSlides g)); [lia | reflexivity]. }
  rewrite Hb. run_methods.
  eexists. eexists. split; [reflexivity|]. simpl.
  split; [reflexivity|].
  split; [rewrite <- !app_assoc; reflexivity|].
  repeat split.
Qed.

(** The cases of [processVotesAndAdvance]. *)
Lemma processVotesAndAdvance_cases (o : GameSession) (g : GameState) :
  getNextSlide o (winner g) = Thrown \/
  (exists nextSlide,
     getNextSlide o (winner g) = Returned nextSlide /\
     (truthy nextSlide = false \/ slideCount g >= maxSlides g)) \/
  (exists x, getNextSlide o (winner g) = Returned (Some x) /\ x <> "" /\
             slideCount g < maxSlides g).
Proof.
  destruct (getNextSlide o (winner g)) as [|nextSlide]; [left; reflexivity|]. right.
  destruct (truthy nextSlide) eqn:Ht;
    [|left; exists nextSlide; split; [reflexivity | left; assumption]].
  destruct (Z_lt_ge_dec (slideCount g) (maxSlides g)) as [Hlt | Hge];
    [|left; exists nextSlide; split; [reflexivity | right; assumption]].
  right. apply truthy_Some in Ht as (x & -> & Hne). exists x. repeat split; assumption.
Qed.

(** The voting branch of [alarm], by the outcome of
    [processVotesAndAdvance]. *)
Lemma alarm_dispatch_voting (o : GameSession) (g : GameState) (now : Z) :
  gameState o = Some g -> phase g = voting ->
  alarm_dispatch now o = (tt, snd (processVotesAndAdvance now o)).
Proof.
  intros Hg Hp. unfold alarm_dispatch. unfold bind at 1. unfold gets at 1.
  rewrite Hg, Hp. unfold bind at 1.
  destruct (processVotesAndAdvance now o) as [r o']. reflexivity.
Qed.

Lemma alarm_dispatch_holds (g1 : GameState) (o1 : GameSession) (now : Z) :
  holds g1 o1 -> gameState o1 = Some g1 ->
  exists g2, holds g2 (snd (alarm_dispatch now o1)) /\
             (forall x, x ∈ usedSlides g1 -> x ∈ usedSlides g2).
Proof.
  intros H1 Hg1. pose proof H1 as (_ & Hok & Hrow & _).
  pose proof Hok as (K1 & K2 & K3 & K4 & K5).
  unfold alarm_dispatch. unfold bind at 1. unfold gets at 1. rewrite Hg1.
  destruct (phase g1) eqn:Hp.
  - exists g1. split; [exact H1 | auto].
  - destruct (slideCount g1 >=? maxSlides g1).
    + run_methods. rewrite Hg1. simpl.
      exists (set_timeRemaining (Some 0) (set_phase finished g1)).
      split; [|auto].
      eapply holds_saved; [exact H1 | reflexivity .. | exact Hok | reflexivity | ].
      exists now. apply lookup_insert_eq.
    + run_methods. rewrite Hg1. simpl.
      exists (set_timerEnd (now + 10000)
                (set_votes {| logical := 0; chaotic := 0 |}
                   (set_voters [] (set_votingOpen true (set_phase voting g1))))).
      split; [|auto].
      eapply holds_saved; [exact H1 | reflexivity .. | | reflexivity | ].
      * unfold state_ok. simpl. repeat split; try assumption. constructor.
      * exists now. simpl. apply lookup_insert_eq.
  - fold (alarm_dispatch now o1) in |- *.
    change (match voting with
            | presenting => _ | voting => _ | _ => _ end) with
      (processVotesAndAdvance now ;; ret tt).
    unfold bind at 1.
    destruct (processVotesAndAdvance_cases o1 g1)
      as [Hn | [(r & Hn & Hc) | (x & Hn & Hx & Hc)]].
    + rewrite (processVotesAndAdvance_threw o1 g1 now Hg1 Hn). simpl.
      exists (set_votingOpen false g1). split; [|auto].
      eapply holds_closed; [exact H1 | reflexivity ..].
    + destruct (processVotesAndAdvance_finish o1 g1 r now Hg1 Hn Hc)
        as (o' & p & -> & Hg' & _ & _ & Hs & _ & (I1 & I2 & I3 & _)).
      exists (finishedState g1). split; [|auto].
      eapply holds_saved; [exact H1 | assumption .. | reflexivity | exact Hok | exact Hg' | ].
      exists now. simpl. rewrite Hs. apply lookup_insert_eq.
    + destruct (processVotesAndAdvance_advance o1 g1 x now Hg1 Hn Hx Hc)
        as (o' & p & -> & Hg' & _ & _ & Hs & _ & (I1 & I2 & I3 & _)).
      pose proof (getNextSlide_unused o1 g1 _ x Hg1 Hn) as Hu.
      exists (advancedState g1 x now). split.
      * eapply holds_saved; [exact H1 | assumption .. | reflexivity | | exact Hg' | ].
        -- apply state_ok_advance; assumption.
        -- exists now. simpl. rewrite Hs. apply lookup_insert_eq.
      * simpl. intros y Hy. rewrite add_fresh by assumption.
        apply elem_of_app. left. assumption.
  - exists g1. split; [exact H1 | auto].
Qed.

Lemma alarm_holds (g : GameState) (o : GameSession) (now : Z) :
  holds g o ->
  exists g2, holds g2 (snd (alarm now o)) /\
             (forall x, x ∈ usedSlides g -> x ∈ usedSlides g2).
Proof.
  intros H. rewrite alarm_unfold.
  destruct (ensure_loaded_holds g (recovered o) (recovered_holds g o H))
    as (g1 & o1 & E & Hg1 & H1 & Hrel & _).
  destruct (reload_usedSlides g g1 (proj1 (proj2 H)) Hrel) as (Hu & _).
  rewrite E. simpl. rewrite <- Hu. apply alarm_dispatch_holds; assumption.
Qed.

Lemma initializeTables_frame (o : GameSession) :
  let o' := snd (initializeTables o) in
  ctx_id o' = ctx_id o /\ do_metadata (sql o') = do_metadata (sql o) /\
  game_session (sql o') = game_session (sql o) /\ gameState o' = gameState o /\
  roomCode o' = roomCode o /\ trace o' = trace o /\ alarmTime o' = alarmTime o.
Proof.
  unfold initializeTables, loadMockDataIfNeeded, loadMockSlideData, bind, gets, modify,
    ret, when.
  cbn [fst snd]. destruct (Nat.eqb (size (adjacency (sql o))) 0); repeat split.
Qed.

Lemma constructor_frame (id : string) (s : SqlStorage) (a : option Z) (tr : list Event) :
  let o := constructor id s a tr in
  ctx_id o = id /\ do_metadata (sql o) = do_metadata s /\
  game_session (sql o) = game_session s /\ gameState o = None /\
  roomCode o = do_metadata s !! "room_code" /\ trace o = tr /\ alarmTime o = a.
Proof.
  unfold constructor. unfold bind.
  destruct (initializeTables
              {| ctx_id := id; sql := s; alarmTime := a; gameState := None;
                 roomCode := None; trace := tr |}) as [[] o1] eqn:E.
  pose proof (initializeTables_frame
                {| ctx_id := id; sql := s; alarmTime := a; gameState := None;
                   roomCode := None; trace := tr |}) as F.
  cbv zeta in F. rewrite E in F. cbn [snd ctx_id sql gameState roomCode trace alarmTime] in F.
  destruct F as (F1 & F2 & F3 & F4 & F5 & F6 & F7).
  unfold recoverRoomCodeFromStorage, bind, gets, modify, ret. cbn [fst snd].
  rewrite F2.
  destruct (do_metadata s !! "room_code") as [v|]; cbn [snd].
  - unfold with_roomCode. cbn. repeat split; assumption.
  - repeat split; assumption.
Qed.

Lemma restart_holds (g : GameState) (o : GameSession) :
  holds g o -> holds g (restart o).
Proof.
  intros (Hrc & Hok & Hrow & Hmem).
  destruct (constructor_frame (ctx_id o) (sql o) (alarmTime o) (trace o))
    as (F1 & F2 & F3 & F4 & F5 & _).
  fold (restart o) in *.
  unfold holds, room_code_ok. rewrite F1, F2, F3, F4, F5.
  split; [|split; [assumption | split; [assumption | right; reflexivity]]].
  destruct Hrc as [(Hm & Hne & Hr) | (Hm & Hr & Hs)]; rewrite Hm.
  - left. repeat split; auto.
  - right. repeat split; auto.
Qed.

Lemma newGame_holds (id : string) (roomCode : option string) (now : Z) :
  holds (initialState (js_or_string roomCode id)) (newGame id roomCode now).
Proof.
  unfold newGame, newObject.
  destruct (constructor_frame id emptyStorage None []) as (F1 & F2 & F3 & F4 & F5 & _).
  set (o := constructor id emptyStorage None []) in *.
  unfold initialize, saveGameState, storeRoomCode, when, bind, gets, modify, ret.
  cbn [fst snd]. rewrite F1.
  change (JsSet.of_list ["slide_1"]) with ["slide_1"].
  fold (initialState (js_or_string roomCode id)).
  destruct (truthy roomCode) eqn:Ht.
  - apply truthy_Some in Ht as (x & -> & Hx).
    unfold js_or_string, js_or. rewrite (truthy_nonempty x Hx). cbn.
    unfold holds, room_code_ok. cbn.
    split; [left; split; [apply lookup_insert_eq | split; [assumption | right; reflexivity]]|].
    split; [|split; [exists now; apply lookup_insert_eq | left; reflexivity]].
    unfold state_ok; cbn. repeat split; repeat constructor; apply not_elem_of_nil.
  - assert (Hk : js_or_string roomCode id = id).
    { unfold js_or_string, js_or. rewrite Ht. reflexivity. }
    rewrite Hk. unfold js_or. rewrite Ht. cbn.
    unfold holds, room_code_ok. cbn. rewrite F2, F1.
    split; [right; split; [apply lookup_empty | split; reflexivity]|].
    split; [|split; [exists now; apply lookup_insert_eq | left; reflexivity]].
    unfold state_ok; cbn. repeat split; repeat constructor; apply not_elem_of_nil.
Qed.

Lemma perform_holds (op : Operation) (now : Z) (g : GameState) (o : GameSession) :
  holds g o ->
  exists g2, holds g2 (perform op now o) /\
             (forall x, x ∈ usedSlides g -> x ∈ usedSlides g2).
Proof.
  intros H. destruct op as [DECKS deckId maxSlides | userId choice | | upgrade | message | |];
    simpl.
  - destruct (startGame_holds g o DECKS deckId maxSlides now H) as (g2 & H2 & Hu).
    exists g2. split; [assumption | rewrite Hu; auto].
  - destruct (vote_holds g o userId choice now H) as (g2 & H2 & Hu).
    exists g2. split; [assumption | rewrite Hu; auto].
  - destruct (getStatus_holds g o now H) as (g2 & H2 & Hu).
    exists g2. split; [assumption | rewrite Hu; auto].
  - destruct (fetch_holds g o upgrade now H) as (g2 & H2 & Hu).
    exists g2. split; [assumption | rewrite Hu; auto].
  - destruct (webSocketMessage_holds g o message now H) as (g2 & H2 & Hu).
    exists g2. split; [assumption | rewrite Hu; auto].
  - apply alarm_holds. assumption.
  - exists g. split; [apply restart_holds; assumption | auto].
Qed.

Lemma run_holds (ops : list (Operation * Z)) (g : GameState) (o : GameSession) :
  holds g o -> exists g2, holds g2 (run ops o).
Proof.
  revert g o. induction ops as [|[op now] ops IH]; intros g o H; simpl.
  - exists g. assumption.
  - destruct (perform_holds op now g o H) as (g2 & H2 & _). apply (IH g2). assumption.
Qed.

(** What an operation sees of a game the object holds. *)
Lemma holds_session (g : GameState) (o : GameSession) :
  holds g o ->
  exists gs, session o = Some gs /\ state_ok gs /\ usedSlides gs = usedSlides g.
Proof.
  intros H. destruct (ensure_loaded_holds g o H) as (g1 & o1 & E & Hg1 & H1 & Hrel & _).
  destruct (reload_usedSlides g g1 (proj1 (proj2 H)) Hrel) as (Hu & _).
  exists g1. unfold session. rewrite E. simpl. split; [assumption|].
  split; [apply H1 | assumption].
Qed.


(** ** Ballots of a round *)

Lemma ballots_ext (s1 s2 : list string) (calls : list (string * VoteChoice * Z)) :
  (forall x, x ∈ s1 <-> x ∈ s2) -> ballots s1 calls = ballots s2 calls.
Proof.
  revert s1 s2. induction calls as [|[[u c] t] rest IH]; intros s1 s2 Hext; simpl.
  - reflexivity.
  - rewrite (bool_decide_ext (u ∈ s1) (u ∈ s2)) by apply Hext.
    destruct (bool_decide (u ∈ s2)).
    + apply IH. assumption.
    + f_equal. apply IH. intros x. rewrite !elem_of_cons. rewrite Hext. reflexivity.
Qed.

Lemma tally_cons (c c' : VoteChoice) (u : string) (bs : list (string * VoteChoice)) :
  tally c ((u, c') :: bs) = (if bool_decide (c' = c) then 1 else 0) + tally c bs.
Proof.
  unfold tally. rewrite filter_cons. simpl.
  destruct (decide (c' = c)) as [->|Hne].
  - rewrite bool_decide_eq_true_2 by reflexivity. simpl length. lia.
  - rewrite bool_decide_eq_false_2 by assumption. lia.
Qed.

Lemma vote_in_memory (o : GameSession) (g : GameState) (userId : string)
    (choice : VoteChoice) (now : Z) :
  gameState o = Some g -> votingOpen g = true ->
  exists g',
    gameState (snd (vote userId choice now o)) = Some g' /\
    votingOpen g' = true /\
    ((userId ∈ voters g) /\ g' = g \/
     (userId ∉ voters g) /\ voters g' = (voters g ++ [userId])%list /\
     votes g' = incr_votes choice (votes g)).
Proof.
  intros Hg Hopen. run_methods. rewrite Hg. simpl. rewrite Hg, Hopen. simpl.
  destruct (JsSet.has (voters g) userId) eqn:Hv; simpl.
  - exists g. apply has_true in Hv. auto.
  - apply has_false in Hv. rewrite Hg. simpl.
    eexists. split; [reflexivity|]. simpl. split; [assumption|].
    right. rewrite add_fresh by assumption. auto.
Qed.

Lemma castVotes_tally (calls : list (string * VoteChoice * Z)) (o : GameSession)
    (g : GameState) :
  gameState o = Some g -> votingOpen g = true ->
  exists g',
    gameState (castVotes calls o) = Some g' /\
    voters g' = (voters g ++ map fst (ballots (voters g) calls))%list /\
    logical (votes g') = logical (votes g) + tally Logical (ballots (voters g) calls) /\
    chaotic (votes g') = chaotic (votes g) + tally Chaotic (ballots (voters g) calls).
Proof.
  revert o g. induction calls as [|[[u c] t] rest IH]; intros o g Hg Hopen; simpl.
  - exists g. rewrite app_nil_r. unfold tally. simpl. repeat split; [assumption | lia | lia].
  - destruct (vote_in_memory o g u c t Hg Hopen) as (g1 & Hg1 & Hopen1 & Hcase).
    destruct (IH _ g1 Hg1 Hopen1) as (g' & Hg' & Hv & Hl & Hc).
    exists g'. split; [assumption|].
    destruct Hcase as [(Hin & ->) | (Hnin & Hv1 & Hvotes)].
    + rewrite bool_decide_eq_true_2 by assumption. auto.
    + rewrite bool_decide_eq_false_2 by assumption.
      assert (Hb : ballots (voters g1) rest = ballots (u :: voters g) rest).
      { apply ballots_ext. intros x. rewrite Hv1.
        rewrite elem_of_app, list_elem_of_singleton, elem_of_cons. tauto. }
      rewrite Hb in *. rewrite Hv, Hl, Hc, Hv1, Hvotes. simpl map.
      rewrite <- app_assoc. split; [reflexivity|].
      rewrite !tally_cons. destruct c; simpl; split; lia.
Qed.

Lemma ballots_NoDup (calls : list (string * VoteChoice * Z)) (seen : list string) :
  NoDup (map fst (ballots seen calls)) /\
  forall x, x ∈ map fst (ballots seen calls) -> x ∉ seen.
Proof.
  revert seen. induction calls as [|[[u c] t] rest IH]; intros seen; simpl.
  - split; [constructor | intros x Hx; inversion Hx].
  - destruct (bool_decide (u ∈ seen)) eqn:Hu.
    + apply IH.
    + apply bool_decide_eq_false in Hu. destruct (IH (u :: seen)) as (Hnd & Hfresh).
      simpl. split.
      * constructor; [|assumption]. intros Hin. apply (Hfresh u Hin). left.
      * intros x Hx. apply elem_of_cons in Hx as [-> | Hx]; [assumption|].
        intros Hs. apply (Hfresh x Hx). right. assumption.
Qed.

Lemma tally_total (bs : list (string * VoteChoice)) :
  tally Logical bs + tally Chaotic bs = Z.of_nat (length bs).
Proof.
  induction bs as [|[u c] bs IH].
  - reflexivity.
  - rewrite !tally_cons. simpl length. destruct c; simpl; lia.
Qed.

Lemma ensure_frame (o : GameSession) :
  same_durable o (snd (ensureGameStateLoaded o)).
Proof.
  unfold ensureGameStateLoaded, bind, gets. cbv beta iota.
  destruct (gameState o).
  - unfold ret, same_durable. simpl. repeat split.
  - apply loadGameState_frame.
Qed.

Lemma alarm_opens_round (o : GameSession) (g : GameState) (now : Z) :
  session o = Some g -> phase g = presenting -> slideCount g < maxSlides g ->
  gameState (snd (alarm now o)) = Some (votingState g now).
Proof.
  intros Hs Hp Hc.
  destruct (alarm_after_load o now) as (o1 & -> & Hg & _).
  rewrite Hs in Hg. run_methods. rewrite Hg, Hp.
  destruct (Z.geb_spec (slideCount g) (maxSlides g)) as [|_]; [lia|].
  simpl. rewrite Hg. reflexivity.
Qed.

(** ** Timer fires *)

Lemma alarm_in_memory (o : GameSession) (g : GameState) (now : Z) :
  gameState o = Some g ->
  alarm now o = alarm_dispatch now (recovered o) /\ gameState (recovered o) = Some g.
Proof.
  intros Hg. rewrite alarm_unfold.
  destruct (recovered_frame o) as (F1 & _). rewrite Hg in F1.
  unfold ensureGameStateLoaded, bind, gets. cbv beta iota. rewrite F1.
  split; reflexivity.
Qed.

Lemma getNextSlide_recovered (o : GameSession) (c : VoteChoice) :
  getNextSlide (recovered o) c = getNextSlide o c.
Proof.
  destruct (recovered_frame o) as (F1 & F2 & _).
  unfold getNextSlide. rewrite F1, F2. reflexivity.
Qed.



Lemma getNextSlide_Thrown (o : GameSession) (g : GameState) (c : VoteChoice) :
  gameState o = Some g ->
  getNextSlide o c = Thrown <-> adjacency (sql o) !! currentSlide g = None.
Proof.
  intros Hg. unfold getNextSlide. rewrite Hg.
  destruct (adjacency (sql o) !! currentSlide g) as [row|].
  - split; discriminate.
  - split; reflexivity.
Qed.

Lemma loadGameState_empty (o : GameSession) :
  game_session (sql o) = ∅ -> gameState o = None ->
  gameState (snd (ensureGameStateLoaded o)) = None.
Proof.
  intros He Hnone. unfold ensureGameStateLoaded, bind, gets. cbv beta iota. rewrite Hnone.
  unfold loadGameState, bind, gets. cbv beta iota. rewrite when_recover.
  destruct (recovered_frame o) as (F1 & F2 & _). rewrite F2, He, lookup_empty.
  unfold ret. simpl. rewrite F1. assumption.
Qed.

(** ** Loading a deck *)

Lemma kv_get_metadata (DECKS : KVNamespace) (key : string) (value : Json DeckMetadata) :
  get_metadata DECKS key = Some value ->
  kv_get DECKS (get_metadata DECKS) key = Returned (Some value).
Proof.
  intros H. unfold kv_get. pose proof (metadata_key_fits DECKS key value H) as Hfit.
  destruct (Nat.ltb_spec 512 (String.length key)) as [Hlt | _]; [lia|].
  rewrite H. reflexivity.
Qed.

Lemma kv_get_adjacency (DECKS : KVNamespace) (key : string)
    (value : Json (list (string * Neighbors))) :
  get_adjacency DECKS key = Some value ->
  kv_get DECKS (get_adjacency DECKS) key = Returned (Some value).
Proof.
  intros H. unfold kv_get. pose proof (adjacency_key_fits DECKS key value H) as Hfit.
  destruct (Nat.ltb_spec 512 (String.length key)) as [Hlt | _]; [lia|].
  rewrite H. reflexivity.
Qed.

Lemma insert_all_fresh (rows : list AdjacencyRecord) (t : gmap string AdjacencyRecord) :
  NoDup (map slide_id rows) ->
  (forall row, row ∈ rows -> t !! slide_id row = None) ->
  exists t', insert_all rows t = inl t'.
Proof.
  revert t. induction rows as [|row rows IH]; intros t Hnd Hfresh; simpl.
  - exists t. reflexivity.
  - unfold insert_adjacency. rewrite (Hfresh row) by left.
    inversion Hnd as [|? ? Hnotin Hnd']; subst.
    apply IH; [assumption|].
    intros r Hr. rewrite lookup_insert_ne.
    + apply Hfresh. right. assumption.
    + intros Heq. apply Hnotin. rewrite Heq. apply list_elem_of_fmap. exists r. auto.
Qed.

Lemma deckRows_ids (adjacencyData : list (string * Neighbors)) :
  map slide_id (deckRows adjacencyData) = map fst adjacencyData.
Proof.
  unfold deckRows. rewrite map_map. apply map_ext. intros [slideId neighbors]. reflexivity.
Qed.

Lemma loadDeck_ready (DECKS : KVNamespace) (deckId : string) (o : GameSession) :
  deck_ready DECKS deckId ->
  exists t, loadDeck DECKS deckId o = (None, with_sql (with_adjacency t (sql o)) o).
Proof.
  intros (metadata & adjacencyData & Hm & Hs & Ha & Hnd).
  unfold loadDeck. rewrite (kv_get_metadata _ _ _ Hm), Hs.
  cbn [String.eqb negb]. rewrite (kv_get_adjacency _ _ _ Ha). simpl.
  fold (deckRows adjacencyData).
  destruct (insert_all_fresh (deckRows adjacencyData) ∅) as (t & Ht).
  - rewrite deckRows_ids. assumption.
  - intros row _. apply lookup_empty.
  - rewrite Ht. exists t. reflexivity.
Qed.

(** ** Claims *)

(** C1 fails as stated: on a game that has finished, [startGame] answers with
    a success (status 200, no error of any kind) and the phase goes back to
    presenting. *)
Lemma startGame_on_finished_game :
  phase <$> gameState (quietGame 18) = Some finished /\
  success (fst (startGame noDecks "default" (Some 3) 70000 (quietGame 18))) = true /\
  status (fst (startGame noDecks "default" (Some 3) 70000 (quietGame 18))) = 200 /\
  errorKind (fst (startGame noDecks "default" (Some 3) 70000 (quietGame 18))) = None /\
  phase <$> gameState (snd (startGame noDecks "default" (Some 3) 70000 (quietGame 18)))
    = Some presenting.
Proof. vm_compute. repeat split. Qed.

(** C1, as amended. [startGame] does not look at the phase. Whatever the phase
    of the session (waiting, presenting, voting or finished), with the default
    deck or a deck that is ready it succeeds: the response carries the public
    state, the session is in phase presenting with the given [maxSlides] (10
    when absent) and the deadline 45 s ahead, and the row is saved, the alarm
    set and the state broadcast, in this order. *)
Theorem startGame_any_phase (o : GameSession) (g : GameState) (DECKS : KVNamespace)
    (deckId : string) (maxSlides : option Z) (now : Z) :
  session o = Some g ->
  deckId = "" \/ deckId = "default" \/ deck_ready DECKS deckId ->
  exists o' p,
    startGame DECKS deckId maxSlides now o = (ok (Started (Some p)), o') /\
    gameState o' = Some (startedState g (default 10 maxSlides) now) /\
    trace o' =
      (trace o ++
       [Saved (toRecord (startedState g (default 10 maxSlides) now) now);
        AlarmSet (now + 45000);
        Broadcast {| msg_data := gameState_msg (Some p); timestamp := now |}])%list /\
    pub_phase p = presenting /\
    alarmTime o' = Some (now + 45000).
Proof.
  intros Hs Hdeck.
  unfold session in Hs. pose proof (ensure_frame o) as (Ht & _).
  unfold startGame. unfold bind at 1.
  destruct (ensureGameStateLoaded o) as [[] o1]. simpl in Hs, Ht.
  unfold bind at 1. unfold gets at 1. rewrite Hs.
  assert (Hd : exists o2,
             (if truthy (Some deckId) && negb (String.eqb deckId "default")
              then loadDeck DECKS deckId else ret None) o1 = (None, o2) /\
             gameState o2 = Some g /\ trace o2 = trace o).
  { destruct (truthy (Some deckId) && negb (String.eqb deckId "default")) eqn:Hb.
    - destruct Hdeck as [-> | [-> | Hready]]; [discriminate | discriminate |].
      destruct (loadDeck_ready DECKS deckId o1 Hready) as (t & ->).
      eexists. split; [reflexivity|]. split; assumption.
    - exists o1. split; [reflexivity|]. split; assumption. }
  destruct Hd as (o2 & Hd & Hg2 & Ht2).
  unfold bind at 1. rewrite Hd.
  run_methods. repeat (rewrite Hg2; simpl).
  eexists. eexists. split; [reflexivity|]. simpl.
  split; [reflexivity|]. split; [rewrite Ht2, <- !app_assoc; reflexivity|].
  split; reflexivity.
Qed.

(** C1, instance: a finished quiet game is started again. *)
Lemma startGame_any_phase_witness :
  exists g,
    session (quietGame 18) = Some g /\ phase g = finished /\
    exists o' p,
      startGame noDecks "default" (Some 3) 70000 (quietGame 18)
        = (ok (Started (Some p)), o') /\
      gameState o' = Some (startedState g (default 10 (Some 3)) 70000) /\
      trace o' =
        (trace (quietGame 18) ++
         [Saved (toRecord (startedState g (default 10 (Some 3)) 70000) 70000);
          AlarmSet (70000 + 45000);
          Broadcast {| msg_data := gameState_msg (Some p); timestamp := 70000 |}])%list /\
      pub_phase p = presenting /\
      alarmTime o' = Some (70000 + 45000).
Proof.
  eexists.
  split; [vm_compute; reflexivity|].
  split; [reflexivity|].
  eapply (startGame_any_phase (quietGame 18) _ noDecks "default" (Some 3) 70000);
    [vm_compute; reflexivity | right; left; reflexivity].
Defined.

(** C2. When the voting timer fires, the winning choice is logical exactly when
    [votes.logical] is strictly greater than [votes.chaotic]; on every tie the
    winner is chaotic; and [getNextSlide] for that winner decides what the fire
    does: when it throws (the current slide has no adjacency row) the catch of
    [alarm] leaves the session in phase voting with the voting closed; when it
    returns no slide, or the slide count has reached [maxSlides], the game
    finishes; otherwise the game advances to the slide it returns. *)
Theorem winner_tie_break (o : GameSession) (g : GameState) (now : Z) :
  gameState o = Some g ->
  phase g = voting ->
  (winner g = Logical <-> logical (votes g) > chaotic (votes g)) /\
  (logical (votes g) = chaotic (votes g) -> winner g = Chaotic) /\
  ((getNextSlide o (winner g) = Thrown /\
    gameState (snd (alarm now o)) = Some (set_votingOpen false g)) \/
   (exists nextSlide,
      getNextSlide o (winner g) = Returned nextSlide /\
      (truthy nextSlide = false \/ slideCount g >= maxSlides g) /\
      gameState (snd (alarm now o)) = Some (finishedState g)) \/
   (exists nextSlide,
      getNextSlide o (winner g) = Returned (Some nextSlide) /\
      nextSlide <> "" /\ slideCount g < maxSlides g /\
      gameState (snd (alarm now o)) = Some (advancedState g nextSlide now))).
Proof.
  intros Hg Hp.
  split; [apply winner_logical|].
  split.
  { intros Htie. destruct (winner g) eqn:Hw; [|reflexivity].
    apply winner_logical in Hw. lia. }
  destruct (alarm_in_memory o g now Hg) as (-> & Hg1).
  rewrite (alarm_dispatch_voting _ g now Hg1 Hp). cbn [snd].
  rewrite <- (getNextSlide_recovered o).
  destruct (processVotesAndAdvance_cases (recovered o) g)
    as [Hn | [(r & Hn & Hc) | (x & Hn & Hx & Hc)]].
  - left. split; [exact Hn|].
    rewrite (processVotesAndAdvance_threw _ g now Hg1 Hn). reflexivity.
  - right. left. exists r.
    destruct (processVotesAndAdvance_finish _ g r now Hg1 Hn Hc) as (o' & p & -> & Hg' & _).
    split; [exact Hn|]. split; assumption.
  - right. right. exists x.
    destruct (processVotesAndAdvance_advance _ g x now Hg1 Hn Hx Hc) as (o' & p & -> & Hg' & _).
    split; [exact Hn|]. split; [exact Hx|]. split; assumption.
Qed.

(** C2, instance: a round tied at one vote each advances to the first unused
    slide of the chaotic list of slide_1. *)
Lemma winner_tie_break_witness :
  exists g,
    gameState tiedRound = Some g /\ phase g = voting /\
    logical (votes g) = 1 /\ chaotic (votes g) = 1 /\
    getNextSlide tiedRound Chaotic = Returned (Some "slide_8") /\
    (winner g = Logical <-> logical (votes g) > chaotic (votes g)) /\
    (logical (votes g) = chaotic (votes g) -> winner g = Chaotic) /\
    ((getNextSlide tiedRound (winner g) = Thrown /\
      gameState (snd (alarm 60000 tiedRound)) = Some (set_votingOpen false g)) \/
     (exists nextSlide,
        getNextSlide tiedRound (winner g) = Returned nextSlide /\
        (truthy nextSlide = false \/ slideCount g >= maxSlides g) /\
        gameState (snd (alarm 60000 tiedRound)) = Some (finishedState g)) \/
     (exists nextSlide,
        getNextSlide tiedRound (winner g) = Returned (Some nextSlide) /\
        nextSlide <> "" /\ slideCount g < maxSlides g /\
        gameState (snd (alarm 60000 tiedRound)) = Some (advancedState g nextSlide 60000))).
Proof.
  eexists.
  split; [vm_compute; reflexivity|].
  split; [reflexivity|]. split; [reflexivity|]. split; [reflexivity|].
  split; [vm_compute; reflexivity|].
  eapply (winner_tie_break tiedRound _ 60000); [vm_compute; reflexivity | reflexivity].
Defined.

(** C3. The timer fire that ends a quiet game on the default deck in phase
    voting (all neighbours of slide_4 are used): the state with phase finished
    is broadcast first and the row is saved second; while the broadcast goes
    out the session row still has phase voting. *)
Theorem finished_broadcast_before_save :
  phase <$> gameState (quietGame 17) = Some voting /\
  rec_phase <$> game_session (sql (quietGame 17)) !! "ROOM42" = Some voting /\
  trace (snd (alarm 60000 (quietGame 17))) =
    (trace (quietGame 17) ++
     [Broadcast
        {| msg_data := gameState_msg (Some
             {| pub_sessionId := "ROOM42"; pub_currentSlide := "slide_4";
                pub_phase := finished;
                pub_votes := {| logical := 0; chaotic := 0 |};
                pub_timeRemaining := 0; pub_slideCount := 9; pub_maxSlides := 10;
                pub_votingOpen := false |});
           timestamp := 60000 |};
      Saved
        {| session_id := "ROOM42"; current_slide := "slide_4";
           used_slides := ["slide_1"; "slide_8"; "slide_3"; "slide_10"; "slide_5";
                           "slide_7"; "slide_2"; "slide_9"; "slide_4"];
           rec_phase := finished; slide_count := 9; max_slides := 10;
           timer_end := 60000; created_at := 60000; updated_at := 60000 |}])%list.
Proof. vm_compute. repeat split. Qed.

(** C4, failing input: a game of one slide that is started during an open
    round. [startGame] does not close the round, so the slide is presented
    with the voting open; the timer fire on this final slide takes the session
    to finished and leaves the voting open, and a vote is then accepted in the
    finished game. *)
Lemma final_slide_leaves_voting_open :
  phase <$> session lateStart = Some presenting /\
  slideCount <$> session lateStart = Some 1 /\
  maxSlides <$> session lateStart = Some 1 /\
  votingOpen <$> session lateStart = Some true /\
  phase <$> gameState (snd (alarm 97000 lateStart)) = Some finished /\
  votingOpen <$> gameState (snd (alarm 97000 lateStart)) = Some true /\
  status (fst (vote "v2" Chaotic 98000 (snd (alarm 97000 lateStart)))) = 200 /\
  success (fst (vote "v2" Chaotic 98000 (snd (alarm 97000 lateStart)))) = true.
Proof. vm_compute. repeat split. Qed.

(** C4. What the timer fire on the final slide does. While the phase is
    presenting and [slideCount >= maxSlides], [alarm] takes the session
    straight to finished: the row is saved and then the finished state is
    broadcast, nothing else is emitted and the handler sets no alarm, and
    [votingOpen], [votes] and [voters] are what they were: no round is opened
    and none is cleared, and the voting is closed afterwards exactly when it
    was closed before the fire. *)
Theorem alarm_final_slide (o : GameSession) (g : GameState) (now : Z) :
  session o = Some g ->
  phase g = presenting ->
  slideCount g >= maxSlides g ->
  exists g' p,
    gameState (snd (alarm now o)) = Some g' /\
    trace (snd (alarm now o)) =
      (trace o ++ [Saved (toRecord g' now);
                   Broadcast {| msg_data := gameState_msg (Some p); timestamp := now |}])%list /\
    phase g' = finished /\
    pub_phase p = finished /\
    votingOpen g' = votingOpen g /\
    votes g' = votes g /\
    voters g' = voters g /\
    alarmTime (snd (alarm now o)) = alarmTime o.
Proof.
  intros Hs Hp Hc.
  destruct (alarm_after_load o now) as (o1 & -> & Hg & Ht & Ha & _).
  rewrite Hs in Hg. run_methods. rewrite Hg, Hp.
  destruct (Z.geb_spec (slideCount g) (maxSlides g)) as [_|]; [|lia].
  simpl. rewrite Hg. simpl.
  eexists. eexists. split; [reflexivity|]. simpl.
  split; [rewrite Ht, <- app_assoc; reflexivity|].
  repeat split; assumption.
Qed.

(** C4, instance: a game of one slide. *)
Lemma alarm_final_slide_witness :
  exists g,
    session lastSlide = Some g /\ phase g = presenting /\ slideCount g >= maxSlides g /\
    exists g' p,
      gameState (snd (alarm 50000 lastSlide)) = Some g' /\
      trace (snd (alarm 50000 lastSlide)) =
        (trace lastSlide ++
         [Saved (toRecord g' 50000);
          Broadcast {| msg_data := gameState_msg (Some p); timestamp := 50000 |}])%list /\
      phase g' = finished /\
      pub_phase p = finished /\
      votingOpen g' = votingOpen g /\
      votes g' = votes g /\
      voters g' = voters g /\
      alarmTime (snd (alarm 50000 lastSlide)) = alarmTime lastSlide.
Proof.
  eexists.
  split; [vm_compute; reflexivity|].
  split; [reflexivity|]. split; [simpl; lia|].
  eapply (alarm_final_slide lastSlide _ 50000);
    [vm_compute; reflexivity | reflexivity | simpl; lia].
Defined.

(** C5. On a session state whose current slide has a row in the adjacency
    table, [getNextSlide] returns, for either choice, the first element in rank
    order of the neighbour list of that choice that is not in [usedSlides], and
    null exactly when every listed neighbour is in [usedSlides]. On a state
    whose current slide has no row, where no neighbour is listed and the
    selection is to return none, it throws instead: [one()] throws before the
    test of its result against null. A timer fire in phase voting is then cut
    short: the catch of [alarm] leaves the session in phase voting with the
    voting closed, nothing is saved or broadcast and no alarm is set. *)
Theorem getNextSlide_first_unused_or_throws (o : GameSession) (g : GameState)
    (choice : VoteChoice) (now : Z) :
  gameState o = Some g ->
  match adjacency (sql o) !! currentSlide g with
  | Some row =>
      (forall s, getNextSlide o choice = Returned (Some s) <->
         exists before after,
           neighbours row choice = (before ++ (s :: after))%list /\
           (s ∉ usedSlides g) /\
           Forall (fun x => x ∈ usedSlides g) before) /\
      (getNextSlide o choice = Returned None <->
         Forall (fun x => x ∈ usedSlides g) (neighbours row choice))
  | None =>
      getNextSlide o choice = Thrown /\
      (phase g = voting ->
       gameState (snd (alarm now o)) = Some (set_votingOpen false g) /\
       trace (snd (alarm now o)) = trace o /\
       alarmTime (snd (alarm now o)) = alarmTime o /\
       game_session (sql (snd (alarm now o))) = game_session (sql o))
  end.
Proof.
  intros Hg.
  destruct (adjacency (sql o) !! currentSlide g) as [row|] eqn:Hrow.
  - unfold getNextSlide. rewrite Hg, Hrow. split.
    + intros s. split.
      * intros H. inversion H as [H']. destruct choice; apply find_first_unused; exact H'.
      * intros H. f_equal. destruct choice; apply find_first_unused; exact H.
    + split.
      * intros H. inversion H as [H']. destruct choice; apply find_none_all_used; exact H'.
      * intros H. f_equal. destruct choice; apply find_none_all_used; exact H.
  - split; [apply (getNextSlide_Thrown o g choice Hg); exact Hrow|].
    intros Hp.
    destruct (alarm_in_memory o g now Hg) as (-> & Hg1).
    rewrite (alarm_dispatch_voting _ g now Hg1 Hp). cbn [snd].
    assert (Hn : getNextSlide (recovered o) (winner g) = Thrown).
    { rewrite getNextSlide_recovered. apply (getNextSlide_Thrown o g _ Hg). exact Hrow. }
    rewrite (processVotesAndAdvance_threw _ g now Hg1 Hn). simpl.
    destruct (recovered_frame o) as (_ & F2 & F3 & F4 & _).
    rewrite F2, F3, F4. repeat split.
Qed.

(** C5, instance: the first round of a game on a deck that was processed
    without slides. The adjacency table is empty, [getNextSlide] throws for
    the winner, and the timer fire leaves the session in phase voting. *)
Lemma getNextSlide_first_unused_or_throws_witness :
  exists g,
    gameState blankRound = Some g /\ phase g = voting /\ currentSlide g = "slide_1" /\
    adjacency (sql blankRound) = ∅ /\
    getNextSlide blankRound (winner g) = Thrown /\
    phase <$> gameState (snd (alarm 60000 blankRound)) = Some voting /\
    match adjacency (sql blankRound) !! currentSlide g with
    | Some row =>
        (forall s, getNextSlide blankRound Chaotic = Returned (Some s) <->
           exists before after,
             neighbours row Chaotic = (before ++ (s :: after))%list /\
             (s ∉ usedSlides g) /\
             Forall (fun x => x ∈ usedSlides g) before) /\
        (getNextSlide blankRound Chaotic = Returned None <->
           Forall (fun x => x ∈ usedSlides g) (neighbours row Chaotic))
    | None =>
        getNextSlide blankRound Chaotic = Thrown /\
        (phase g = voting ->
         gameState (snd (alarm 60000 blankRound)) = Some (set_votingOpen false g) /\
         trace (snd (alarm 60000 blankRound)) = trace blankRound /\
         alarmTime (snd (alarm 60000 blankRound)) = alarmTime blankRound /\
         game_session (sql (snd (alarm 60000 blankRound))) = game_session (sql blankRound))
    end.
Proof.
  eexists.
  split; [vm_compute; reflexivity|].
  split; [reflexivity|]. split; [reflexivity|].
  split; [vm_compute; reflexivity|]. split; [vm_compute; reflexivity|].
  split; [vm_compute; reflexivity|].
  eapply (getNextSlide_first_unused_or_throws blankRound _ Chaotic 60000).
  vm_compute. reflexivity.
Defined.

(** C6. In every game, after every sequence of operations, the session state
    an operation sees has its current slide among the used slides and a slide
    count equal to the number of used slides; and whatever operation comes
    next, every slide that was used is still used afterwards. *)
Theorem used_slides_invariant (id : string) (roomCode : option string) (now0 : Z)
    (ops : list (Operation * Z)) :
  let o := run ops (newGame id roomCode now0) in
  exists gs,
    session o = Some gs /\
    currentSlide gs ∈ usedSlides gs /\
    slideCount gs = JsSet.size (usedSlides gs) /\
    forall op now, exists gs',
      session (perform op now o) = Some gs' /\
      forall x, x ∈ usedSlides gs -> x ∈ usedSlides gs'.
Proof.
  intros o.
  destruct (run_holds ops _ _ (newGame_holds id roomCode now0)) as (g & H).
  fold o in H.
  destruct (holds_session g o H) as (gs & Hs & (K1 & K2 & K3 & _) & Hu).
  exists gs. repeat split; try assumption.
  intros op now.
  destruct (perform_holds op now g o H) as (g2 & H2 & Hsub).
  destruct (holds_session g2 _ H2) as (gs' & Hs' & _ & Hu').
  exists gs'. split; [assumption|].
  intros x Hx. rewrite Hu'. apply Hsub. rewrite <- Hu. assumption.
Qed.

(** C7. In the round a timer fire opens, after every sequence of [vote] calls:
    the voters are the callers in the order of their first call, each tally is
    the number of first calls for its choice (a later call of the same voter
    counts for nothing), no voter is recorded twice, and the number of voters
    is [votes.logical + votes.chaotic]. *)
Theorem round_tally (o : GameSession) (g : GameState) (now : Z)
    (calls : list (string * VoteChoice * Z)) :
  session o = Some g ->
  phase g = presenting ->
  slideCount g < maxSlides g ->
  exists g',
    gameState (castVotes calls (snd (alarm now o))) = Some g' /\
    voters g' = map fst (ballots [] calls) /\
    NoDup (voters g') /\
    logical (votes g') = tally Logical (ballots [] calls) /\
    chaotic (votes g') = tally Chaotic (ballots [] calls) /\
    JsSet.size (voters g') = logical (votes g') + chaotic (votes g').
Proof.
  intros Hs Hp Hc.
  pose proof (alarm_opens_round o g now Hs Hp Hc) as Hopen.
  destruct (castVotes_tally calls _ _ Hopen eq_refl) as (g' & Hg' & Hv & Hl & Hch).
  simpl in Hv, Hl, Hch.
  exists g'. split; [assumption|]. split; [assumption|].
  split; [rewrite Hv; apply ballots_NoDup|].
  split; [assumption|]. split; [assumption|].
  pose proof (tally_total (ballots [] calls)) as Ht.
  unfold JsSet.size. rewrite Hv, length_map. unfold tally in *. lia.
Qed.

(** C7, instance: v1 votes logical, v2 chaotic, then v1 again. *)
Lemma round_tally_witness :
  exists g,
    session (quietGame 0) = Some g /\ phase g = presenting /\
    slideCount g < maxSlides g /\
    exists g',
      gameState (castVotes [("v1", Logical, 51000); ("v2", Chaotic, 52000);
                            ("v1", Chaotic, 53000)]
                   (snd (alarm 50000 (quietGame 0)))) = Some g' /\
      voters g' = map fst (ballots [] [("v1", Logical, 51000); ("v2", Chaotic, 52000);
                                       ("v1", Chaotic, 53000)]) /\
      NoDup (voters g') /\
      logical (votes g') = tally Logical (ballots [] [("v1", Logical, 51000);
                                                      ("v2", Chaotic, 52000);
                                                      ("v1", Chaotic, 53000)]) /\
      chaotic (votes g') = tally Chaotic (ballots [] [("v1", Logical, 51000);
                                                      ("v2", Chaotic, 52000);
                                                      ("v1", Chaotic, 53000)]) /\
      JsSet.size (voters g') = logical (votes g') + chaotic (votes g').
Proof.
  eexists.
  split; [vm_compute; reflexivity|].
  split; [reflexivity|]. split; [simpl; lia|].
  eapply (round_tally (quietGame 0) _ 50000);
    [vm_compute; reflexivity | reflexivity | simpl; lia].
Defined.

(** C8. A voter whose identifier is recorded in the open round and who votes
    again, with either choice, is rejected with the already-voted error
    (status 400); the call changes nothing: tallies, voters and the rest of
    the object are as before and nothing is broadcast. *)
Theorem vote_twice_rejected (o : GameSession) (g : GameState)
    (userId : string) (choice : VoteChoice) (now : Z) :
  gameState o = Some g ->
  votingOpen g = true ->
  userId ∈ voters g ->
  exists r,
    vote userId choice now o = (r, o) /\
    errorKind r = Some AlreadyVoted /\
    success r = false /\
    status r = 400.
Proof.
  intros Hg Hopen Hin. run_methods. rewrite Hg. simpl. rewrite Hg, Hopen. simpl.
  apply has_true in Hin. rewrite Hin.
  eexists. split; [reflexivity|]. repeat split.
Qed.

(** C8, instance: v1 votes a second time in the tied round. *)
Lemma vote_twice_rejected_witness :
  exists g,
    gameState tiedRound = Some g /\ votingOpen g = true /\ ("v1" ∈ voters g) /\
    exists r,
      vote "v1" Chaotic 53000 tiedRound = (r, tiedRound) /\
      errorKind r = Some AlreadyVoted /\
      success r = false /\
      status r = 400.
Proof.
  eexists.
  split; [vm_compute; reflexivity|].
  split; [reflexivity|].
  split; [left|].
  eapply (vote_twice_rejected tiedRound _ "v1" Chaotic 53000);
    [vm_compute; reflexivity | reflexivity | left].
Defined.

(** C9 fails as stated: on an object that holds no session, [vote] answers
    with the voting-closed message, the very response of a session whose
    voting is closed, and not with a session-not-found error. *)
Lemma vote_without_session_says_voting_closed :
  gameState (newObject "do-1") = None /\
  game_session (sql (newObject "do-1")) = ∅ /\
  fst (vote "v1" Logical 5000 (newObject "do-1")) =
    {| status := 400; body := Failure "Voting is not currently open" |} /\
  errorKind (fst (vote "v1" Logical 5000 (newObject "do-1"))) = Some VotingClosed /\
  fst (vote "v1" Logical 5000 (newObject "do-1")) = fst (vote "v1" Logical 5000 demo).
Proof. vm_compute. repeat split. Qed.

(** C9, as amended. On an object with no session row and no state in memory,
    [startGame] fails with the session-not-found error (Session not
    initialized, status 400) and [vote] fails with the voting-closed error
    (Voting is not currently open, status 400); neither call creates a state,
    writes a row or emits anything. *)
Theorem uninitialized_failures (o : GameSession) (DECKS : KVNamespace) (deckId : string)
    (maxSlides : option Z) (userId : string) (choice : VoteChoice) (now : Z) :
  gameState o = None ->
  game_session (sql o) = ∅ ->
  (errorKind (fst (startGame DECKS deckId maxSlides now o)) = Some SessionNotFound /\
   status (fst (startGame DECKS deckId maxSlides now o)) = 400 /\
   gameState (snd (startGame DECKS deckId maxSlides now o)) = None /\
   game_session (sql (snd (startGame DECKS deckId maxSlides now o))) = ∅ /\
   trace (snd (startGame DECKS deckId maxSlides now o)) = trace o) /\
  (errorKind (fst (vote userId choice now o)) = Some VotingClosed /\
   status (fst (vote userId choice now o)) = 400 /\
   gameState (snd (vote userId choice now o)) = None /\
   game_session (sql (snd (vote userId choice now o))) = ∅ /\
   trace (snd (vote userId choice now o)) = trace o).
Proof.
  intros Hnone He.
  pose proof (loadGameState_empty o He Hnone) as Hl.
  pose proof (ensure_frame o) as (Ht & _ & _ & _ & Hs).
  assert (Hstart : startGame DECKS deckId maxSlides now o =
                   ({| status := 400; body := Failure "Session not initialized" |},
                    snd (ensureGameStateLoaded o))).
  { unfold startGame. unfold bind at 1.
    destruct (ensureGameStateLoaded o) as [[] o1]. simpl in Hl |- *.
    unfold bind, gets, ret. rewrite Hl. reflexivity. }
  assert (Hvote : vote userId choice now o =
                  ({| status := 400; body := Failure "Voting is not currently open" |},
                   snd (ensureGameStateLoaded o))).
  { unfold vote. unfold bind at 1.
    destruct (ensureGameStateLoaded o) as [[] o1]. simpl in Hl |- *.
    unfold bind, gets, ret. rewrite Hl. reflexivity. }
  rewrite Hstart, Hvote. cbn [fst snd]. rewrite Hl, Hs, He, Ht. repeat split.
Qed.

(** C9, instance: an object that was never initialized. *)
Lemma uninitialized_failures_witness :
  gameState (newObject "do-1") = None /\
  game_session (sql (newObject "do-1")) = ∅ /\
  (errorKind (fst (startGame noDecks "default" None 5000 (newObject "do-1")))
     = Some SessionNotFound /\
   status (fst (startGame noDecks "default" None 5000 (newObject "do-1"))) = 400 /\
   gameState (snd (startGame noDecks "default" None 5000 (newObject "do-1"))) = None /\
   game_session (sql (snd (startGame noDecks "default" None 5000 (newObject "do-1")))) = ∅ /\
   trace (snd (startGame noDecks "default" None 5000 (newObject "do-1")))
     = trace (newObject "do-1")) /\
  (errorKind (fst (vote "v1" Logical 5000 (newObject "do-1"))) = Some VotingClosed /\
   status (fst (vote "v1" Logical 5000 (newObject "do-1"))) = 400 /\
   gameState (snd (vote "v1" Logical 5000 (newObject "do-1"))) = None /\
   game_session (sql (snd (vote "v1" Logical 5000 (newObject "do-1")))) = ∅ /\
   trace (snd (vote "v1" Logical 5000 (newObject "do-1"))) = trace (newObject "do-1")).
Proof.
  split; [vm_compute; reflexivity|].
  split; [vm_compute; reflexivity|].
  apply (uninitialized_failures (newObject "do-1") noDecks "default" None "v1" Logical 5000);
    vm_compute; reflexivity.
Defined.



(** * Further properties of the code *)

(** ** Steps of the session *)

Lemma session_in_memory (o : GameSession) (g : GameState) :
  gameState o = Some g -> session o = Some g.
Proof.
  intros Hg. unfold session, ensureGameStateLoaded, bind, gets, ret. cbv beta iota.
  rewrite Hg. assumption.
Qed.

Lemma session_loaded (g : GameState) (o : GameSession) :
  holds g o ->
  exists gs o1,
    ensureGameStateLoaded o = (tt, o1) /\ gameState o1 = Some gs /\
    session o = Some gs /\ holds gs o1 /\ (gs = g \/ gs = reloaded g) /\
    trace o1 = trace o /\ alarmTime o1 = alarmTime o /\
    adjacency (sql o1) = adjacency (sql o) /\
    game_session (sql o1) = game_session (sql o).
Proof.
  intros H.
  destruct (ensure_loaded_holds g o H) as (g1 & o1 & E & Hg1 & H1 & Hrel & Ht & Ha & Hadj).
  exists g1, o1. split; [assumption|]. split; [assumption|].
  split; [unfold session; rewrite E; assumption|].
  split; [assumption|].
  split; [destruct Hrel as [-> | (t & ->)]; [left | right]; reflexivity|].
  pose proof (ensure_frame o) as (_ & _ & _ & _ & Hs). rewrite E in Hs.
  repeat split; assumption.
Qed.

Lemma session_recovered (o : GameSession) : session (recovered o) = session o.
Proof.
  unfold session, ensureGameStateLoaded, bind, gets. cbv beta iota.
  destruct (recovered_frame o) as (F1 & _). rewrite F1.
  destruct (gameState o) eqn:Hg.
  - unfold ret. simpl. congruence.
  - rewrite loadGameState_recovered. reflexivity.
Qed.

Lemma reloaded_idem (g : GameState) :
  NoDup (usedSlides g) -> reloaded (reloaded g) = reloaded g.
Proof.
  intros H. unfold reloaded. rewrite fromRecord_toRecord by assumption. reflexivity.
Qed.

Lemma ensure_in_memory (o : GameSession) (g : GameState) :
  gameState o = Some g -> ensureGameStateLoaded o = (tt, o).
Proof.
  intros Hg. unfold ensureGameStateLoaded, bind, gets, ret. cbv beta iota.
  rewrite Hg. reflexivity.
Qed.

Lemma bind_ensure {A} (k : unit -> M A) (o o1 : GameSession) :
  ensureGameStateLoaded o = (tt, o1) -> bind ensureGameStateLoaded k o = k tt o1.
Proof. intros E. unfold bind. rewrite E. reflexivity. Qed.

Lemma vote_on_loaded (o o1 : GameSession) (g1 : GameState) (userId : string)
    (choice : VoteChoice) (now : Z) :
  ensureGameStateLoaded o = (tt, o1) -> gameState o1 = Some g1 ->
  vote userId choice now o = vote userId choice now o1.
Proof.
  intros E Hg1. unfold vote.
  rewrite (bind_ensure _ o o1 E), (bind_ensure _ o1 o1 (ensure_in_memory o1 g1 Hg1)).
  reflexivity.
Qed.

Lemma startGame_on_loaded (o o1 : GameSession) (g1 : GameState) (DECKS : KVNamespace)
    (deckId : string) (maxSlides : option Z) (now : Z) :
  ensureGameStateLoaded o = (tt, o1) -> gameState o1 = Some g1 ->
  startGame DECKS deckId maxSlides now o = startGame DECKS deckId maxSlides now o1.
Proof.
  intros E Hg1. unfold startGame.
  rewrite (bind_ensure _ o o1 E), (bind_ensure _ o1 o1 (ensure_in_memory o1 g1 Hg1)).
  reflexivity.
Qed.

Lemma getStatus_on_loaded (o o1 : GameSession) (g1 : GameState) (now : Z) :
  ensureGameStateLoaded o = (tt, o1) -> gameState o1 = Some g1 ->
  getStatus now o = getStatus now o1.
Proof.
  intros E Hg1. unfold getStatus.
  rewrite (bind_ensure _ o o1 E), (bind_ensure _ o1 o1 (ensure_in_memory o1 g1 Hg1)).
  reflexivity.
Qed.

Lemma vote_step (g : GameState) (o : GameSession) (userId : string) (choice : VoteChoice)
    (now : Z) :
  holds g o ->
  exists gs g2,
    session o = Some gs /\ state_ok gs /\
    gameState (snd (vote userId choice now o)) = Some g2 /\
    holds g2 (snd (vote userId choice now o)) /\
    session_step now (Vote userId choice) gs g2 /\
    timer_step (alarmTime o) (alarmTime (snd (vote userId choice now o))) gs g2.
Proof.
  intros H.
  destruct (session_loaded g o H) as (g1 & o1 & E & Hg1 & Hs & H1 & _ & _ & Hal & _).
  exists g1. pose proof H1 as (_ & Hok & Hrow & _).
  pose proof Hok as (K1 & K2 & K3 & K4 & K5).
  rewrite (vote_on_loaded o o1 g1 _ _ _ E Hg1).
  run_methods. rewrite Hg1. simpl. rewrite Hg1.
  destruct (votingOpen g1) eqn:Hopen; simpl.
  2:{ exists g1. do 4 (split; [assumption|]).
      split; [constructor; left; assumption | right; left; split; [assumption | split; [reflexivity | split; [reflexivity | left; reflexivity]]]]. }
  destruct (JsSet.has (voters g1) userId) eqn:Hv; simpl.
  { exists g1. apply has_true in Hv. do 4 (split; [assumption|]).
    split; [constructor; right; assumption | right; left; split; [assumption | split; [reflexivity | split; [reflexivity | left; reflexivity]]]]. }
  rewrite Hg1. simpl. apply has_false in Hv.
  exists (votedState g1 userId choice).
  split; [assumption|]. split; [assumption|]. split; [reflexivity|].
  split; [|split; [constructor; assumption | right; left; split; [assumption | split; [reflexivity | split; [reflexivity | left; reflexivity]]]]].
  eapply holds_saved; [exact H1| reflexivity | reflexivity | reflexivity | | | reflexivity |].
  - reflexivity.
  - unfold state_ok, votedState; simpl.
    rewrite add_fresh by assumption.
    repeat split; try assumption.
    + apply NoDup_app. repeat split; [assumption| |apply NoDup_singleton].
      intros x Hx Hx'. apply list_elem_of_singleton in Hx'. subst. contradiction.
    + unfold JsSet.size in *. rewrite length_app. simpl.
      destruct choice; simpl; lia.
  - simpl. exact Hrow.
Qed.

Lemma getStatus_step (g : GameState) (o : GameSession) (now : Z) :
  holds g o ->
  exists gs,
    session o = Some gs /\ state_ok gs /\
    gameState (snd (getStatus now o)) = Some gs /\
    holds gs (snd (getStatus now o)) /\
    alarmTime (snd (getStatus now o)) = alarmTime o.
Proof.
  intros H.
  destruct (session_loaded g o H) as (g1 & o1 & E & Hg1 & Hs & H1 & _ & _ & Hal & _).
  exists g1. rewrite (getStatus_on_loaded o o1 g1 _ E Hg1).
  run_methods. repeat (rewrite Hg1; simpl).
  split; [assumption|]. split; [apply H1|]. split; [reflexivity |]. split; assumption.
Qed.

Lemma fetch_step (g : GameState) (o : GameSession) (upgrade : bool) (now : Z) :
  holds g o ->
  exists gs g2,
    session o = Some gs /\ state_ok gs /\
    session (snd (fetch upgrade now o)) = Some gs /\
    holds g2 (snd (fetch upgrade now o)) /\
    alarmTime (snd (fetch upgrade now o)) = alarmTime o.
Proof.
  intros H.
  destruct (session_loaded g o H) as (g1 & o1 & E & Hg1 & Hs & H1 & _ & _ & Hal & _).
  exists g1. unfold fetch. destruct upgrade.
  - exists g1. rewrite (bind_ensure _ o o1 E).
    run_methods. rewrite Hg1. simpl.
    split; [assumption|]. split; [apply H1|].
    split; [apply session_in_memory; assumption|].
    split; [|assumption].
    eapply holds_frame; [exact H1 | reflexivity ..].
  - exists g. simpl. split; [assumption|]. split; [apply H1|].
    split; [assumption|]. split; [assumption | reflexivity].
Qed.

Lemma webSocketMessage_step (g : GameState) (o : GameSession)
    (message : Json ClientMessage) (now : Z) :
  holds g o ->
  exists gs,
    session o = Some gs /\ state_ok gs /\
    gameState (snd (webSocketMessage message now o)) = Some gs /\
    holds gs (snd (webSocketMessage message now o)) /\
    alarmTime (snd (webSocketMessage message now o)) = alarmTime o.
Proof.
  intros H.
  destruct (session_loaded g o H) as (g1 & o1 & E & Hg1 & Hs & H1 & _ & _ & Hal & _).
  exists g1. unfold webSocketMessage. rewrite (bind_ensure _ o o1 E).
  split; [assumption|]. split; [apply H1|].
  destruct message as [m|[| |]]; run_methods;
    (split; [assumption |
             split; [eapply holds_frame; [exact H1 | reflexivity ..] | assumption]]).
Qed.

Lemma startGame_step (g : GameState) (o : GameSession) (DECKS : KVNamespace)
    (deckId : string) (maxSlides : option Z) (now : Z) :
  holds g o ->
  exists gs g2,
    session o = Some gs /\ state_ok gs /\
    gameState (snd (startGame DECKS deckId maxSlides now o)) = Some g2 /\
    holds g2 (snd (startGame DECKS deckId maxSlides now o)) /\
    session_step now (StartGame DECKS deckId maxSlides) gs g2 /\
    timer_step (alarmTime o) (alarmTime (snd (startGame DECKS deckId maxSlides now o)))
      gs g2.
Proof.
  intros H.
  destruct (session_loaded g o H) as (g1 & o1 & E & Hg1 & Hs & H1 & _ & _ & Hal & _).
  exists g1. rewrite (startGame_on_loaded o o1 g1 _ _ _ _ E Hg1).
  destruct (startGame DECKS deckId maxSlides now o1) as [r o'] eqn:Est.
  unfold startGame in Est.
  rewrite (bind_ensure _ o1 o1 (ensure_in_memory o1 g1 Hg1)) in Est.
  unfold bind at 1 in Est. unfold gets at 1 in Est. rewrite Hg1 in Est.
  unfold bind at 1 in Est.
  destruct ((if truthy (Some deckId) && negb (String.eqb deckId "default")
             then loadDeck DECKS deckId else ret None) o1) as [early o2] eqn:E2.
  assert (F : do_metadata (sql o2) = do_metadata (sql o1) /\
              game_session (sql o2) = game_session (sql o1) /\
              roomCode o2 = roomCode o1 /\ ctx_id o2 = ctx_id o1 /\
              gameState o2 = gameState o1 /\
              trace o2 = trace o1 /\ alarmTime o2 = alarmTime o1).
  { destruct (truthy (Some deckId) && negb (String.eqb deckId "default")).
    - pose proof (loadDeck_frame DECKS deckId o1) as F. simpl in F. rewrite E2 in F. exact F.
    - unfold ret in E2. inversion E2; subst. repeat split. }
  destruct F as (F1 & F2 & F3 & F4 & F5 & _ & F7).
  destruct early as [response|].
  - unfold ret in Est. inversion Est; subst r o'. clear Est.
    exists g1. simpl.
    split; [assumption|]. split; [apply H1|]. split; [congruence|].
    split; [|split; [constructor | right; left; split; [congruence | split; [reflexivity | split; [reflexivity | left; reflexivity]]]]].
    eapply holds_frame; [exact H1 | assumption ..].
  - rewrite Hg1 in F5. clear E E2. run_methods.
    repeat (rewrite F5 in Est; simpl in Est). inversion Est; subst r o'. clear Est.
    exists (startedState g1 (default 10 maxSlides) now). simpl.
    split; [assumption|]. split; [apply H1|]. split; [reflexivity|].
    split; [|split; [constructor | left; reflexivity]].
    eapply holds_saved; [exact H1 | simpl; assumption .. | reflexivity | | reflexivity | ].
    + apply H1.
    + simpl. exists now. apply lookup_insert_eq.
Qed.

Lemma alarm_dispatch_step (g1 : GameState) (o1 : GameSession) (now : Z) :
  holds g1 o1 -> gameState o1 = Some g1 ->
  exists g2,
    gameState (snd (alarm_dispatch now o1)) = Some g2 /\
    holds g2 (snd (alarm_dispatch now o1)) /\
    session_step now Alarm g1 g2 /\
    (alarmTime (snd (alarm_dispatch now o1)) = Some (timerEnd g2) \/
     (alarmTime (snd (alarm_dispatch now o1)) = alarmTime o1 /\
      (phase g2 = waiting \/ phase g2 = finished \/
       (phase g2 = voting /\ votingOpen g2 = false)))).
Proof.
  intros H1 Hg1. pose proof H1 as (_ & Hok & Hrow & _).
  pose proof Hok as (K1 & K2 & K3 & K4 & K5).
  destruct (phase g1) eqn:Hp.
  - assert (Hid : alarm_dispatch now o1 = (tt, o1)).
    { unfold alarm_dispatch, bind, gets. cbv beta iota. rewrite Hg1, Hp. reflexivity. }
    rewrite Hid. simpl.
    exists g1. split; [assumption|]. split; [exact H1|].
    split; [constructor; left; assumption|].
    right. split; [reflexivity | left; assumption].
  - destruct (alarm_dispatch now o1) as [[] o'] eqn:Est. simpl.
    unfold alarm_dispatch in Est. unfold bind at 1 in Est. unfold gets at 1 in Est.
    rewrite Hg1, Hp in Est.
    destruct (Z.geb_spec (slideCount g1) (maxSlides g1)) as [Hge | Hlt].
    + run_methods. repeat (rewrite Hg1 in Est; simpl in Est). inversion Est; subst o'.
      exists (finalState g1). split; [reflexivity|].
      split; [|split; [constructor; [assumption | lia] |
                       right; split; [reflexivity | right; left; reflexivity]]].
      eapply holds_saved; [exact H1 | reflexivity .. | exact Hok | reflexivity | ].
      exists now. apply lookup_insert_eq.
    + run_methods. repeat (rewrite Hg1 in Est; simpl in Est). inversion Est; subst o'.
      exists (votingState g1 now). split; [reflexivity|].
      split; [|split; [constructor; assumption | left; reflexivity]].
      eapply holds_saved; [exact H1 | reflexivity .. | | reflexivity | ].
      * unfold state_ok. simpl. repeat split; try assumption. constructor.
      * exists now. simpl. apply lookup_insert_eq.
  - rewrite (alarm_dispatch_voting o1 g1 now Hg1 Hp). cbn [snd].
    destruct (processVotesAndAdvance_cases o1 g1)
      as [Hn | [(r & Hn & Hc) | (x & Hn & Hx & Hc)]].
    + rewrite (processVotesAndAdvance_threw o1 g1 now Hg1 Hn). simpl.
      exists (set_votingOpen false g1). split; [reflexivity|].
      split; [eapply holds_closed; [exact H1 | reflexivity ..]|].
      split; [apply step_alarm_threw; assumption|].
      right. split; [reflexivity|]. right. right. split; [assumption | reflexivity].
    + destruct (processVotesAndAdvance_finish o1 g1 r now Hg1 Hn Hc)
        as (o2 & p & -> & Hg' & _ & _ & Hs & Hal & (I1 & I2 & I3 & _)).
      exists (finishedState g1). split; [assumption|].
      split; [|split; [apply step_alarm_finished; assumption |
                       right; split; [assumption | right; left; reflexivity]]].
      eapply holds_saved; [exact H1 | assumption .. | reflexivity | exact Hok | exact Hg' | ].
      exists now. simpl. rewrite Hs. apply lookup_insert_eq.
    + destruct (processVotesAndAdvance_advance o1 g1 x now Hg1 Hn Hx Hc)
        as (o2 & p & -> & Hg' & _ & _ & Hs & Hal & (I1 & I2 & I3 & _)).
      pose proof (getNextSlide_unused o1 g1 _ x Hg1 Hn) as Hu.
      exists (advancedState g1 x now). split; [assumption|].
      split; [|split; [apply step_alarm_advanced; assumption | left; assumption]].
      eapply holds_saved; [exact H1 | assumption .. | reflexivity | | exact Hg' | ].
      * apply state_ok_advance; assumption.
      * exists now. simpl. rewrite Hs. apply lookup_insert_eq.
  - assert (Hid : alarm_dispatch now o1 = (tt, o1)).
    { unfold alarm_dispatch, bind, gets. cbv beta iota. rewrite Hg1, Hp. reflexivity. }
    rewrite Hid. simpl.
    exists g1. split; [assumption|]. split; [exact H1|].
    split; [constructor; right; assumption|].
    right. split; [reflexivity | right; left; assumption].
Qed.

Lemma recovered_fired (o : GameSession) :
  recovered (with_alarmTime None o) = with_alarmTime None (recovered o).
Proof.
  unfold recovered, when, recoverRoomCodeFromStorage, bind, gets, modify, ret. simpl.
  destruct (negb (truthy (roomCode o))); simpl; [|reflexivity].
  destruct (do_metadata (sql o) !! "room_code"); reflexivity.
Qed.

Lemma session_fired (o : GameSession) :
  session (with_alarmTime None o) = session o.
Proof.
  unfold session, ensureGameStateLoaded, bind, gets. cbv beta iota.
  change (gameState (with_alarmTime None o)) with (gameState o).
  destruct (gameState o); [reflexivity|].
  unfold loadGameState, bind, gets. cbv beta iota.
  rewrite !when_recover, recovered_fired. cbn [fst snd].
  change (roomCode (with_alarmTime None (recovered o))) with (roomCode (recovered o)).
  change (ctx_id (with_alarmTime None (recovered o))) with (ctx_id (recovered o)).
  change (sql (with_alarmTime None (recovered o))) with (sql (recovered o)).
  destruct (game_session (sql (recovered o)) !! _) as [result|]; [|reflexivity].
  unfold when, storeRoomCode, modify, bind, ret.
  change (roomCode (with_alarmTime None (recovered o))) with (roomCode (recovered o)).
  destruct (negb (truthy (roomCode (recovered o))) && _); reflexivity.
Qed.

Lemma alarm_step (g : GameState) (o : GameSession) (now : Z) :
  holds g o ->
  exists gs g2,
    session o = Some gs /\ state_ok gs /\
    gameState (perform Alarm now o) = Some g2 /\
    holds g2 (perform Alarm now o) /\
    session_step now Alarm gs g2 /\
    timer_step (alarmTime o) (alarmTime (perform Alarm now o)) gs g2.
Proof.
  intros H. cbn [perform]. rewrite alarm_unfold.
  assert (Hf : holds g (with_alarmTime None o)).
  { eapply holds_frame; [exact H | reflexivity ..]. }
  destruct (session_loaded g _ (recovered_holds g _ Hf))
    as (g1 & o1 & E & Hg1 & Hs & H1 & _ & _ & Hal & _).
  rewrite session_recovered, session_fired in Hs.
  destruct (recovered_frame (with_alarmTime None o)) as (_ & _ & _ & Hal' & _).
  exists g1. rewrite E. simpl.
  destruct (alarm_dispatch_step g1 o1 now H1 Hg1) as (g2 & Hg2 & H2 & Hstep & Htimer).
  exists g2. split; [assumption|]. split; [apply H1|].
  split; [assumption|]. split; [assumption|]. split; [assumption|].
  destruct Htimer as [Ht | (Ht & Hph)].
  - left. exact Ht.
  - right. right. split; [|exact Hph]. rewrite Ht, Hal, Hal'. reflexivity.
Qed.

Lemma restart_step (g : GameState) (o : GameSession) :
  holds g o ->
  exists gs,
    session o = Some gs /\ state_ok gs /\
    session (restart o) = Some (reloaded gs) /\
    holds g (restart o) /\
    alarmTime (restart o) = alarmTime o.
Proof.
  intros H.
  destruct (session_loaded g o H) as (g1 & o1 & E & Hg1 & Hs & H1 & Hrel & _).
  pose proof (restart_holds g o H) as Hr.
  destruct (constructor_frame (ctx_id o) (sql o) (alarmTime o) (trace o))
    as (_ & _ & _ & Hnone & _ & _ & Hal).
  fold (restart o) in Hnone, Hal.
  exists g1. split; [assumption|]. split; [apply H1|].
  split; [|split; assumption].
  destruct (loadGameState_holds g (restart o) Hr Hnone) as (t & _ & Hload).
  unfold session, ensureGameStateLoaded, bind, gets. cbv beta iota.
  rewrite Hnone, Hload. simpl. f_equal.
  pose proof H as (_ & (_ & Hnd & _) & _).
  destruct Hrel as [-> | ->].
  - reflexivity.
  - rewrite reloaded_idem by assumption. reflexivity.
Qed.

(** Every operation of a game is a step of the session state. *)
Lemma perform_step (op : Operation) (now : Z) (g : GameState) (o : GameSession) :
  holds g o ->
  exists gs gs' g2,
    session o = Some gs /\ state_ok gs /\
    session (perform op now o) = Some gs' /\
    holds g2 (perform op now o) /\
    session_step now op gs gs' /\
    timer_step (alarmTime o) (alarmTime (perform op now o)) gs gs'.
Proof.
  intros H. destruct op as [DECKS deckId maxSlides | userId choice | | upgrade | message | |];
    simpl.
  - destruct (startGame_step g o DECKS deckId maxSlides now H)
      as (gs & g2 & A & B & C & D & F & T).
    exists gs, g2, g2. split; [exact A|]. split; [exact B|].
    split; [apply session_in_memory; exact C|]. split; [exact D|]. split; [exact F | exact T].
  - destruct (vote_step g o userId choice now H) as (gs & g2 & A & B & C & D & F & T).
    exists gs, g2, g2. split; [exact A|]. split; [exact B|].
    split; [apply session_in_memory; exact C|]. split; [exact D|]. split; [exact F | exact T].
  - destruct (getStatus_step g o now H) as (gs & A & B & C & D & T).
    exists gs, gs, gs. split; [exact A|]. split; [exact B|].
    split; [apply session_in_memory; exact C|]. split; [exact D|].
    split; [constructor | right; left; split; [exact T | split; [reflexivity | split; [reflexivity | left; reflexivity]]]].
  - destruct (fetch_step g o upgrade now H) as (gs & g2 & A & B & C & D & T).
    exists gs, gs, g2. split; [exact A|]. split; [exact B|].
    split; [exact C|]. split; [exact D|].
    split; [constructor | right; left; split; [exact T | split; [reflexivity | split; [reflexivity | left; reflexivity]]]].
  - destruct (webSocketMessage_step g o message now H) as (gs & A & B & C & D & T).
    exists gs, gs, gs. split; [exact A|]. split; [exact B|].
    split; [apply session_in_memory; exact C|]. split; [exact D|].
    split; [constructor | right; left; split; [exact T | split; [reflexivity | split; [reflexivity | left; reflexivity]]]].
  - destruct (alarm_step g o now H) as (gs & g2 & A & B & C & D & F & T).
    exists gs, g2, g2. split; [exact A|]. split; [exact B|].
    split; [apply session_in_memory; exact C|]. split; [exact D|]. split; [exact F | exact T].
  - destruct (restart_step g o H) as (gs & A & B & C & D & T).
    exists gs, (reloaded gs), g. split; [exact A|]. split; [exact B|].
    split; [exact C|]. split; [exact D|].
    split; [constructor | right; left; split; [exact T | split; [reflexivity | split; [reflexivity | right; reflexivity]]]].
Qed.

(** ** Games as runs of the state machine *)

Lemma initialize_frame (roomCode : option string) (now : Z) (o : GameSession) :
  alarmTime (snd (initialize roomCode now o)) = alarmTime o /\
  ctx_id (snd (initialize roomCode now o)) = ctx_id o /\
  adjacency (sql (snd (initialize roomCode now o))) = adjacency (sql o).
Proof.
  unfold initialize, storeRoomCode. run_methods.
  destruct (truthy roomCode); simpl; repeat split.
Qed.

Lemma newGame_session (id : string) (roomCode : option string) (now : Z) :
  session (newGame id roomCode now) = Some (initialState (js_or_string roomCode id)) /\
  alarmTime (newGame id roomCode now) = None.
Proof.
  split.
  - destruct (session_loaded _ _ (newGame_holds id roomCode now))
      as (gs & o1 & _ & _ & Hs & _ & [-> | ->] & _); exact Hs.
  - unfold newGame. destruct (initialize_frame roomCode now (newObject id)) as (-> & _).
    unfold newObject.
    destruct (constructor_frame id emptyStorage None []) as (_ & _ & _ & _ & _ & _ & Ha).
    exact Ha.
Qed.

Lemma run_cons (op : Operation) (now : Z) (ops : list (Operation * Z)) (o : GameSession) :
  run ((op, now) :: ops) o = run ops (perform op now o).
Proof. reflexivity. Qed.

Lemma run_snoc (ops : list (Operation * Z)) (op : Operation) (now : Z) (o : GameSession) :
  run (ops ++ [(op, now)])%list o = perform op now (run ops o).
Proof. unfold run. rewrite foldl_app. reflexivity. Qed.

(** A property of the session state and the pending alarm that every step
    keeps holds along every run. *)
Lemma run_invariant (P : option Z -> GameState -> Prop) :
  (forall now op a a' gs gs',
     state_ok gs -> session_step now op gs gs' -> timer_step a a' gs gs' ->
     P a gs -> P a' gs') ->
  forall ops g o gs,
    holds g o -> session o = Some gs -> P (alarmTime o) gs ->
    exists g' gs',
      holds g' (run ops o) /\ session (run ops o) = Some gs' /\ state_ok gs' /\
      P (alarmTime (run ops o)) gs'.
Proof.
  intros Hstep ops. induction ops as [|[op now] ops IH]; intros g o gs H Hs HP.
  - exists g, gs. simpl. split; [exact H|]. split; [exact Hs|]. split; [|exact HP].
    destruct (session_loaded g o H) as (g1 & o1 & _ & _ & Hs1 & H1 & _).
    rewrite Hs in Hs1. inversion Hs1; subst. apply H1.
  - rewrite run_cons.
    destruct (perform_step op now g o H) as (g1 & g1' & g2 & A & B & C & D & F & T).
    rewrite Hs in A. inversion A; subst g1.
    apply (IH g2 (perform op now o) g1' D C).
    exact (Hstep now op _ _ gs g1' B F T HP).
Qed.

Lemma game_invariant (P : option Z -> GameState -> Prop) (id : string)
    (roomCode : option string) (now0 : Z) (ops : list (Operation * Z)) :
  P None (initialState (js_or_string roomCode id)) ->
  (forall now op a a' gs gs',
     state_ok gs -> session_step now op gs gs' -> timer_step a a' gs gs' ->
     P a gs -> P a' gs') ->
  exists g gs,
    holds g (run ops (newGame id roomCode now0)) /\
    session (run ops (newGame id roomCode now0)) = Some gs /\ state_ok gs /\
    P (alarmTime (run ops (newGame id roomCode now0))) gs.
Proof.
  intros H0 Hstep.
  destruct (newGame_session id roomCode now0) as (Hs & Ha).
  apply (run_invariant P Hstep ops _ _ _ (newGame_holds id roomCode now0) Hs).
  rewrite Ha. exact H0.
Qed.

Lemma game_step (id : string) (roomCode : option string) (now0 : Z)
    (ops : list (Operation * Z)) (op : Operation) (now : Z) :
  exists gs gs',
    session (run ops (newGame id roomCode now0)) = Some gs /\ state_ok gs /\
    session (perform op now (run ops (newGame id roomCode now0))) = Some gs' /\
    session_step now op gs gs'.
Proof.
  destruct (run_holds ops _ _ (newGame_holds id roomCode now0)) as (g & H).
  destruct (perform_step op now g _ H) as (gs & gs' & g2 & A & B & C & D & F & T).
  exists gs, gs'. split; [exact A|]. split; [exact B|]. split; [exact C | exact F].
Qed.

Lemma of_list_to_list (g : GameState) :
  NoDup (usedSlides g) -> usedSlides (reloaded g) = usedSlides g.
Proof. intros H. simpl. apply of_list_NoDup. exact H. Qed.


(** X1. A session is never lost and never renamed. After [initialize] on a
    fresh object, whatever operations follow (calls, timer fires, evictions),
    an operation finds a session, and its [sessionId] is the room code given
    to [initialize], or the id of the object when the room code is absent or
    empty. *)
Theorem session_id_fixed (id : string) (roomCode : option string) (now0 : Z)
    (ops : list (Operation * Z)) :
  exists gs,
    session (run ops (newGame id roomCode now0)) = Some gs /\
    sessionId gs = js_or_string roomCode id.
Proof.
  destruct (game_invariant (fun _ gs => sessionId gs = js_or_string roomCode id)
              id roomCode now0 ops) as (g & gs & _ & Hs & _ & HP).
  - reflexivity.
  - intros now op a a' gs gs' _ Hstep _ HP. inversion Hstep; subst; simpl; exact HP.
  - exists gs. split; assumption.
Qed.

(** X2. Slides are shown once. In a game, an operation either leaves the
    current slide, the used slides and the slide count as they are, or it is
    a timer fire in phase voting that moves to phase presenting on a slide
    that was not used before, appends it to the used slides and adds one to
    the slide count; the code's test [slideCount >= maxSlides] had failed
    on the count before the fire. *)
Theorem slide_shown_once (id : string) (roomCode : option string) (now0 : Z)
    (ops : list (Operation * Z)) (op : Operation) (now : Z) :
  exists gs gs',
    session (run ops (newGame id roomCode now0)) = Some gs /\
    session (perform op now (run ops (newGame id roomCode now0))) = Some gs' /\
    NoDup (usedSlides gs) /\
    ((currentSlide gs' = currentSlide gs /\ usedSlides gs' = usedSlides gs /\
      slideCount gs' = slideCount gs) \/
     (op = Alarm /\ phase gs = voting /\ phase gs' = presenting /\
      (currentSlide gs' ∉ usedSlides gs) /\
      usedSlides gs' = (usedSlides gs ++ [currentSlide gs'])%list /\
      slideCount gs' = slideCount gs + 1 /\
      (slideCount gs >=? maxSlides gs) = false)).
Proof.
  destruct (game_step id roomCode now0 ops op now) as (gs & gs' & A & B & C & F).
  exists gs, gs'. split; [exact A|]. split; [exact C|].
  pose proof B as (K1 & K2 & K3 & K4 & K5). split; [exact K2|].
  inversion F; subst; try (left; repeat split; reflexivity).
  - right. simpl. split; [reflexivity|]. split; [assumption|]. split; [reflexivity|].
    split; [assumption|]. split; [apply add_fresh; assumption|].
    split; [reflexivity | rewrite Z.geb_leb; apply Z.leb_gt; assumption].
  - left. split; [reflexivity|]. split; [apply of_list_to_list; exact K2 | reflexivity].
Qed.

(** X3. The phases of a game. An operation keeps the phase, or it is a
    successful [startGame], which leads to presenting from any phase, or a
    timer fire: from presenting to finished when the slide count has reached
    [maxSlides] and to voting otherwise, from voting to presenting or to
    finished. No operation leads back to waiting, and only [startGame] leaves
    finished. *)
Theorem phase_transitions (id : string) (roomCode : option string) (now0 : Z)
    (ops : list (Operation * Z)) (op : Operation) (now : Z) :
  exists gs gs',
    session (run ops (newGame id roomCode now0)) = Some gs /\
    session (perform op now (run ops (newGame id roomCode now0))) = Some gs' /\
    (phase gs' = phase gs \/
     (exists DECKS deckId maxSlides,
        op = StartGame DECKS deckId maxSlides /\ phase gs' = presenting) \/
     (op = Alarm /\ phase gs = presenting /\
      phase gs' = if slideCount gs >=? maxSlides gs then finished else voting) \/
     (op = Alarm /\ phase gs = voting /\
      (phase gs' = presenting \/ phase gs' = finished))).
Proof.
  destruct (game_step id roomCode now0 ops op now) as (gs & gs' & A & B & C & F).
  exists gs, gs'. split; [exact A|]. split; [exact C|].
  inversion F; subst; try (left; reflexivity).
  - right. left. do 3 eexists. split; reflexivity.
  - right. right. left. split; [reflexivity|]. split; [assumption|]. simpl.
    destruct (Z.geb_spec (slideCount gs) (maxSlides gs)); [reflexivity | lia].
  - right. right. left. split; [reflexivity|]. split; [assumption|]. simpl.
    destruct (Z.geb_spec (slideCount gs) (maxSlides gs)); [lia | reflexivity].
  - right. right. right. split; [reflexivity|]. split; [assumption|]. right. reflexivity.
  - right. right. right. split; [reflexivity|]. split; [assumption|]. left. reflexivity.
Qed.

(** X4. [maxSlides] is 10 until a [startGame] succeeds, and only a successful
    [startGame] changes it, to its argument or to 10 when the argument is
    absent. *)
Theorem maxSlides_set_by_startGame (id : string) (roomCode : option string) (now0 : Z)
    (ops : list (Operation * Z)) (op : Operation) (now : Z) :
  maxSlides <$> session (newGame id roomCode now0) = Some 10 /\
  exists gs gs',
    session (run ops (newGame id roomCode now0)) = Some gs /\
    session (perform op now (run ops (newGame id roomCode now0))) = Some gs' /\
    (maxSlides gs' = maxSlides gs \/
     exists DECKS deckId n,
       op = StartGame DECKS deckId n /\ phase gs' = presenting /\
       maxSlides gs' = default 10 n).
Proof.
  split.
  - destruct (newGame_session id roomCode now0) as (-> & _). reflexivity.
  - destruct (game_step id roomCode now0 ops op now) as (gs & gs' & A & B & C & F).
    exists gs, gs'. split; [exact A|]. split; [exact C|].
    inversion F; subst; try (left; reflexivity).
    right. do 3 eexists. split; [reflexivity|]. split; reflexivity.
Qed.

(** X5. A slide that is presented and a round that is open have their
    timer. In a game, while the phase is presenting, and while the phase is
    voting and the voting is open, an alarm is pending at the deadline
    [timerEnd] of the session. (In phase voting with the voting closed, as
    after a timer fire that found no adjacency row for the current slide, none
    need be pending.) *)
Theorem presenting_or_open_round_has_alarm (id : string) (roomCode : option string)
    (now0 : Z) (ops : list (Operation * Z)) :
  exists gs,
    session (run ops (newGame id roomCode now0)) = Some gs /\
    (phase gs = presenting ->
     alarmTime (run ops (newGame id roomCode now0)) = Some (timerEnd gs)) /\
    (phase gs = voting -> votingOpen gs = true ->
     alarmTime (run ops (newGame id roomCode now0)) = Some (timerEnd gs)).
Proof.
  destruct (game_invariant
              (fun a gs =>
                 (phase gs = presenting -> a = Some (timerEnd gs)) /\
                 (phase gs = voting -> votingOpen gs = true -> a = Some (timerEnd gs)))
              id roomCode now0 ops) as (g & gs & _ & Hs & _ & HP).
  - simpl. split; intros H; discriminate H.
  - intros now op a a' gs gs' _ _ Ht (HP1 & HP2).
    destruct Ht as [-> | [(-> & -> & -> & Hvo) | (-> & Hph)]].
    + split; intros; reflexivity.
    + split; [exact HP1|]. intros Hp Ho. apply (HP2 Hp).
      destruct Hvo as [<- | Hvo]; [exact Ho | congruence].
    + split.
      * intros Hp. destruct Hph as [H | [H | (H & _)]]; congruence.
      * intros Hp Ho. destruct Hph as [H | [H | (_ & H)]]; congruence.
  - exists gs. split; [exact Hs | exact HP].
Qed.

(** X6. An eviction loses the round and nothing else. At any point of a
    game, the session the re-created object reads back has the [sessionId],
    current slide, used slides, phase, slide count, [maxSlides] and deadline
    of the session before the eviction; its votes are 0-0, it has no voters
    and its voting is closed. The eviction emits nothing and leaves the
    pending alarm. *)
Theorem eviction_keeps_progress (id : string) (roomCode : option string) (now0 : Z)
    (ops : list (Operation * Z)) :
  let o := run ops (newGame id roomCode now0) in
  exists gs gs',
    session o = Some gs /\
    session (restart o) = Some gs' /\
    (sessionId gs' = sessionId gs /\ currentSlide gs' = currentSlide gs /\
     usedSlides gs' = usedSlides gs /\ phase gs' = phase gs /\
     slideCount gs' = slideCount gs /\ maxSlides gs' = maxSlides gs /\
     timerEnd gs' = timerEnd gs) /\
    (votes gs' = {| logical := 0; chaotic := 0 |} /\ voters gs' = [] /\
     votingOpen gs' = false) /\
    trace (restart o) = trace o /\ alarmTime (restart o) = alarmTime o.
Proof.
  intros o.
  destruct (run_holds ops _ _ (newGame_holds id roomCode now0)) as (g & H).
  fold o in H.
  destruct (restart_step g o H) as (gs & A & B & C & D & T).
  exists gs, (reloaded gs). split; [exact A|]. split; [exact C|].
  pose proof B as (K1 & K2 & _).
  split; [|split; [|split]].
  - split; [reflexivity|]. split; [reflexivity|].
    split; [apply of_list_to_list; exact K2|]. repeat split.
  - repeat split.
  - unfold restart.
    destruct (constructor_frame (ctx_id o) (sql o) (alarmTime o) (trace o))
      as (_ & _ & _ & _ & _ & Ht & _). exact Ht.
  - exact T.
Qed.

(** X7. The tally of every state of a game. Whatever the interleaving of
    votes, game starts, timer fires and evictions, no voter is recorded
    twice, both tallies are non-negative and their sum is the number of
    recorded voters. *)
Theorem tally_invariant (id : string) (roomCode : option string) (now0 : Z)
    (ops : list (Operation * Z)) :
  exists gs,
    session (run ops (newGame id roomCode now0)) = Some gs /\
    NoDup (voters gs) /\
    0 <= logical (votes gs) /\ 0 <= chaotic (votes gs) /\
    JsSet.size (voters gs) = logical (votes gs) + chaotic (votes gs).
Proof.
  destruct (game_invariant
              (fun _ gs => 0 <= logical (votes gs) /\ 0 <= chaotic (votes gs))
              id roomCode now0 ops) as (g & gs & _ & Hs & Hok & HP).
  - simpl. lia.
  - intros now op a a' gs gs' _ Hstep _ HP.
    inversion Hstep; subst; simpl; try exact HP; try lia.
    destruct choice; simpl; lia.
  - exists gs. destruct Hok as (_ & _ & _ & K4 & K5).
    split; [exact Hs|]. split; [exact K4|]. split; [apply HP|]. split; [apply HP | exact K5].
Qed.

(** ** Calls on a session *)

Lemma session_some (o : GameSession) (g : GameState) :
  session o = Some g ->
  exists o1, ensureGameStateLoaded o = (tt, o1) /\ gameState o1 = Some g /\ same_durable o o1.
Proof.
  intros Hs. unfold session in Hs. pose proof (ensure_frame o) as F.
  destruct (ensureGameStateLoaded o) as [[] o1]. exists o1.
  split; [reflexivity|]. split; assumption.
Qed.

Lemma session_none (o : GameSession) :
  session o = None ->
  exists o1, ensureGameStateLoaded o = (tt, o1) /\ gameState o1 = None /\ same_durable o o1.
Proof.
  intros Hs. unfold session in Hs. pose proof (ensure_frame o) as F.
  destruct (ensureGameStateLoaded o) as [[] o1]. exists o1.
  split; [reflexivity|]. split; assumption.
Qed.

Lemma loadDeck_failure (DECKS : KVNamespace) (deckId : string) (o : GameSession)
    (r : Response) :
  fst (loadDeck DECKS deckId o) = Some r ->
  success r = false /\ (status r = 404 \/ status r = 400 \/ status r = 500).
Proof.
  unfold loadDeck.
  destruct (kv_get DECKS (get_metadata DECKS) _) as [|[[e | metadata]|]]; simpl.
  - intros H; inversion H; subst. split; [reflexivity | right; right; reflexivity].
  - intros H; inversion H; subst. split; [reflexivity | right; right; reflexivity].
  - destruct (negb (String.eqb (deck_status metadata) "ready")); simpl.
    + intros H; inversion H; subst. split; [reflexivity | right; left; reflexivity].
    + destruct (kv_get DECKS (get_adjacency DECKS) _) as [|[[e | adjacencyData]|]]; simpl.
      * intros H; inversion H; subst. split; [reflexivity | right; right; reflexivity].
      * intros H; inversion H; subst. split; [reflexivity | right; right; reflexivity].
      * destruct (insert_all _ ∅); simpl.
        -- discriminate.
        -- intros H; inversion H; subst. split; [reflexivity | right; right; reflexivity].
      * intros H; inversion H; subst. split; [reflexivity | left; reflexivity].
  - intros H; inversion H; subst. split; [reflexivity | left; reflexivity].
Qed.

Lemma insert_all_lookup (rows : list AdjacencyRecord) (t t' : gmap string AdjacencyRecord) :
  insert_all rows t = inl t' ->
  forall k r, t' !! k = Some r <-> (t !! k = Some r \/ (r ∈ rows /\ slide_id r = k)).
Proof.
  revert t. induction rows as [|row rows IH]; intros t; simpl.
  - intros H; inversion H; subst. intros k r. split; [intros; left; assumption|].
    intros [H1 | (H1 & _)]; [assumption | inversion H1].
  - unfold insert_adjacency. destruct (t !! slide_id row) eqn:Hrow; [discriminate|].
    intros H k r. rewrite (IH _ H k r). split.
    + intros [H1 | (H1 & H2)].
      * destruct (decide (slide_id row = k)) as [<- | Hne].
        -- rewrite lookup_insert_eq in H1. inversion H1; subst.
           right. split; [left | reflexivity].
        -- rewrite lookup_insert_ne in H1 by assumption. left. assumption.
      * right. split; [right; assumption | assumption].
    + intros [H1 | (H1 & H2)].
      * left. rewrite lookup_insert_ne; [assumption|]. intros <-. congruence.
      * apply elem_of_cons in H1 as [-> | H1].
        -- left. rewrite <- H2. apply lookup_insert_eq.
        -- right. split; assumption.
Qed.

Lemma deckRows_lookup (adjacencyData : list (string * Neighbors))
    (t : gmap string AdjacencyRecord) :
  insert_all (deckRows adjacencyData) ∅ = inl t ->
  forall slideId row,
    t !! slideId = Some row <->
    exists neighbors,
      (slideId, neighbors) ∈ adjacencyData /\
      row = {| slide_id := slideId;
               logical_slides := neighbors_logical neighbors;
               chaotic_slides := neighbors_chaotic neighbors |}.
Proof.
  intros Ht slideId row. rewrite (insert_all_lookup _ _ _ Ht slideId row).
  rewrite lookup_empty. unfold deckRows. rewrite list_elem_of_fmap. split.
  - intros [H | (([s n] & Hrow & Hin) & Hid)]; [discriminate|].
    subst row. simpl in Hid. subst s. exists n. split; [assumption | reflexivity].
  - intros (n & Hin & ->). right. split; [|reflexivity].
    exists (slideId, n). split; [reflexivity | assumption].
Qed.

Lemma startGame_ready_table (o : GameSession) (g : GameState) (DECKS : KVNamespace)
    (deckId : string) (metadata : DeckMetadata) (adjacencyData : list (string * Neighbors))
    (maxSlides : option Z) (now : Z) :
  session o = Some g ->
  deckId <> "" -> deckId <> "default" ->
  get_metadata DECKS ("deck:" +:+ deckId +:+ ":metadata") = Some (Parsed metadata) ->
  deck_status metadata = "ready" ->
  get_adjacency DECKS ("deck:" +:+ deckId +:+ ":adjacency") = Some (Parsed adjacencyData) ->
  NoDup (map fst adjacencyData) ->
  exists t,
    insert_all (deckRows adjacencyData) ∅ = inl t /\
    success (fst (startGame DECKS deckId maxSlides now o)) = true /\
    adjacency (sql (snd (startGame DECKS deckId maxSlides now o))) = t.
Proof.
  intros Hs Hne Hnd Hmeta Hready Hadj Hkeys.
  destruct (session_some o g Hs) as (o1 & E & Hg1 & _).
  rewrite (startGame_on_loaded o o1 g _ _ _ _ E Hg1).
  destruct (insert_all_fresh (deckRows adjacencyData) ∅) as (t & Ht).
  { rewrite deckRows_ids. exact Hkeys. }
  { intros row _. apply lookup_empty. }
  exists t. split; [exact Ht|].
  assert (Hload : loadDeck DECKS deckId o1 = (None, with_sql (with_adjacency t (sql o1)) o1)).
  { unfold loadDeck.
    rewrite (kv_get_metadata _ _ _ Hmeta), Hready, (kv_get_adjacency _ _ _ Hadj). simpl.
    fold (deckRows adjacencyData). rewrite Ht. reflexivity. }
  destruct (startGame DECKS deckId maxSlides now o1) as [r o'] eqn:Est.
  unfold startGame in Est.
  rewrite (bind_ensure _ o1 o1 (ensure_in_memory o1 g Hg1)) in Est.
  unfold bind at 1 in Est. unfold gets at 1 in Est. rewrite Hg1 in Est.
  rewrite (truthy_nonempty deckId Hne) in Est.
  destruct (String.eqb_spec deckId "default") as [|_]; [contradiction|].
  cbn [andb negb] in Est. unfold bind at 1 in Est. rewrite Hload in Est.
  clear E Hload. run_methods. repeat (rewrite Hg1 in Est; simpl in Est).
  inversion Est; subst r o'. clear Est. simpl.
  split; reflexivity.
Qed.


(** X8. An accepted vote. With the round open and the voter not yet
    recorded, [vote] answers with the new tallies, adds one to the tally of
    the choice, records the voter after the others, and broadcasts one vote
    update; it does not write the session row and leaves the alarm. *)
Theorem vote_accepted (o : GameSession) (g : GameState) (userId : string)
    (choice : VoteChoice) (now : Z) :
  session o = Some g ->
  votingOpen g = true ->
  userId ∉ voters g ->
  exists o' g',
    vote userId choice now o = (ok (Voted (incr_votes choice (votes g))), o') /\
    gameState o' = Some g' /\
    votes g' = incr_votes choice (votes g) /\
    voters g' = (voters g ++ [userId])%list /\
    g' = votedState g userId choice /\
    trace o' =
      (trace o ++
       [Broadcast {| msg_data := voteUpdate_msg (Some (incr_votes choice (votes g)));
                     timestamp := now |}])%list /\
    game_session (sql o') = game_session (sql o) /\
    alarmTime o' = alarmTime o.
Proof.
  intros Hs Hopen Hv.
  destruct (session_some o g Hs) as (o1 & E & Hg1 & (Ft & Fa & _ & _ & Fs)).
  rewrite (vote_on_loaded o o1 g _ _ _ E Hg1).
  apply has_false in Hv.
  run_methods. repeat (rewrite Hg1; simpl). rewrite Hopen. simpl. rewrite Hv. simpl.
  repeat (rewrite Hg1; simpl).
  eexists. exists (votedState g userId choice).
  split; [reflexivity|]. simpl.
  split; [reflexivity|]. split; [reflexivity|].
  split; [apply add_fresh, has_false; assumption|].
  split; [reflexivity|].
  split; [rewrite Ft; reflexivity|]. split; assumption.
Qed.

Lemma vote_accepted_witness :
  exists g,
    session (quietGame 1) = Some g /\ votingOpen g = true /\
    exists o' g',
      vote "v1" Logical 51000 (quietGame 1)
        = (ok (Voted (incr_votes Logical (votes g))), o') /\
      gameState o' = Some g' /\
      votes g' = incr_votes Logical (votes g) /\
      voters g' = (voters g ++ ["v1"])%list /\
      g' = votedState g "v1" Logical /\
      trace o' =
        (trace (quietGame 1) ++
         [Broadcast {| msg_data := voteUpdate_msg (Some (incr_votes Logical (votes g)));
                       timestamp := 51000 |}])%list /\
      game_session (sql o') = game_session (sql (quietGame 1)) /\
      alarmTime o' = alarmTime (quietGame 1).
Proof.
  eexists. split; [vm_compute; reflexivity|]. split; [reflexivity|].
  eapply (vote_accepted (quietGame 1) _ "v1" Logical 51000);
    [vm_compute; reflexivity | reflexivity | apply (bool_decide_unpack _); vm_compute; exact I].
Defined.

(** X9. Votes after an eviction. At any point of a game, also in the middle
    of a voting round, once the object was evicted and re-created every
    [vote] is refused with the voting-closed error and changes nothing; the
    round stays closed until the timer opens the next one. *)
Theorem vote_refused_after_eviction (id : string) (roomCode : option string) (now0 : Z)
    (ops : list (Operation * Z)) (userId : string) (choice : VoteChoice) (now : Z) :
  let o := restart (run ops (newGame id roomCode now0)) in
  fst (vote userId choice now o)
    = {| status := 400; body := Failure "Voting is not currently open" |} /\
  errorKind (fst (vote userId choice now o)) = Some VotingClosed /\
  trace (snd (vote userId choice now o)) = trace o /\
  session (snd (vote userId choice now o)) = session o.
Proof.
  intros o.
  destruct (run_holds ops _ _ (newGame_holds id roomCode now0)) as (g & H).
  destruct (restart_step g _ H) as (gs & _ & _ & Hs & _).
  fold o in Hs.
  destruct (session_some o _ Hs) as (o1 & E & Hg1 & (Ft & _)).
  rewrite (vote_on_loaded o o1 _ _ _ _ E Hg1), Hs.
  run_methods. repeat (rewrite Hg1; simpl).
  split; [reflexivity|]. split; [reflexivity|]. split; [assumption|].
  apply session_in_memory. assumption.
Qed.

(** X10. [getStatus] only reads. It emits nothing, writes no row and leaves
    the alarm; with a session it reports the fields of the session and the
    time left to the deadline, never negative; without one it answers 404
    with the session-not-found error. *)
Theorem getStatus_read_only (o : GameSession) (now : Z) :
  same_durable o (snd (getStatus now o)) /\
  gameState (snd (getStatus now o)) = session o /\
  match session o with
  | Some g =>
      exists r,
        fst (getStatus now o) = ok (Status r) /\
        st_sessionId r = sessionId g /\ st_currentSlide r = currentSlide g /\
        st_phase r = phase g /\ st_votes r = votes g /\
        st_slideCount r = slideCount g /\ st_votingOpen r = votingOpen g /\
        st_timeRemaining r = Z.max 0 (timerEnd g - now) /\ 0 <= st_timeRemaining r
  | None =>
      status (fst (getStatus now o)) = 404 /\
      errorKind (fst (getStatus now o)) = Some SessionNotFound
  end.
Proof.
  destruct (session o) as [g|] eqn:Hs.
  - destruct (session_some o g Hs) as (o1 & E & Hg1 & F).
    rewrite (getStatus_on_loaded o o1 g now E Hg1).
    run_methods. repeat (rewrite Hg1; simpl).
    split; [exact F|]. split; [reflexivity|].
    eexists. split; [reflexivity|]. simpl. repeat split. lia.
  - destruct (session_none o Hs) as (o1 & E & Hg1 & F).
    unfold getStatus. rewrite (bind_ensure _ o o1 E).
    run_methods. repeat (rewrite Hg1; simpl).
    split; [exact F|]. split; [reflexivity|]. split; reflexivity.
Qed.

(** X11. A refused [startGame] leaves the game as it is. On a session,
    whenever the response is not a success, its status is 404, 400 or 500,
    the session state is the one before the call, nothing is emitted, the
    alarm and the session row are untouched. *)
Theorem startGame_refused_changes_nothing (o : GameSession) (g : GameState)
    (DECKS : KVNamespace) (deckId : string) (maxSlides : option Z) (now : Z) :
  session o = Some g ->
  success (fst (startGame DECKS deckId maxSlides now o)) = false ->
  (status (fst (startGame DECKS deckId maxSlides now o)) = 404 \/
   status (fst (startGame DECKS deckId maxSlides now o)) = 400 \/
   status (fst (startGame DECKS deckId maxSlides now o)) = 500) /\
  gameState (snd (startGame DECKS deckId maxSlides now o)) = Some g /\
  trace (snd (startGame DECKS deckId maxSlides now o)) = trace o /\
  alarmTime (snd (startGame DECKS deckId maxSlides now o)) = alarmTime o /\
  game_session (sql (snd (startGame DECKS deckId maxSlides now o))) = game_session (sql o).
Proof.
  intros Hs.
  destruct (session_some o g Hs) as (o1 & E & Hg1 & (Ft & Fa & _ & _ & Fs)).
  rewrite (startGame_on_loaded o o1 g _ _ _ _ E Hg1).
  destruct (startGame DECKS deckId maxSlides now o1) as [r o'] eqn:Est.
  unfold startGame in Est.
  rewrite (bind_ensure _ o1 o1 (ensure_in_memory o1 g Hg1)) in Est.
  unfold bind at 1 in Est. unfold gets at 1 in Est. rewrite Hg1 in Est.
  unfold bind at 1 in Est.
  destruct ((if truthy (Some deckId) && negb (String.eqb deckId "default")
             then loadDeck DECKS deckId else ret None) o1) as [early o2] eqn:E2.
  destruct early as [response|].
  - unfold ret in Est. inversion Est; subst r o'. clear Est. simpl. intros _.
    destruct (truthy (Some deckId) && negb (String.eqb deckId "default")).
    + pose proof (loadDeck_frame DECKS deckId o1) as F. simpl in F. rewrite E2 in F.
      destruct F as (_ & F2 & _ & _ & F5 & F6 & F7). simpl in *.
      pose proof (loadDeck_failure DECKS deckId o1 response) as L. rewrite E2 in L.
      destruct (L eq_refl) as (_ & Hst).
      split; [exact Hst|]. split; [congruence|]. split; [congruence|].
      split; congruence.
    + unfold ret in E2. inversion E2.
  - assert (F5 : gameState o2 = Some g).
    { destruct (truthy (Some deckId) && negb (String.eqb deckId "default")).
      - pose proof (loadDeck_frame DECKS deckId o1) as F. simpl in F. rewrite E2 in F.
        destruct F as (_ & _ & _ & _ & F5 & _). simpl in F5. congruence.
      - unfold ret in E2. inversion E2; subst. assumption. }
    clear E E2. run_methods.
    repeat (rewrite F5 in Est; simpl in Est). inversion Est; subst r o'.
    simpl. discriminate.
Qed.

Lemma startGame_refused_changes_nothing_witness :
  exists g,
    session (quietGame 3) = Some g /\ phase g = voting /\
    (status (fst (startGame sampleDecks "draft" None 99000 (quietGame 3))) = 404 \/
     status (fst (startGame sampleDecks "draft" None 99000 (quietGame 3))) = 400 \/
     status (fst (startGame sampleDecks "draft" None 99000 (quietGame 3))) = 500) /\
    gameState (snd (startGame sampleDecks "draft" None 99000 (quietGame 3))) = Some g /\
    trace (snd (startGame sampleDecks "draft" None 99000 (quietGame 3)))
      = trace (quietGame 3) /\
    alarmTime (snd (startGame sampleDecks "draft" None 99000 (quietGame 3)))
      = alarmTime (quietGame 3) /\
    game_session (sql (snd (startGame sampleDecks "draft" None 99000 (quietGame 3))))
      = game_session (sql (quietGame 3)).
Proof.
  eexists. split; [vm_compute; reflexivity|]. split; [reflexivity|].
  eapply (startGame_refused_changes_nothing (quietGame 3) _ sampleDecks "draft" None 99000);
    vm_compute; reflexivity.
Defined.

(** X12. A deck that does not exist. On a session, [startGame] with a deck
    id other than the empty string and default, for which the namespace has
    no metadata, answers 404 with the deck-not-found error, which names the
    deck, when the key of the metadata is within the 512 bytes that a key
    may have; for a longer key the lookup throws, and the answer is 500 with
    the message of the exception after the words Failed to load deck. *)
Theorem startGame_deck_not_found (o : GameSession) (g : GameState) (DECKS : KVNamespace)
    (deckId : string) (maxSlides : option Z) (now : Z) :
  session o = Some g ->
  deckId <> "" -> deckId <> "default" ->
  get_metadata DECKS ("deck:" +:+ deckId +:+ ":metadata") = None ->
  if (512 <? String.length ("deck:" +:+ deckId +:+ ":metadata"))%nat then
    fst (startGame DECKS deckId maxSlides now o)
      = {| status := 500;
           body := Failure ("Failed to load deck: "
                            +:+ get_error DECKS ("deck:" +:+ deckId +:+ ":metadata")) |}
  else
    fst (startGame DECKS deckId maxSlides now o)
      = {| status := 404; body := Failure ("Deck not found: " +:+ deckId) |} /\
    errorKind (fst (startGame DECKS deckId maxSlides now o)) = Some DeckNotFound.
Proof.
  intros Hs Hne Hnd Hmeta.
  destruct (session_some o g Hs) as (o1 & E & Hg1 & _).
  rewrite (startGame_on_loaded o o1 g _ _ _ _ E Hg1).
  unfold startGame.
  rewrite (bind_ensure _ o1 o1 (ensure_in_memory o1 g Hg1)).
  unfold bind at 1. unfold gets at 1. rewrite Hg1.
  rewrite (truthy_nonempty deckId Hne).
  destruct (String.eqb_spec deckId "default") as [|_]; [contradiction|].
  cbn [andb negb]. unfold loadDeck, kv_get. rewrite Hmeta.
  destruct (512 <? String.length ("deck:" +:+ deckId +:+ ":metadata"))%nat.
  - unfold bind, ret. simpl. reflexivity.
  - unfold bind, ret. simpl. repeat (rewrite Hg1; simpl). split; [reflexivity|].
    clear. destruct deckId; reflexivity.
Qed.

Lemma startGame_deck_not_found_witness :
  exists g,
    session demo = Some g /\
    (fst (startGame sampleDecks "missing" None 2000 demo)
       = {| status := 404; body := Failure ("Deck not found: " +:+ "missing") |} /\
     errorKind (fst (startGame sampleDecks "missing" None 2000 demo)) = Some DeckNotFound) /\
    (512 < String.length ("deck:" +:+ longDeckId +:+ ":metadata"))%nat /\
    fst (startGame sampleDecks longDeckId None 2000 demo)
      = {| status := 500;
           body := Failure "Failed to load deck: KV GET failed: 414 key too long" |}.
Proof.
  eexists. split; [vm_compute; reflexivity|].
  split; [|split; [vm_compute; lia|]].
  - eapply (startGame_deck_not_found demo _ sampleDecks "missing" None 2000);
      [vm_compute; reflexivity | discriminate | discriminate | reflexivity].
  - eapply (startGame_deck_not_found demo _ sampleDecks longDeckId None 2000);
      [vm_compute; reflexivity | discriminate | discriminate | vm_compute; reflexivity].
Defined.

(** X13. A deck that is not ready. On a session, [startGame] with a deck
    whose metadata has a status other than ready answers 400 with the
    deck-not-ready error, which carries the status. *)
Theorem startGame_deck_not_ready (o : GameSession) (g : GameState) (DECKS : KVNamespace)
    (deckId : string) (metadata : DeckMetadata) (maxSlides : option Z) (now : Z) :
  session o = Some g ->
  deckId <> "" -> deckId <> "default" ->
  get_metadata DECKS ("deck:" +:+ deckId +:+ ":metadata") = Some (Parsed metadata) ->
  deck_status metadata <> "ready" ->
  fst (startGame DECKS deckId maxSlides now o)
    = {| status := 400;
         body := Failure ("Deck is not ready. Current status: " +:+ deck_status metadata) |} /\
  errorKind (fst (startGame DECKS deckId maxSlides now o)) = Some DeckNotReady.
Proof.
  intros Hs Hne Hnd Hmeta Hst.
  destruct (session_some o g Hs) as (o1 & E & Hg1 & _).
  rewrite (startGame_on_loaded o o1 g _ _ _ _ E Hg1).
  unfold startGame.
  rewrite (bind_ensure _ o1 o1 (ensure_in_memory o1 g Hg1)).
  unfold bind at 1. unfold gets at 1. rewrite Hg1.
  rewrite (truthy_nonempty deckId Hne).
  destruct (String.eqb_spec deckId "default") as [|_]; [contradiction|].
  simpl. unfold loadDeck. rewrite (kv_get_metadata _ _ _ Hmeta).
  destruct (String.eqb_spec (deck_status metadata) "ready") as [|_]; [contradiction|].
  unfold bind, ret. simpl. repeat (rewrite Hg1; simpl). split; [reflexivity|].
  clear. destruct (deck_status metadata); reflexivity.
Qed.

Lemma startGame_deck_not_ready_witness :
  exists g,
    session demo = Some g /\
    fst (startGame sampleDecks "draft" None 2000 demo)
      = {| status := 400;
           body := Failure ("Deck is not ready. Current status: " +:+ "processing") |} /\
    errorKind (fst (startGame sampleDecks "draft" None 2000 demo)) = Some DeckNotReady.
Proof.
  eexists. split; [vm_compute; reflexivity|].
  eapply (startGame_deck_not_ready demo _ sampleDecks "draft"
            {| deck_status := "processing" |} None 2000);
    [vm_compute; reflexivity | discriminate | discriminate | reflexivity | discriminate].
Defined.

(** X14. A ready deck replaces the table. On a session, [startGame] with a
    deck that is ready succeeds, and afterwards the adjacency table holds
    exactly one row for each entry of the deck's adjacency data, with the
    entry's two neighbour lists; the rows of the deck played before are
    gone. *)
Theorem startGame_replaces_deck (o : GameSession) (g : GameState) (DECKS : KVNamespace)
    (deckId : string) (metadata : DeckMetadata) (adjacencyData : list (string * Neighbors))
    (maxSlides : option Z) (now : Z) :
  session o = Some g ->
  deckId <> "" -> deckId <> "default" ->
  get_metadata DECKS ("deck:" +:+ deckId +:+ ":metadata") = Some (Parsed metadata) ->
  deck_status metadata = "ready" ->
  get_adjacency DECKS ("deck:" +:+ deckId +:+ ":adjacency") = Some (Parsed adjacencyData) ->
  NoDup (map fst adjacencyData) ->
  success (fst (startGame DECKS deckId maxSlides now o)) = true /\
  forall slideId row,
    adjacency (sql (snd (startGame DECKS deckId maxSlides now o))) !! slideId = Some row <->
    exists neighbors,
      (slideId, neighbors) ∈ adjacencyData /\
      row = {| slide_id := slideId;
               logical_slides := neighbors_logical neighbors;
               chaotic_slides := neighbors_chaotic neighbors |}.
Proof.
  intros Hs Hne Hnd Hmeta Hready Hadj Hkeys.
  destruct (startGame_ready_table o g DECKS deckId metadata adjacencyData maxSlides now
              Hs Hne Hnd Hmeta Hready Hadj Hkeys) as (t & Ht & Hok & ->).
  split; [exact Hok | apply deckRows_lookup; exact Ht].
Qed.

Lemma startGame_replaces_deck_witness :
  exists g adjacencyData,
    session (quietGame 2) = Some g /\
    get_adjacency sampleDecks "deck:talk:adjacency" = Some (Parsed adjacencyData) /\
    success (fst (startGame sampleDecks "talk" None 99000 (quietGame 2))) = true /\
    forall slideId row,
      adjacency (sql (snd (startGame sampleDecks "talk" None 99000 (quietGame 2))))
        !! slideId = Some row <->
      exists neighbors,
        (slideId, neighbors) ∈ adjacencyData /\
        row = {| slide_id := slideId;
                 logical_slides := neighbors_logical neighbors;
                 chaotic_slides := neighbors_chaotic neighbors |}.
Proof.
  eexists. eexists. split; [vm_compute; reflexivity|]. split; [reflexivity|].
  eapply (startGame_replaces_deck (quietGame 2) _ sampleDecks "talk"
            {| deck_status := "ready" |} _ None 99000);
    [vm_compute; reflexivity | discriminate | discriminate | reflexivity | reflexivity
    | reflexivity | ].
  apply (bool_decide_unpack _). vm_compute. exact I.
Defined.

(** X15. A timer fire outside a round. When there is no session, or the
    session is in phase waiting or finished, [alarm] does nothing: the
    session state, the rows, the pending alarm are as before and nothing is
    emitted. *)
Theorem alarm_idle (o : GameSession) (now : Z) :
  match session o with
  | Some g => phase g = waiting \/ phase g = finished
  | None => True
  end ->
  gameState (snd (alarm now o)) = session o /\
  same_durable o (snd (alarm now o)).
Proof.
  intros H.
  destruct (alarm_after_load o now) as (o1 & -> & Hg1 & F).
  unfold alarm_dispatch, bind, gets, ret. cbv beta iota.
  destruct (session o) as [g|]; rewrite Hg1.
  - destruct H as [-> | ->]; simpl; split; assumption.
  - simpl. split; assumption.
Qed.

Lemma alarm_idle_witness :
  match session (quietGame 18) with
  | Some g => phase g = waiting \/ phase g = finished
  | None => True
  end /\
  gameState (snd (alarm 99000 (quietGame 18))) = session (quietGame 18) /\
  same_durable (quietGame 18) (snd (alarm 99000 (quietGame 18))).
Proof.
  split; [vm_compute; right; reflexivity|].
  apply (alarm_idle (quietGame 18) 99000). vm_compute. right. reflexivity.
Defined.

(** X16. The timer fire that opens a round. In phase presenting with the
    slide count below [maxSlides], [alarm] leaves the session in phase
    voting with the voting open, no votes, no voters and the deadline 10 s
    ahead; it saves the row twice (once with the new phase, once more from
    [startVotingTimer]), then arms the voting alarm, then broadcasts the
    state, whose time left is 10 s. *)
Theorem alarm_opens_voting (o : GameSession) (g : GameState) (now : Z) :
  session o = Some g ->
  phase g = presenting ->
  slideCount g < maxSlides g ->
  gameState (snd (alarm now o)) = Some (votingState g now) /\
  trace (snd (alarm now o)) =
    (trace o ++
     [Saved (toRecord (set_phase voting g) now);
      Saved (toRecord (votingState g now) now);
      AlarmSet (now + 10000);
      Broadcast {| msg_data := gameState_msg (Some (publicState (votingState g now) now));
                   timestamp := now |}])%list /\
  alarmTime (snd (alarm now o)) = Some (now + 10000) /\
  pub_phase (publicState (votingState g now) now) = voting /\
  pub_votingOpen (publicState (votingState g now) now) = true /\
  pub_votes (publicState (votingState g now) now) = {| logical := 0; chaotic := 0 |} /\
  pub_timeRemaining (publicState (votingState g now) now) = 10000.
Proof.
  intros Hs Hp Hlt.
  destruct (alarm_after_load o now) as (o1 & -> & Hg1 & (Ft & _)).
  rewrite Hs in Hg1.
  destruct (alarm_dispatch now o1) as [[] o'] eqn:Est.
  unfold alarm_dispatch in Est. unfold bind at 1 in Est. unfold gets at 1 in Est.
  rewrite Hg1, Hp in Est.
  destruct (Z.geb_spec (slideCount g) (maxSlides g)) as [Hge | _]; [lia|].
  run_methods. repeat (rewrite Hg1 in Est; simpl in Est). inversion Est; subst o'.
  simpl. split; [reflexivity|]. split.
  - rewrite Ft. unfold publicState, votingState. simpl.
    repeat rewrite <- app_assoc. reflexivity.
  - split; [reflexivity|]. repeat split. lia.
Qed.

Lemma alarm_opens_voting_witness :
  exists g,
    session (quietGame 0) = Some g /\ phase g = presenting /\
    gameState (snd (alarm 50000 (quietGame 0))) = Some (votingState g 50000) /\
    trace (snd (alarm 50000 (quietGame 0))) =
      (trace (quietGame 0) ++
       [Saved (toRecord (set_phase voting g) 50000);
        Saved (toRecord (votingState g 50000) 50000);
        AlarmSet (50000 + 10000);
        Broadcast {| msg_data := gameState_msg (Some (publicState (votingState g 50000) 50000));
                     timestamp := 50000 |}])%list /\
    alarmTime (snd (alarm 50000 (quietGame 0))) = Some (50000 + 10000) /\
    pub_phase (publicState (votingState g 50000) 50000) = voting /\
    pub_votingOpen (publicState (votingState g 50000) 50000) = true /\
    pub_votes (publicState (votingState g 50000) 50000) = {| logical := 0; chaotic := 0 |} /\
    pub_timeRemaining (publicState (votingState g 50000) 50000) = 10000.
Proof.
  eexists. split; [vm_compute; reflexivity|]. split; [reflexivity|].
  eapply (alarm_opens_voting (quietGame 0) _ 50000);
    [vm_compute; reflexivity | reflexivity | vm_compute; reflexivity].
Defined.

(** X17. The timer fire that advances. In phase voting, with the slide count
    below [maxSlides] and [nextSlide] the first unused slide in the list of
    the winning choice for the current slide, [alarm] closes the voting, moves
    to [nextSlide] in phase presenting with the deadline 45 s ahead, and then
    saves the row, arms the presentation alarm, broadcasts the state and
    broadcasts the slide change, in this order. *)
Theorem alarm_advances (o : GameSession) (g : GameState) (row : AdjacencyRecord)
    (nextSlide : string) (now : Z) :
  session o = Some g ->
  phase g = voting ->
  slideCount g < maxSlides g ->
  adjacency (sql o) !! currentSlide g = Some row ->
  List.find (fun slideId => negb (JsSet.has (usedSlides g) slideId))
    (neighbours row (winner g)) = Some nextSlide ->
  nextSlide <> "" ->
  gameState (snd (alarm now o)) = Some (advancedState g nextSlide now) /\
  trace (snd (alarm now o)) =
    (trace o ++
     [Saved (toRecord (advancedState g nextSlide now) now);
      AlarmSet (now + 45000);
      Broadcast {| msg_data :=
                     gameState_msg (Some (publicState (advancedState g nextSlide now) now));
                   timestamp := now |};
      Broadcast {| msg_data := slideChange_msg nextSlide; timestamp := now |}])%list /\
  alarmTime (snd (alarm now o)) = Some (now + 45000) /\
  votingOpen (advancedState g nextSlide now) = false /\
  pub_timeRemaining (publicState (advancedState g nextSlide now) now) = 45000.
Proof.
  intros Hs Hp Hlt Hrow Hfind Hne.
  destruct (alarm_after_load o now) as (o1 & -> & Hg1 & (Ft & _ & _ & Fadj & _)).
  rewrite Hs in Hg1.
  assert (Hnext : getNextSlide o1 (winner g) = Returned (Some nextSlide)).
  { unfold getNextSlide. rewrite Hg1, Fadj, Hrow.
    unfold neighbours in Hfind. destruct (winner g); rewrite Hfind; reflexivity. }
  rewrite (alarm_dispatch_voting o1 g now Hg1 Hp).
  destruct (processVotesAndAdvance_advance o1 g nextSlide now Hg1 Hnext Hne Hlt)
    as (o2 & p & Ep & Hg' & Htr & _ & _ & Hal & _).
  rewrite Ep. simpl.
  split; [exact Hg'|]. split; [|split; [exact Hal | split; [reflexivity | simpl; lia]]].
  clear Htr.
  unfold processVotesAndAdvance in Ep. run_methods.
  repeat (rewrite Hg1 in Ep; simpl in Ep).
  unfold getNextSlide in Hnext. rewrite Hg1 in Hnext.
  assert (Hnext' : getNextSlide (with_gameState (Some (set_votingOpen false g)) o1) (winner g)
                   = Returned (Some nextSlide)).
  { unfold getNextSlide. simpl. exact Hnext. }
  destruct (Z.geb_spec (slideCount g) (maxSlides g)) as [Hge | _]; [lia|].
  change (winner (set_votingOpen false g)) with (winner g) in Ep.
  rewrite Hnext' in Ep. simpl in Ep.
  destruct (String.eqb_spec nextSlide "") as [|_]; [contradiction|].
  simpl in Ep. inversion Ep; subst o2. simpl. rewrite Ft.
  repeat rewrite <- app_assoc. reflexivity.
Qed.

Lemma alarm_advances_witness :
  exists g row,
    session tiedRound = Some g /\
    adjacency (sql tiedRound) !! currentSlide g = Some row /\
    winner g = Chaotic /\
    gameState (snd (alarm 60000 tiedRound)) = Some (advancedState g "slide_8" 60000) /\
    trace (snd (alarm 60000 tiedRound)) =
      (trace tiedRound ++
       [Saved (toRecord (advancedState g "slide_8" 60000) 60000);
        AlarmSet (60000 + 45000);
        Broadcast {| msg_data :=
                       gameState_msg (Some (publicState (advancedState g "slide_8" 60000) 60000));
                     timestamp := 60000 |};
        Broadcast {| msg_data := slideChange_msg "slide_8"; timestamp := 60000 |}])%list /\
    alarmTime (snd (alarm 60000 tiedRound)) = Some (60000 + 45000) /\
    votingOpen (advancedState g "slide_8" 60000) = false /\
    pub_timeRemaining (publicState (advancedState g "slide_8" 60000) 60000) = 45000.
Proof.
  eexists. eexists. split; [vm_compute; reflexivity|].
  split; [vm_compute; reflexivity|]. split; [reflexivity|].
  eapply (alarm_advances tiedRound _ _ "slide_8" 60000);
    [vm_compute; reflexivity | reflexivity | vm_compute; reflexivity | vm_compute; reflexivity
    | vm_compute; reflexivity | discriminate].
Defined.

(** X18. [initialize] with a room code starts over on any object. Whatever
    the object held before, the response names the room code as session id,
    the session is the initial one (slide_1, phase waiting, ten slides, no
    votes), its row is saved, the pending alarm is not touched, and after an
    eviction the re-created object reads the same session back. *)
Theorem initialize_starts_over (o : GameSession) (roomCode : string) (now : Z) :
  roomCode <> "" ->
  fst (initialize (Some roomCode) now o) = ok (Initialized roomCode) /\
  gameState (snd (initialize (Some roomCode) now o)) = Some (initialState roomCode) /\
  trace (snd (initialize (Some roomCode) now o)) =
    (trace o ++ [Saved (toRecord (initialState roomCode) now)])%list /\
  alarmTime (snd (initialize (Some roomCode) now o)) = alarmTime o /\
  holds (initialState roomCode) (snd (initialize (Some roomCode) now o)) /\
  session (restart (snd (initialize (Some roomCode) now o))) = Some (initialState roomCode).
Proof.
  intros Hne.
  assert (Hholds : holds (initialState roomCode) (snd (initialize (Some roomCode) now o))).
  { unfold initialize, storeRoomCode, js_or_string, js_or. run_methods.
    destruct (String.eqb_spec roomCode "") as [|_]; [contradiction|]. simpl.
    unfold holds, room_code_ok, state_ok. simpl.
    split; [left; split; [apply lookup_insert_eq | split; [assumption | right; reflexivity]]|].
    split; [|split; [exists now; apply lookup_insert_eq | left; reflexivity]].
    split; [left|]. split; [apply NoDup_singleton|]. split; [reflexivity|].
    split; [constructor | reflexivity]. }
  split; [|split; [|split; [|split; [|split; [exact Hholds|]]]]].
  - unfold initialize, storeRoomCode, js_or_string, js_or. run_methods.
    destruct (String.eqb_spec roomCode "") as [|_]; [contradiction|]. reflexivity.
  - unfold initialize, storeRoomCode, js_or_string, js_or. run_methods.
    destruct (String.eqb_spec roomCode "") as [|_]; [contradiction|]. reflexivity.
  - unfold initialize, storeRoomCode, js_or_string, js_or. run_methods.
    destruct (String.eqb_spec roomCode "") as [|_]; [contradiction|]. reflexivity.
  - apply initialize_frame.
  - destruct (restart_step _ _ Hholds) as (gs & A & _ & C & _).
    destruct (session_loaded _ _ Hholds) as (g1 & o1 & _ & _ & Hs1 & _ & Hrel & _).
    rewrite Hs1 in A. inversion A; subst gs.
    rewrite C. destruct Hrel as [-> | ->]; reflexivity.
Qed.

Lemma initialize_starts_over_witness :
  fst (initialize (Some "AGAIN1") 99000 (quietGame 5)) = ok (Initialized "AGAIN1") /\
  gameState (snd (initialize (Some "AGAIN1") 99000 (quietGame 5)))
    = Some (initialState "AGAIN1") /\
  trace (snd (initialize (Some "AGAIN1") 99000 (quietGame 5))) =
    (trace (quietGame 5) ++ [Saved (toRecord (initialState "AGAIN1") 99000)])%list /\
  alarmTime (snd (initialize (Some "AGAIN1") 99000 (quietGame 5)))
    = alarmTime (quietGame 5) /\
  holds (initialState "AGAIN1") (snd (initialize (Some "AGAIN1") 99000 (quietGame 5))) /\
  session (restart (snd (initialize (Some "AGAIN1") 99000 (quietGame 5))))
    = Some (initialState "AGAIN1").
Proof.
  apply (initialize_starts_over (quietGame 5) "AGAIN1" 99000). discriminate.
Defined.

(** X19. [fetch]. A request without the upgrade header is answered 404 and
    the object is untouched. An upgrade is answered 101; with a session, the
    new socket, and no other, is sent the public state of the session once;
    the session, its row and the alarm are as before. *)
Theorem fetch_sends_state_to_new_socket (o : GameSession) (now : Z) :
  fetch false now o = ({| status := 404; body := Text "Not found" |}, o) /\
  fst (fetch true now o) = {| status := 101; body := Upgrade |} /\
  gameState (snd (fetch true now o)) = session o /\
  trace (snd (fetch true now o)) =
    (trace o ++
     match session o with
     | Some g => [SentToSocket {| msg_data := gameState_msg (Some (publicState g now));
                                  timestamp := now |}]
     | None => []
     end)%list /\
  alarmTime (snd (fetch true now o)) = alarmTime o /\
  game_session (sql (snd (fetch true now o))) = game_session (sql o).
Proof.
  split; [reflexivity|].
  unfold fetch.
  destruct (session o) as [g|] eqn:Hs.
  - destruct (session_some o g Hs) as (o1 & E & Hg1 & (Ft & Fa & _ & _ & Fs)).
    rewrite (bind_ensure _ o o1 E). run_methods. repeat (rewrite Hg1; simpl).
    split; [reflexivity|]. split; [reflexivity|]. split; [rewrite Ft; reflexivity|].
    split; assumption.
  - destruct (session_none o Hs) as (o1 & E & Hg1 & (Ft & Fa & _ & _ & Fs)).
    rewrite (bind_ensure _ o o1 E). run_methods. repeat (rewrite Hg1; simpl).
    split; [reflexivity|]. split; [reflexivity|].
    split; [rewrite Ft, app_nil_r; reflexivity|].
    split; assumption.
Qed.

(** X20. Messages of a client. [webSocketMessage] never changes the session,
    its row or the alarm and never broadcasts: a ping is answered with a pong
    to the sender, a text that does not parse with an error message to the
    sender, and a join or any other type with nothing. *)
Theorem webSocketMessage_replies_to_sender (o : GameSession) (message : Json ClientMessage)
    (now : Z) :
  gameState (snd (webSocketMessage message now o)) = session o /\
  trace (snd (webSocketMessage message now o)) =
    (trace o ++
     match message with
     | SyntaxError _ =>
         [SentToSocket {| msg_data := error_msg "Failed to process message";
                          timestamp := now |}]
     | Parsed ping => [SentToSocket {| msg_data := pong_msg now; timestamp := now |}]
     | Parsed _ => []
     end)%list /\
  alarmTime (snd (webSocketMessage message now o)) = alarmTime o /\
  game_session (sql (snd (webSocketMessage message now o))) = game_session (sql o).
Proof.
  unfold webSocketMessage, session.
  pose proof (ensure_frame o) as (Ft & Fa & _ & _ & Fs).
  destruct (ensureGameStateLoaded o) as [[] o1] eqn:E.
  rewrite (bind_ensure _ o o1 E). simpl in *.
  destruct message as [m|[| |]]; run_methods; rewrite Ft, ?app_nil_r;
    (split; [reflexivity|]; split; [reflexivity|]; split; assumption).
Qed.

(** X21. The adjacency table of a new object. The constructor fills an empty
    table with the ten rows of the mock deck, each under its slide id, and
    leaves a table that has rows as it is: an eviction keeps the deck of the
    game, unless the deck has no slide. *)
Theorem constructor_adjacency (id : string) (storage : SqlStorage) (alarm : option Z)
    (seen : list Event) :
  (adjacency storage <> ∅ ->
   adjacency (sql (constructor id storage alarm seen)) = adjacency storage) /\
  (adjacency storage = ∅ ->
   forall slideId row,
     adjacency (sql (constructor id storage alarm seen)) !! slideId = Some row <->
     (row ∈ mockSlides) /\ slide_id row = slideId).
Proof.
  assert (Hadj : adjacency (sql (constructor id storage alarm seen)) =
                 if Nat.eqb (size (adjacency storage)) 0
                 then table_of (insert_all mockSlides (adjacency storage))
                 else adjacency storage).
  { unfold constructor, initializeTables, loadMockDataIfNeeded, loadMockSlideData,
      recoverRoomCodeFromStorage.
    run_methods.
    destruct (Nat.eqb (size (adjacency storage)) 0); simpl;
      destruct (do_metadata storage !! "room_code"); reflexivity. }
  rewrite Hadj. split.
  - intros Hne. destruct (Nat.eqb_spec (size (adjacency storage)) 0) as [H0 | _].
    + apply map_size_empty_iff in H0. contradiction.
    + reflexivity.
  - intros ->. rewrite map_size_empty. simpl Nat.eqb. cbv iota.
    destruct (insert_all_fresh mockSlides ∅) as (t & Ht).
    { apply (bool_decide_unpack _). vm_compute. exact I. }
    { intros row _. apply lookup_empty. }
    rewrite Ht. simpl. intros slideId row.
    rewrite (insert_all_lookup _ _ _ Ht slideId row), lookup_empty.
    split; [intros [H | H]; [discriminate | exact H] | intros H; right; exact H].
Qed.

(** ** Adjacency lists from embeddings *)

Lemma calculateSimilarity_None (embedding1 embedding2 : list PrimFloat.float) :
  AiProcessor.calculateSimilarity embedding1 embedding2 = None <->
  length embedding1 <> length embedding2.
Proof.
  unfold AiProcessor.calculateSimilarity.
  destruct (Nat.eqb_spec (length embedding1) (length embedding2)) as [He | Hne]; simpl.
  - destruct (AiProcessor.sums embedding1 embedding2 _ _ _) as [[d m1] m2].
    destruct (_ || _); split; try discriminate; intros H; contradiction.
  - split; [intros _; assumption | reflexivity].
Qed.

Lemma similaritiesOf_None (slide1 : AiProcessor.SlideEmbedding)
    (embeddings : list AiProcessor.SlideEmbedding) :
  AiProcessor.similaritiesOf slide1 embeddings = None <->
  exists slide2,
    slide2 ∈ embeddings /\ AiProcessor.slideId slide1 <> AiProcessor.slideId slide2 /\
    length (AiProcessor.embedding slide1) <> length (AiProcessor.embedding slide2).
Proof.
  induction embeddings as [|slide2 rest IH]; simpl.
  - split; [discriminate|]. intros (s & H & _). inversion H.
  - destruct (String.eqb_spec (AiProcessor.slideId slide1) (AiProcessor.slideId slide2))
      as [He | Hne].
    + rewrite IH. split.
      * intros (s & H & K). exists s. split; [right; assumption | assumption].
      * intros (s & H & K1 & K2). apply elem_of_cons in H as [-> | H].
        -- contradiction.
        -- exists s. split; [assumption|]. split; assumption.
    + destruct (AiProcessor.calculateSimilarity _ _) as [similarity|] eqn:Hc.
      * assert (Hlen : ~ length (AiProcessor.embedding slide1)
                         <> length (AiProcessor.embedding slide2)).
        { intros H. apply calculateSimilarity_None in H. congruence. }
        destruct (AiProcessor.similaritiesOf slide1 rest) as [sims|] eqn:Hr.
        -- split; [discriminate|]. intros (s & H & K1 & K2).
           apply elem_of_cons in H as [-> | H]; [contradiction|].
           assert (Hnone : Some sims = None); [|discriminate].
           apply IH. exists s. split; [assumption|]. split; assumption.
        -- split; [|reflexivity]. intros _.
           destruct (proj1 IH eq_refl) as (s & H & K).
           exists s. split; [right; assumption | assumption].
      * split; [|reflexivity]. intros _. exists slide2.
        split; [left|]. split; [assumption|]. apply calculateSimilarity_None. assumption.
Qed.

Lemma similaritiesOf_ids (slide1 : AiProcessor.SlideEmbedding)
    (embeddings : list AiProcessor.SlideEmbedding)
    (similarities : list AiProcessor.SimilarityScore) :
  AiProcessor.similaritiesOf slide1 embeddings = Some similarities ->
  map AiProcessor.scored_slideId similarities =
    filter (fun k => AiProcessor.slideId slide1 <> k) (map AiProcessor.slideId embeddings).
Proof.
  revert similarities. induction embeddings as [|slide2 rest IH]; intros sims; simpl.
  - intros H; inversion H; reflexivity.
  - destruct (String.eqb_spec (AiProcessor.slideId slide1) (AiProcessor.slideId slide2))
      as [He | Hne].
    + intros H. rewrite filter_cons_False by (intros K; apply K; exact He).
      apply IH. exact H.
    + destruct (AiProcessor.calculateSimilarity _ _) as [similarity|]; [|discriminate].
      destruct (AiProcessor.similaritiesOf slide1 rest) as [sims'|]; [|discriminate].
      intros H; inversion H; subst. simpl.
      rewrite filter_cons_True by exact Hne. f_equal. apply IH. reflexivity.
Qed.

Lemma insert_sorted_perm (x : AiProcessor.SimilarityScore)
    (sorted : list AiProcessor.SimilarityScore) :
  AiProcessor.insert_sorted x sorted ≡ₚ x :: sorted.
Proof.
  induction sorted as [|y rest IH]; simpl; [reflexivity|].
  destruct (PrimFloat.ltb _ _); [reflexivity|].
  rewrite IH. apply Permutation_swap.
Qed.

Lemma sort_perm (similarities : list AiProcessor.SimilarityScore) :
  AiProcessor.sort similarities ≡ₚ similarities.
Proof.
  unfold AiProcessor.sort.
  assert (H : forall acc, foldl (fun sorted x => AiProcessor.insert_sorted x sorted) acc
                            similarities ≡ₚ (acc ++ similarities)%list).
  { induction similarities as [|x rest IH]; intros acc; simpl.
    - rewrite app_nil_r. reflexivity.
    - rewrite IH, insert_sorted_perm. apply Permutation_middle. }
  apply (H []).
Qed.

Lemma filter_other_fresh (k : string) (l : list string) :
  k ∉ l -> filter (fun x => k <> x) l = l.
Proof.
  induction l as [|y l IH]; [reflexivity|]. intros Hk.
  apply not_elem_of_cons in Hk as (Hy & Hk).
  rewrite filter_cons_True by exact Hy. f_equal. apply IH. exact Hk.
Qed.

Lemma filter_other_lt (k : string) (l : list string) :
  k ∈ l -> (length (filter (fun x => k <> x) l) < length l)%nat.
Proof.
  intros Hin. induction l as [|y l IH]; [inversion Hin|].
  destruct (decide (k = y)) as [<- | Hne].
  - rewrite filter_cons_False by (intros K; apply K; reflexivity).
    pose proof (length_filter (fun x => k <> x) l). simpl. lia.
  - rewrite filter_cons_True by exact Hne. simpl.
    apply elem_of_cons in Hin as [-> | Hin]; [contradiction|].
    specialize (IH Hin). lia.
Qed.

Lemma filter_other_NoDup (k : string) (l : list string) :
  NoDup l -> k ∈ l -> length (filter (fun x => k <> x) l) = (length l - 1)%nat.
Proof.
  intros Hnd Hin. induction l as [|y l IH]; [inversion Hin|].
  apply NoDup_cons in Hnd as (Hy & Hnd).
  destruct (decide (k = y)) as [<- | Hne].
  - rewrite filter_cons_False by (intros K; apply K; reflexivity).
    rewrite filter_other_fresh by exact Hy. simpl. lia.
  - rewrite filter_cons_True by exact Hne. simpl.
    apply elem_of_cons in Hin as [-> | Hin]; [contradiction|].
    rewrite (IH Hnd Hin). destruct l; [inversion Hin | simpl; lia].
Qed.

Lemma generateFrom_None (embeddings slides : list AiProcessor.SlideEmbedding)
    (adjacencyList : gmap string Neighbors) :
  AiProcessor.generateFrom embeddings slides adjacencyList = None <->
  exists slide1, slide1 ∈ slides /\ AiProcessor.similaritiesOf slide1 embeddings = None.
Proof.
  revert adjacencyList. induction slides as [|slide1 rest IH]; intros acc; simpl.
  - split; [discriminate|]. intros (s & H & _). inversion H.
  - destruct (AiProcessor.similaritiesOf slide1 embeddings) as [sims|] eqn:Hs.
    + rewrite IH. split.
      * intros (s & H & K). exists s. split; [right; assumption | assumption].
      * intros (s & H & K). apply elem_of_cons in H as [-> | H]; [congruence|].
        exists s. split; assumption.
    + split; [|reflexivity]. intros _. exists slide1. split; [left | assumption].
Qed.

Lemma assign_lookup (key k : string) (value : Neighbors)
    (adjacencyList : gmap string Neighbors) :
  AiProcessor.assign key value adjacencyList !! k =
    if decide (key = k /\ key <> "__proto__") then Some value else adjacencyList !! k.
Proof.
  unfold AiProcessor.assign.
  destruct (String.eqb_spec key "__proto__") as [Hp | Hp].
  - destruct (decide _) as [(_ & H) | _]; [contradiction | reflexivity].
  - destruct (decide _) as [(<- & _) | Hn].
    + apply lookup_insert_eq.
    + apply lookup_insert_ne. intros ->. apply Hn. split; [reflexivity | assumption].
Qed.

Lemma generateFrom_lookup (embeddings slides : list AiProcessor.SlideEmbedding)
    (adjacencyList adjacency : gmap string Neighbors) (k : string) (n : Neighbors) :
  AiProcessor.generateFrom embeddings slides adjacencyList = Some adjacency ->
  adjacency !! k = Some n ->
  adjacencyList !! k = Some n \/
  exists slide1 similarities,
    slide1 ∈ slides /\ AiProcessor.slideId slide1 = k /\ k <> "__proto__" /\
    AiProcessor.similaritiesOf slide1 embeddings = Some similarities /\
    n = AiProcessor.neighborsOf (AiProcessor.sort similarities).
Proof.
  revert adjacencyList. induction slides as [|slide1 rest IH]; intros acc; simpl.
  - intros H; inversion H; subst. intros Hk. left. exact Hk.
  - destruct (AiProcessor.similaritiesOf slide1 embeddings) as [sims|] eqn:Hs; [|discriminate].
    intros H Hk. destruct (IH _ H Hk) as [Hacc | (s & sims' & Hin & K)].
    + rewrite assign_lookup in Hacc.
      destruct (decide _) as [(He & Hp) | _].
      * inversion Hacc; subst.
        right. exists slide1, sims. split; [left|]. split; [reflexivity|].
        split; [assumption|]. split; [assumption | reflexivity].
      * left. exact Hacc.
    + right. exists s, sims'. split; [right; assumption | assumption].
Qed.

Lemma generateFrom_dom (embeddings slides : list AiProcessor.SlideEmbedding)
    (adjacencyList adjacency : gmap string Neighbors) (k : string) :
  AiProcessor.generateFrom embeddings slides adjacencyList = Some adjacency ->
  is_Some (adjacency !! k) <->
  is_Some (adjacencyList !! k) \/ (k ∈ map AiProcessor.slideId slides /\ k <> "__proto__").
Proof.
  revert adjacencyList. induction slides as [|slide1 rest IH]; intros acc; simpl.
  - intros H; inversion H; subst. split; [intros; left; assumption|].
    intros [H1 | (H1 & _)]; [assumption | inversion H1].
  - destruct (AiProcessor.similaritiesOf slide1 embeddings) as [sims|] eqn:Hs; [|discriminate].
    intros H. rewrite (IH _ H). rewrite elem_of_cons, assign_lookup.
    destruct (decide _) as [(He & Hp) | Hn].
    + split; [|intros _; left; eexists; reflexivity].
      intros _. right. split; [left; symmetry; exact He | congruence].
    + split.
      * intros [H1 | (H1 & H2)]; [left; assumption | right; split; [right|]; assumption].
      * intros [H1 | ([H1 | H1] & H2)]; [left; assumption | | right; split; assumption].
        exfalso. apply Hn. split; congruence.
Qed.

(** The neighbour lists of an entry, as lists of slide ids. *)
Lemma neighborsOf_lists (similarities : list AiProcessor.SimilarityScore) (x : string) :
  x ∈ neighbors_logical (AiProcessor.neighborsOf (AiProcessor.sort similarities)) \/
  x ∈ neighbors_chaotic (AiProcessor.neighborsOf (AiProcessor.sort similarities)) ->
  x ∈ map AiProcessor.scored_slideId similarities.
Proof.
  assert (Hp : map AiProcessor.scored_slideId (AiProcessor.sort similarities)
               ≡ₚ map AiProcessor.scored_slideId similarities).
  { apply fmap_Permutation, sort_perm. }
  rewrite <- Hp. unfold AiProcessor.neighborsOf. simpl.
  intros [H | H].
  - apply list_elem_of_fmap in H as (y & -> & H).
    apply list_elem_of_fmap. exists y. split; [reflexivity|].
    apply (subseteq_take 3). exact H.
  - apply list_elem_of_fmap in H as (y & -> & H).
    apply list_elem_of_fmap. exists y. split; [reflexivity|].
    rewrite elem_of_reverse in H. eapply subseteq_drop. exact H.
Qed.

Lemma generateAdjacencyList_entry (embeddings : list AiProcessor.SlideEmbedding)
    (adjacencyList : gmap string Neighbors) (k : string) (n : Neighbors) :
  AiProcessor.generateAdjacencyList embeddings = Some adjacencyList ->
  adjacencyList !! k = Some n ->
  exists slide1 similarities,
    slide1 ∈ embeddings /\ AiProcessor.slideId slide1 = k /\
    map AiProcessor.scored_slideId similarities =
      filter (fun x => k <> x) (map AiProcessor.slideId embeddings) /\
    n = AiProcessor.neighborsOf (AiProcessor.sort similarities).
Proof.
  intros Hgen Hk.
  destruct (generateFrom_lookup _ _ _ _ _ _ Hgen Hk)
    as [H | (s & sims & Hin & Hid & _ & Hs & Hn)].
  - rewrite lookup_empty in H. discriminate.
  - exists s, sims. split; [assumption|]. split; [assumption|].
    split; [|assumption]. rewrite <- Hid. apply similaritiesOf_ids. assumption.
Qed.

Lemma generateAdjacencyList_keys (embeddings : list AiProcessor.SlideEmbedding)
    (adjacencyList : gmap string Neighbors) (k : string) :
  AiProcessor.generateAdjacencyList embeddings = Some adjacencyList ->
  is_Some (adjacencyList !! k) <->
  (k ∈ map AiProcessor.slideId embeddings /\ k <> "__proto__").
Proof.
  intros Hgen. rewrite (generateFrom_dom _ _ _ _ k Hgen). rewrite lookup_empty.
  split; [intros [[x H] | H]; [discriminate | exact H] | intros H; right; exact H].
Qed.

Lemma sums_zero (embedding1 embedding2 : list PrimFloat.float)
    (dotProduct magnitude : PrimFloat.float) :
  Forall (fun x => x = PrimFloat.zero) embedding1 ->
  (AiProcessor.sums embedding1 embedding2 dotProduct PrimFloat.zero magnitude).1.2
    = PrimFloat.zero /\
  (AiProcessor.sums embedding2 embedding1 dotProduct magnitude PrimFloat.zero).2
    = PrimFloat.zero.
Proof.
  intros Hz. revert embedding2 dotProduct magnitude.
  induction Hz as [|x rest Hx _ IH]; intros embedding2 d m.
  - split; [reflexivity|]. destruct embedding2; reflexivity.
  - subst x. destruct embedding2 as [|y rest2]; [split; reflexivity|]. simpl.
    change (PrimFloat.add PrimFloat.zero (PrimFloat.mul PrimFloat.zero PrimFloat.zero))
      with PrimFloat.zero.
    split; [apply (proj1 (IH rest2 _ _)) | apply (proj2 (IH rest2 _ _))].
Qed.


(** X22. Neighbours in a generated adjacency list. In the object
    [generateAdjacencyList] returns, no entry is under the key __proto__, no
    slide is its own neighbour, and every slide listed as logical or chaotic
    neighbour is a slide of the deck; it has an entry of its own exactly when
    its id is not __proto__: assigning to that key sets the prototype of the
    object and adds no entry. *)
Theorem generateAdjacencyList_neighbours (embeddings : list AiProcessor.SlideEmbedding)
    (adjacencyList : gmap string Neighbors) (k x : string) (n : Neighbors) :
  AiProcessor.generateAdjacencyList embeddings = Some adjacencyList ->
  adjacencyList !! k = Some n ->
  x ∈ neighbors_logical n \/ x ∈ neighbors_chaotic n ->
  k <> "__proto__" /\ x <> k /\ (x ∈ map AiProcessor.slideId embeddings) /\
  (is_Some (adjacencyList !! x) <-> x <> "__proto__").
Proof.
  intros Hgen Hk Hx.
  assert (Hkp : k <> "__proto__").
  { apply (generateAdjacencyList_keys _ _ k Hgen). eexists. exact Hk. }
  destruct (generateAdjacencyList_entry _ _ _ _ Hgen Hk) as (s & sims & Hin & Hid & Hids & ->).
  apply neighborsOf_lists in Hx. rewrite Hids in Hx.
  apply list_elem_of_filter in Hx as (Hne & Hx).
  split; [exact Hkp|]. split; [congruence|]. split; [exact Hx|].
  rewrite (generateAdjacencyList_keys _ _ x Hgen).
  split; [intros (_ & H); exact H | intros H; split; assumption].
Qed.

Lemma generateAdjacencyList_neighbours_witness :
  (exists adjacencyList n,
     AiProcessor.generateAdjacencyList AiProcessor.sampleEmbeddings = Some adjacencyList /\
     adjacencyList !! "a" = Some n /\
     neighbors_logical n = ["b"; "e"; "c"] /\ neighbors_chaotic n = ["d"; "c"; "e"] /\
     "a" <> "__proto__" /\ "e" <> "a" /\
     ("e" ∈ map AiProcessor.slideId AiProcessor.sampleEmbeddings) /\
     (is_Some (adjacencyList !! "e") <-> "e" <> "__proto__")) /\
  (exists adjacencyList n,
     AiProcessor.generateAdjacencyList AiProcessor.protoEmbeddings = Some adjacencyList /\
     adjacencyList !! "a" = Some n /\
     neighbors_logical n = ["__proto__"] /\
     adjacencyList !! "__proto__" = None /\
     "a" <> "__proto__" /\ "__proto__" <> "a" /\
     ("__proto__" ∈ map AiProcessor.slideId AiProcessor.protoEmbeddings) /\
     (is_Some (adjacencyList !! "__proto__") <-> "__proto__" <> "__proto__")).
Proof.
  split.
  - eexists. eexists. split; [vm_compute; reflexivity|].
    split; [vm_compute; reflexivity|]. split; [reflexivity|]. split; [reflexivity|].
    eapply (generateAdjacencyList_neighbours AiProcessor.sampleEmbeddings _ "a" "e");
      [vm_compute; reflexivity | vm_compute; reflexivity
      | left; apply (bool_decide_unpack _); vm_compute; exact I].
  - eexists. eexists. split; [vm_compute; reflexivity|].
    split; [vm_compute; reflexivity|]. split; [reflexivity|]. split; [reflexivity|].
    eapply (generateAdjacencyList_neighbours AiProcessor.protoEmbeddings _ "a" "__proto__");
      [vm_compute; reflexivity | vm_compute; reflexivity
      | left; apply (bool_decide_unpack _); vm_compute; exact I].
Defined.

(** X23. The size of the neighbour lists. For a deck whose slide ids are
    distinct, each entry lists min(3, number of other slides) logical and as
    many chaotic neighbours, none of them twice in a list. *)
Theorem generateAdjacencyList_sizes (embeddings : list AiProcessor.SlideEmbedding)
    (adjacencyList : gmap string Neighbors) (k : string) (n : Neighbors) :
  NoDup (map AiProcessor.slideId embeddings) ->
  AiProcessor.generateAdjacencyList embeddings = Some adjacencyList ->
  adjacencyList !! k = Some n ->
  length (neighbors_logical n) = Nat.min 3 (length embeddings - 1) /\
  length (neighbors_chaotic n) = Nat.min 3 (length embeddings - 1) /\
  NoDup (neighbors_logical n) /\ NoDup (neighbors_chaotic n).
Proof.
  intros Hnd Hgen Hk.
  destruct (generateAdjacencyList_entry _ _ _ _ Hgen Hk) as (s & sims & Hin & Hid & Hids & ->).
  assert (Hk' : k ∈ map AiProcessor.slideId embeddings).
  { rewrite <- Hid. apply list_elem_of_fmap. exists s. split; [reflexivity | assumption]. }
  assert (Hlen : length (AiProcessor.sort sims) = (length embeddings - 1)%nat).
  { rewrite (Permutation_length (sort_perm sims)).
    rewrite <- (List.length_map AiProcessor.scored_slideId sims), Hids.
    rewrite (filter_other_NoDup k _ Hnd Hk'), List.length_map. reflexivity. }
  assert (Hnd' : NoDup (map AiProcessor.scored_slideId (AiProcessor.sort sims))).
  { pose proof (fmap_Permutation AiProcessor.scored_slideId _ _ (sort_perm sims)) as Hp.
    change (map AiProcessor.scored_slideId (AiProcessor.sort sims)
            ≡ₚ map AiProcessor.scored_slideId sims) in Hp.
    rewrite Hp, Hids. apply NoDup_filter. exact Hnd. }
  unfold AiProcessor.neighborsOf. cbn [neighbors_logical neighbors_chaotic].
  rewrite !List.length_map, length_take, length_reverse, length_drop, Hlen.
  split; [lia|]. split; [lia|]. split.
  - change (NoDup (AiProcessor.scored_slideId <$> take 3 (AiProcessor.sort sims))).
    rewrite fmap_take. eapply sublist_NoDup; [exact Hnd' | apply sublist_take].
  - change (NoDup (AiProcessor.scored_slideId <$>
                     reverse (drop (length embeddings - 1 - 3) (AiProcessor.sort sims)))).
    rewrite fmap_reverse, fmap_drop, reverse_Permutation.
    eapply sublist_NoDup; [exact Hnd' | apply sublist_drop].
Qed.

Lemma generateAdjacencyList_sizes_witness :
  exists adjacencyList n,
    AiProcessor.generateAdjacencyList AiProcessor.talkEmbeddings = Some adjacencyList /\
    adjacencyList !! "intro" = Some n /\
    length (neighbors_logical n) = Nat.min 3 (length AiProcessor.talkEmbeddings - 1) /\
    length (neighbors_chaotic n) = Nat.min 3 (length AiProcessor.talkEmbeddings - 1) /\
    NoDup (neighbors_logical n) /\ NoDup (neighbors_chaotic n).
Proof.
  eexists. eexists. split; [vm_compute; reflexivity|].
  split; [vm_compute; reflexivity|].
  eapply (generateAdjacencyList_sizes AiProcessor.talkEmbeddings _ "intro");
    [apply (bool_decide_unpack _); vm_compute; exact I
    | vm_compute; reflexivity | vm_compute; reflexivity].
Defined.

(** X24. Small decks. For a deck of at most four slides, the chaotic list of
    every entry is its logical list read backwards: both choices offer the
    same slides. *)
Theorem generateAdjacencyList_small_deck (embeddings : list AiProcessor.SlideEmbedding)
    (adjacencyList : gmap string Neighbors) (k : string) (n : Neighbors) :
  (length embeddings <= 4)%nat ->
  AiProcessor.generateAdjacencyList embeddings = Some adjacencyList ->
  adjacencyList !! k = Some n ->
  neighbors_chaotic n = reverse (neighbors_logical n).
Proof.
  intros Hsmall Hgen Hk.
  destruct (generateAdjacencyList_entry _ _ _ _ Hgen Hk) as (s & sims & Hin & Hid & Hids & ->).
  assert (Hk' : k ∈ map AiProcessor.slideId embeddings).
  { rewrite <- Hid. apply list_elem_of_fmap. exists s. split; [reflexivity | assumption]. }
  assert (Hlen : (length (AiProcessor.sort sims) <= 3)%nat).
  { rewrite (Permutation_length (sort_perm sims)).
    rewrite <- (List.length_map AiProcessor.scored_slideId sims), Hids.
    pose proof (filter_other_lt k _ Hk') as Hlt. rewrite List.length_map in Hlt. lia. }
  unfold AiProcessor.neighborsOf. simpl.
  rewrite take_ge by exact Hlen.
  replace (length (AiProcessor.sort sims) - 3)%nat with 0%nat by lia.
  rewrite drop_0.
  change (AiProcessor.scored_slideId <$> reverse (AiProcessor.sort sims) =
          reverse (AiProcessor.scored_slideId <$> AiProcessor.sort sims)).
  apply fmap_reverse.
Qed.

Lemma generateAdjacencyList_small_deck_witness :
  exists adjacencyList n,
    AiProcessor.generateAdjacencyList AiProcessor.talkEmbeddings = Some adjacencyList /\
    adjacencyList !! "slide_1" = Some n /\
    neighbors_logical n = ["intro"; "outro"] /\
    neighbors_chaotic n = reverse (neighbors_logical n).
Proof.
  eexists. eexists. split; [vm_compute; reflexivity|].
  split; [vm_compute; reflexivity|]. split; [reflexivity|].
  eapply (generateAdjacencyList_small_deck AiProcessor.talkEmbeddings _ "slide_1");
    [vm_compute; lia | vm_compute; reflexivity | vm_compute; reflexivity].
Defined.

(** X25. When [generateAdjacencyList] throws. It throws exactly when two
    slides with different ids have embeddings of different dimensions;
    otherwise it returns an object with one entry for each slide id of the
    deck other than __proto__ and no other entry. *)
Theorem generateAdjacencyList_defined (embeddings : list AiProcessor.SlideEmbedding) :
  (AiProcessor.generateAdjacencyList embeddings = None <->
   exists slide1 slide2,
     slide1 ∈ embeddings /\ slide2 ∈ embeddings /\
     AiProcessor.slideId slide1 <> AiProcessor.slideId slide2 /\
     length (AiProcessor.embedding slide1) <> length (AiProcessor.embedding slide2)) /\
  (forall adjacencyList k,
     AiProcessor.generateAdjacencyList embeddings = Some adjacencyList ->
     is_Some (adjacencyList !! k) <->
     (k ∈ map AiProcessor.slideId embeddings /\ k <> "__proto__")).
Proof.
  split.
  - unfold AiProcessor.generateAdjacencyList. rewrite generateFrom_None. split.
    + intros (s1 & H1 & Hn). apply similaritiesOf_None in Hn as (s2 & H2 & K).
      exists s1, s2. split; [assumption|]. split; assumption.
    + intros (s1 & s2 & H1 & H2 & K). exists s1. split; [assumption|].
      apply similaritiesOf_None. exists s2. split; assumption.
  - intros adjacencyList k Hgen. apply generateAdjacencyList_keys. exact Hgen.
Qed.

(** X26. The guard against division by zero. [calculateSimilarity] of a
    vector of zeros and any vector of the same dimension is 0, whichever
    comes first, and not the NaN the division would give. *)
Theorem calculateSimilarity_zero_vector (embedding1 embedding2 : list PrimFloat.float) :
  length embedding1 = length embedding2 ->
  Forall (fun x => x = PrimFloat.zero) embedding1 ->
  AiProcessor.calculateSimilarity embedding1 embedding2 = Some PrimFloat.zero /\
  AiProcessor.calculateSimilarity embedding2 embedding1 = Some PrimFloat.zero.
Proof.
  intros Hlen Hz. unfold AiProcessor.calculateSimilarity.
  rewrite Hlen, Nat.eqb_refl. simpl.
  destruct (sums_zero embedding1 embedding2 PrimFloat.zero PrimFloat.zero Hz) as (H1 & H2).
  split.
  - destruct (AiProcessor.sums embedding1 embedding2 _ _ _) as [[d m1] m2]. simpl in H1.
    subst m1. reflexivity.
  - destruct (AiProcessor.sums embedding2 embedding1 _ _ _) as [[d m1] m2]. simpl in H2.
    subst m2.
    change (PrimFloat.eqb (PrimFloat.sqrt PrimFloat.zero) PrimFloat.zero) with true.
    rewrite orb_true_r. reflexivity.
Qed.

Lemma calculateSimilarity_zero_vector_witness :
  AiProcessor.calculateSimilarity [PrimFloat.zero; PrimFloat.zero]
    [PrimFloat.one; PrimFloat.two] = Some PrimFloat.zero /\
  AiProcessor.calculateSimilarity [PrimFloat.one; PrimFloat.two]
    [PrimFloat.zero; PrimFloat.zero] = Some PrimFloat.zero.
Proof.
  apply (calculateSimilarity_zero_vector [PrimFloat.zero; PrimFloat.zero]
           [PrimFloat.one; PrimFloat.two]);
    [reflexivity | repeat constructor].
Defined.

(** X27. A processed deck in play. When the adjacency data of a ready deck
    are the entries of an object [generateAdjacencyList] returned, then after
    [startGame] the adjacency table has no row for __proto__, no row lists
    its own slide, and a slide that a row lists as logical or chaotic
    neighbour has a row in the table exactly when its id is not __proto__. *)
Theorem processed_deck_rows (o : GameSession) (g : GameState) (DECKS : KVNamespace)
    (deckId : string) (metadata : DeckMetadata) (adjacencyData : list (string * Neighbors))
    (embeddings : list AiProcessor.SlideEmbedding) (maxSlides : option Z) (now : Z) :
  session o = Some g ->
  deckId <> "" -> deckId <> "default" ->
  get_metadata DECKS ("deck:" +:+ deckId +:+ ":metadata") = Some (Parsed metadata) ->
  deck_status metadata = "ready" ->
  get_adjacency DECKS ("deck:" +:+ deckId +:+ ":adjacency") = Some (Parsed adjacencyData) ->
  NoDup (map fst adjacencyData) ->
  AiProcessor.generateAdjacencyList embeddings = Some (list_to_map adjacencyData) ->
  forall slideId row x,
    adjacency (sql (snd (startGame DECKS deckId maxSlides now o))) !! slideId = Some row ->
    x ∈ logical_slides row \/ x ∈ chaotic_slides row ->
    slideId <> "__proto__" /\ x <> slideId /\
    (is_Some (adjacency (sql (snd (startGame DECKS deckId maxSlides now o))) !! x) <->
     x <> "__proto__").
Proof.
  intros Hs Hne Hnd Hmeta Hready Hadj Hkeys Hgen slideId row x.
  destruct (startGame_ready_table o g DECKS deckId metadata adjacencyData maxSlides now
              Hs Hne Hnd Hmeta Hready Hadj Hkeys) as (t & Ht & _ & ->).
  intros Hrow Hx.
  apply (deckRows_lookup _ _ Ht) in Hrow as (n & Hin & ->). simpl in Hx.
  apply (elem_of_list_to_map_1 (M := gmap string)) in Hin; [|exact Hkeys].
  assert (Hkp : slideId <> "__proto__").
  { apply (generateAdjacencyList_keys _ _ slideId Hgen). eexists. exact Hin. }
  destruct (generateAdjacencyList_entry _ _ _ _ Hgen Hin) as (s & sims & _ & _ & Hids & ->).
  apply neighborsOf_lists in Hx. rewrite Hids in Hx.
  apply list_elem_of_filter in Hx as (Hxk & Hx).
  split; [exact Hkp|]. split; [congruence|]. split.
  - intros [row' Hrow']. apply (deckRows_lookup _ _ Ht) in Hrow' as (n' & Hin' & _).
    apply (elem_of_list_to_map_1 (M := gmap string)) in Hin'; [|exact Hkeys].
    apply (generateAdjacencyList_keys _ _ x Hgen). eexists. exact Hin'.
  - intros Hxp.
    destruct (proj2 (generateAdjacencyList_keys _ _ x Hgen) (conj Hx Hxp)) as [n' Hn'].
    apply elem_of_list_to_map_2 in Hn'.
    eexists. apply (deckRows_lookup _ _ Ht). exists n'. split; [exact Hn' | reflexivity].
Qed.

Lemma processed_deck_rows_witness :
  exists g adjacencyData,
    session demo = Some g /\
    get_adjacency sampleDecks "deck:talk:adjacency" = Some (Parsed adjacencyData) /\
    AiProcessor.generateAdjacencyList AiProcessor.talkEmbeddings
      = Some (list_to_map adjacencyData) /\
    forall slideId row x,
      adjacency (sql (snd (startGame sampleDecks "talk" (Some 3) 2000 demo))) !! slideId
        = Some row ->
      x ∈ logical_slides row \/ x ∈ chaotic_slides row ->
      slideId <> "__proto__" /\ x <> slideId /\
      (is_Some (adjacency (sql (snd (startGame sampleDecks "talk" (Some 3) 2000 demo))) !! x)
       <-> x <> "__proto__").
Proof.
  eexists. eexists. split; [vm_compute; reflexivity|]. split; [reflexivity|].
  split; [vm_compute; reflexivity|].
  eapply (processed_deck_rows demo _ sampleDecks "talk" {| deck_status := "ready" |}
            _ AiProcessor.talkEmbeddings (Some 3) 2000);
    [vm_compute; reflexivity | discriminate | discriminate | reflexivity | reflexivity
    | reflexivity | apply (bool_decide_unpack _); vm_compute; exact I
    | vm_compute; reflexivity].
Defined.

(** X28. The default deck is the deck in the table. [startGame] with the
    deck id default, or the empty string, succeeds on a session and leaves
    the adjacency table as it is: after a game on a loaded deck it does not
    bring the mock deck back. *)
Theorem startGame_default_keeps_table (o : GameSession) (g : GameState)
    (DECKS : KVNamespace) (deckId : string) (maxSlides : option Z) (now : Z) :
  session o = Some g ->
  deckId = "" \/ deckId = "default" ->
  success (fst (startGame DECKS deckId maxSlides now o)) = true /\
  adjacency (sql (snd (startGame DECKS deckId maxSlides now o))) = adjacency (sql o).
Proof.
  intros Hs Hdeck.
  destruct (session_some o g Hs) as (o1 & E & Hg1 & (_ & _ & _ & Fadj & _)).
  rewrite (startGame_on_loaded o o1 g _ _ _ _ E Hg1).
  destruct (startGame DECKS deckId maxSlides now o1) as [r o'] eqn:Est.
  unfold startGame in Est.
  rewrite (bind_ensure _ o1 o1 (ensure_in_memory o1 g Hg1)) in Est.
  unfold bind at 1 in Est. unfold gets at 1 in Est. rewrite Hg1 in Est.
  assert (Hno : truthy (Some deckId) && negb (String.eqb deckId "default") = false).
  { destruct Hdeck as [-> | ->]; reflexivity. }
  rewrite Hno in Est. clear E. run_methods.
  repeat (rewrite Hg1 in Est; simpl in Est). inversion Est; subst r o'. simpl.
  split; [reflexivity | exact Fadj].
Qed.

Lemma startGame_default_keeps_table_witness :
  exists g,
    session (snd (startGame sampleDecks "talk" None 2000 demo)) = Some g /\
    success (fst (startGame sampleDecks "default" None 99000
                    (snd (startGame sampleDecks "talk" None 2000 demo)))) = true /\
    adjacency (sql (snd (startGame sampleDecks "default" None 99000
                           (snd (startGame sampleDecks "talk" None 2000 demo)))))
      = adjacency (sql (snd (startGame sampleDecks "talk" None 2000 demo))).
Proof.
  eexists. split; [vm_compute; reflexivity|].
  eapply (startGame_default_keeps_table (snd (startGame sampleDecks "talk" None 2000 demo))
            _ sampleDecks "default" None 99000);
    [vm_compute; reflexivity | right; reflexivity].
Defined.

(** ** A round on a slide without a row *)

(** X29. The timer fire on a slide without a row. When the alarm fires in
    phase voting and the adjacency table has no row for the current slide,
    the fire closes the voting and does nothing else: the phase stays voting,
    the slide, the tally and the session row are as before, nothing is
    broadcast, and no alarm is pending afterwards, so that no further fire
    ends the round; every vote is refused from then on. *)
Theorem alarm_without_row (o : GameSession) (g : GameState) (now : Z) :
  session o = Some g ->
  phase g = voting ->
  adjacency (sql o) !! currentSlide g = None ->
  session (perform Alarm now o) = Some (set_votingOpen false g) /\
  phase (set_votingOpen false g) = voting /\
  alarmTime (perform Alarm now o) = None /\
  trace (perform Alarm now o) = trace o /\
  game_session (sql (perform Alarm now o)) = game_session (sql o) /\
  adjacency (sql (perform Alarm now o)) = adjacency (sql o) /\
  forall userId choice now',
    fst (vote userId choice now' (perform Alarm now o))
      = {| status := 400; body := Failure "Voting is not currently open" |}.
Proof.
  intros Hs Hp Hrow. unfold perform.
  destruct (alarm_after_load (with_alarmTime None o) now)
    as (o1 & -> & Hg1 & (Ft & Fa & _ & Fadj & Fs)).
  rewrite session_fired, Hs in Hg1.
  rewrite (alarm_dispatch_voting o1 g now Hg1 Hp). cbn [snd].
  assert (Hn : getNextSlide o1 (winner g) = Thrown).
  { apply (getNextSlide_Thrown o1 g _ Hg1). rewrite Fadj. exact Hrow. }
  rewrite (processVotesAndAdvance_threw o1 g now Hg1 Hn). cbn [snd].
  split; [apply session_in_memory; reflexivity|].
  split; [exact Hp|]. split; [exact Fa|]. split; [exact Ft|].
  split; [exact Fs|]. split; [exact Fadj|].
  intros userId choice now'.
  unfold vote.
  rewrite (bind_ensure _ _ _
             (ensure_in_memory (with_gameState (Some (set_votingOpen false g)) o1)
                (set_votingOpen false g) eq_refl)).
  reflexivity.
Qed.

Lemma alarm_without_row_witness :
  exists g,
    session blankRound = Some g /\ phase g = voting /\ votingOpen g = true /\
    alarmTime blankRound = Some (timerEnd g) /\
    session (perform Alarm 60000 blankRound) = Some (set_votingOpen false g) /\
    phase (set_votingOpen false g) = voting /\
    alarmTime (perform Alarm 60000 blankRound) = None /\
    trace (perform Alarm 60000 blankRound) = trace blankRound /\
    game_session (sql (perform Alarm 60000 blankRound)) = game_session (sql blankRound) /\
    adjacency (sql (perform Alarm 60000 blankRound)) = adjacency (sql blankRound) /\
    forall userId choice now',
      fst (vote userId choice now' (perform Alarm 60000 blankRound))
        = {| status := 400; body := Failure "Voting is not currently open" |}.
Proof.
  eexists. split; [vm_compute; reflexivity|]. split; [reflexivity|].
  split; [reflexivity|]. split; [vm_compute; reflexivity|].
  eapply (alarm_without_row blankRound _ 60000);
    [vm_compute; reflexivity | reflexivity | vm_compute; reflexivity].
Defined.
